(** * AutoTyper: the typing-dispatch core of [typer.py] and [auto_typer.py]

    A shallow embedding of the two programs of the repository:

    - [Typer] follows [typer.py] (the PyQt5 edition): the hotkey helpers
      [pretty_hotkey_display] and [to_pynput_hotkey], the [TypingWorker]
      with its formatters and its [run] method, and the start/stop/apply
      handlers of [AutoTyperWindow];
    - [AutoTyper] follows [auto_typer.py] (the Tk edition): its formatters,
      [type_normal_text] and [type_text], the countdown driven by
      [root.after], and the hotkey dialog.

    Conventions.  A Python [str] is a [list ascii]; a character stands for
    the code point of the same number (0..255).  Whitespace, line
    boundaries and lower-casing follow Python on that whole range;
    upper-casing follows Python on the code points below 128, and the
    statements that depend on it say so.  In [Typer] and [AutoTyper] a
    Python [float] is a rational number ([Q]), with exact sums and
    comparisons: what is proved there (which keys are emitted, which signal
    ends a run, that a run ends) does not depend on rounding.  [Typer64]
    has the worker of typer.py with its numbers in binary64, as Python has
    them; what depends on the number of rounds a loop makes is stated
    there.  Unbounded [while] loops take a fuel argument and return [None]
    when it is exhausted; the theorems give the fuel for which they do
    not. *)

From Stdlib Require Import List Ascii String Bool Arith ZArith QArith Qround
  Lia Lqa SpecFloat.
Import ListNotations.

Close Scope Q_scope.
Local Open Scope list_scope.
Local Open Scope bool_scope.

(* ================================================================== *)
(** ** Python string primitives *)
(* ================================================================== *)

Module Py.

Definition str := list ascii.

(** A literal: [s "ctrl+s"] is the Python string ['ctrl+s']. *)
Definition s (lit : string) : str := list_ascii_of_string lit.

Definition code (c : ascii) : nat := nat_of_ascii c.

Definition TAB : ascii := ascii_of_nat 9.
Definition LF : ascii := ascii_of_nat 10.
Definition CR : ascii := ascii_of_nat 13.
Definition SPACE : ascii := ascii_of_nat 32.
Definition PLUS : ascii := ascii_of_nat 43.
Definition LT : ascii := ascii_of_nat 60.
Definition GT : ascii := ascii_of_nat 62.

Definition is_ascii (c : ascii) : bool := code c <? 128.

(** [c.isspace()]: the characters that [strip], [lstrip] and [rstrip]
    remove when called without argument. *)
Definition isspace (c : ascii) : bool :=
  let n := code c in
  ((9 <=? n) && (n <=? 13)) || ((28 <=? n) && (n <=? 32))
  || (n =? 133) || (n =? 160).

(** The line boundaries of [str.splitlines]. *)
Definition is_linebreak (c : ascii) : bool :=
  let n := code c in
  ((10 <=? n) && (n <=? 13)) || ((28 <=? n) && (n <=? 30)) || (n =? 133).

Definition is_upper (c : ascii) : bool :=
  let n := code c in
  ((65 <=? n) && (n <=? 90)) || ((192 <=? n) && (n <=? 214))
  || ((216 <=? n) && (n <=? 222)).

Definition is_lower_ascii (c : ascii) : bool :=
  let n := code c in (97 <=? n) && (n <=? 122).

Definition lower_char (c : ascii) : ascii :=
  if is_upper c then ascii_of_nat (code c + 32) else c.

(** Upper-casing of one character, as Python does below code point 128. *)
Definition upper_char (c : ascii) : ascii :=
  if is_lower_ascii c then ascii_of_nat (code c - 32) else c.

(** [x.lower()] *)
Definition lower (x : str) : str := map lower_char x.

(** [x.capitalize()]: first character upper-cased, the rest lower-cased. *)
Definition capitalize (x : str) : str :=
  match x with
  | [] => []
  | c :: t => upper_char c :: lower t
  end.

(** [x.lstrip()] *)
Fixpoint lstrip (x : str) : str :=
  match x with
  | [] => []
  | c :: t => if isspace c then lstrip t else x
  end.

(** [x.rstrip()] *)
Fixpoint rstrip (x : str) : str :=
  match x with
  | [] => []
  | c :: t =>
      match rstrip t with
      | [] => if isspace c then [] else [c]
      | r => c :: r
      end
  end.

(** [x.strip()] *)
Definition strip (x : str) : str := lstrip (rstrip x).

(** [x.rstrip(ch)] for a one-character argument, as in [txt.rstrip("\n")]. *)
Fixpoint rstrip_char (ch : ascii) (x : str) : str :=
  match x with
  | [] => []
  | c :: t =>
      match rstrip_char ch t with
      | [] => if Ascii.eqb c ch then [] else [c]
      | r => c :: r
      end
  end.

(** [x.split(sep)] for a one-character separator. *)
Fixpoint split (sep : ascii) (x : str) : list str :=
  match x with
  | [] => [[]]
  | c :: t =>
      if Ascii.eqb c sep then [] :: split sep t
      else match split sep t with
           | [] => [[c]]
           | l :: ls => (c :: l) :: ls
           end
  end.

(** [x.splitlines()]; [after_cr] records that the previous character was a
    carriage return, so that a line feed completing ["\r\n"] opens no line. *)
Fixpoint splitlines_from (after_cr : bool) (x : str) : list str :=
  match x with
  | [] => []
  | c :: t =>
      if after_cr && Ascii.eqb c LF then splitlines_from false t
      else if is_linebreak c then [] :: splitlines_from (Ascii.eqb c CR) t
      else match splitlines_from false t with
           | [] => [[c]]
           | l :: ls => (c :: l) :: ls
           end
  end.

Definition splitlines (x : str) : list str := splitlines_from false x.

(** [sep.join(parts)] *)
Fixpoint join (sep : str) (parts : list str) : str :=
  match parts with
  | [] => []
  | [p] => p
  | p :: rest => p ++ sep ++ join sep rest
  end.

(** [x.replace(ch, '')] for a one-character [ch]. *)
Definition remove_char (ch : ascii) (x : str) : str :=
  filter (fun c => negb (Ascii.eqb c ch)) x.

(** [' ' * n] *)
Definition spaces (n : nat) : str := repeat SPACE n.

Definition str_eqb (x y : str) : bool :=
  if list_eq_dec ascii_dec x y then true else false.

(** Truthiness of a string: [if x:]. *)
Definition nonempty (x : str) : bool :=
  match x with [] => false | _ => true end.

(** Comparison and the two-argument [max] and [min] of Python on floats:
    [max(a, b)] is [b] when [b > a] and [a] otherwise; [min(a, b)] is [b]
    when [b < a] and [a] otherwise. *)
Definition lt (x y : Q) : bool := negb (Qle_bool y x).
Definition max (a b : Q) : Q := if lt a b then b else a.
Definition min (a b : Q) : Q := if lt b a then b else a.

End Py.

(* ================================================================== *)
(** ** The calls into pyautogui and the dialogs, shared by both programs *)
(* ================================================================== *)

Module Gui.

(** A synthetic keystroke requested from pyautogui. *)
Inductive KeyOp :=
| Press (key : string)   (* pyautogui.press(key) *)
| Write (ch : ascii).    (* pyautogui.write(ch) *)

(** A message box shown to the user. *)
Inductive Dialog :=
| Information (title msg : string)
| Warning (title msg : string)
| Critical (title msg : string).

End Gui.

(* ================================================================== *)
(** ** typer.py *)
(* ================================================================== *)

Module Typer.
Import Py.
Export Gui.

(** *** Utility functions *)

(** [pretty_hotkey_display]: ["+".join(part.capitalize() for part in
    hk_text.split("+"))]. *)
Definition pretty_hotkey_display (hk_text : str) : str :=
  join [PLUS] (map capitalize (split PLUS hk_text)).

(** A call of [to_pynput_hotkey] returns a string or raises [ValueError]. *)
Inductive result :=
| Ok (hk : str)
| ValueError (msg : string).

(** The body of the loop over [parts[:-1]]. *)
Definition convert_modifier (p : str) : str :=
  if str_eqb p (s "ctrl") || str_eqb p (s "control") then s "<ctrl>"
  else if str_eqb p (s "alt") then s "<alt>"
  else if str_eqb p (s "shift") then s "<shift>"
  else [LT] ++ p ++ [GT].

(** [[p.strip().lower() for p in hk_text.split("+") if p.strip()]] *)
Definition hotkey_parts (hk_text : str) : list str :=
  map (fun p => lower (strip p))
      (filter (fun p => nonempty (strip p)) (split PLUS hk_text)).

Definition to_pynput_hotkey (hk_text : str) : result :=
  let parts := hotkey_parts hk_text in
  match parts with
  | [] => ValueError "Empty hotkey"
  | [p] => Ok p
  | _ => Ok (join [PLUS]
               (map convert_modifier (removelast parts) ++ [last parts []]))
  end.

(** *** The typing worker *)

(** The fields of [TypingWorker] apart from [stop_flag], which is shared
    with the window and lives in the environment below.  The speed and the
    delay are rationals, and the loops of [run] below count in exact
    arithmetic; [Typer64] has them in binary64. *)
Record TypingWorker := {
  text : str;
  speed : Q;
  language : str;
  start_delay : Q;
  type_any_window : bool
}.

(** [TypingWorker.__init__] *)
Definition init (text : str) (speed : Q) (language : str) (start_delay : Q)
    (type_any_window : bool) : TypingWorker :=
  {| text := text;
     speed := max 0 speed;
     language := language;
     start_delay := max 0 start_delay;
     type_any_window := type_any_window |}.

Definition format_python (txt : str) : str :=
  join [LF] (map rstrip (splitlines txt)).

Definition format_c_style (txt : str) : str :=
  join [LF] (map rstrip (splitlines txt)).

Definition format_text (txt : str) : str := rstrip_char LF txt.

(** The pre-formatting at the head of [run]. *)
Definition preformat (language txt : str) : str :=
  if str_eqb language (s "python") then format_python txt
  else if existsb (str_eqb language)
            [s "c++"; s "java"; s "javascript"; s "c#"]
       then format_c_style txt
  else format_text txt.

Inductive ProgressMsg :=
| Starting (delay : Q)            (* "Starting in ... s. Click in target window." *)
| TypingInto (process : string).  (* "Typing into process: ..." *)

Inductive Event :=
| Progress (m : ProgressMsg)  (* self.progress.emit(...) *)
| IsSet (b : bool)            (* self.stop_flag.is_set() returned b *)
| Sleep (d : Q)               (* time.sleep(d) *)
| Key (k : KeyOp).            (* a pyautogui call that returned *)

(** The events of a run so far, oldest first. *)
Definition History := list Event.

(** The worker's environment.  The stop flag is written by another thread,
    so what a read returns is given by the environment, as a function of
    everything the run has done so far; likewise whether a pyautogui call
    raises, and what the foreground-window inspection reports ([None] when
    it raises). *)
Record Env := {
  stop_is_set : History -> bool;
  key_fault : History -> KeyOp -> option string;
  win32_available : bool;
  foreground : option string
}.

Inductive Signal :=
| finished (msg : string)
| error (msg : string).

(** The state of control after a statement: execution goes on, [run] has
    emitted [finished] and returned, an exception is propagating, or a
    loop ran out of fuel. *)
Inductive Flow :=
| Go (h : History)
| Done (sig : Signal) (h : History)
| Raise (e : string) (h : History)
| OutOfFuel.

Definition and_then (f : Flow) (k : History -> Flow) : Flow :=
  match f with
  | Go h => k h
  | other => other
  end.

Notation "f ;; k" := (and_then f k) (at level 61, right associativity).

Definition stopped_before : string :=
  "Stopped before typing (user requested stop).".
Definition stopped_during : string := "Stopped by user during typing.".
Definition completed : string := "Typing completed successfully.".

(** [if self.stop_flag.is_set(): self.finished.emit(msg); return] *)
Definition check_stop (env : Env) (msg : string) (h : History) : Flow :=
  let b := stop_is_set env h in
  if b then Done (finished msg) (h ++ [IsSet b]) else Go (h ++ [IsSet b]).

Definition sleep (d : Q) (h : History) : Flow := Go (h ++ [Sleep d]).

Definition emit_key (env : Env) (k : KeyOp) (h : History) : Flow :=
  match key_fault env h k with
  | Some e => Raise e h
  | None => Go (h ++ [Key k])
  end.

Definition progress (m : ProgressMsg) (h : History) : Flow :=
  Go (h ++ [Progress m]).

Definition wait_step : Q := 5 # 100.
Definition sleep_step : Q := 1 # 100.

(** The start-delay loop: [while waited < self.start_delay: ...]. *)
Fixpoint countdown (env : Env) (fuel : nat) (start_delay waited : Q)
    (h : History) {struct fuel} : Flow :=
  if lt waited start_delay then
    match fuel with
    | O => OutOfFuel
    | S fuel' =>
        check_stop env stopped_before h ;; fun h =>
        sleep wait_step h ;; fun h =>
        countdown env fuel' start_delay (waited + wait_step)%Q h
    end
  else Go h.

(** The pause after a keystroke: [while slept < self.speed: ...]. *)
Fixpoint keystroke_pause (env : Env) (fuel : nat) (speed slept : Q)
    (h : History) {struct fuel} : Flow :=
  if lt slept speed then
    match fuel with
    | O => OutOfFuel
    | S fuel' =>
        check_stop env stopped_during h ;; fun h =>
        let step := min sleep_step (speed - slept)%Q in
        sleep step h ;; fun h =>
        keystroke_pause env fuel' speed (slept + step)%Q h
    end
  else Go h.

(** The pause after a newline: [while slept < nl_delay: ...]. *)
Fixpoint newline_pause (env : Env) (fuel : nat) (nl_delay slept : Q)
    (h : History) {struct fuel} : Flow :=
  if lt slept nl_delay then
    match fuel with
    | O => OutOfFuel
    | S fuel' =>
        check_stop env stopped_during h ;; fun h =>
        sleep sleep_step h ;; fun h =>
        newline_pause env fuel' nl_delay (slept + sleep_step)%Q h
    end
  else Go h.

(** [for ch in line: ...] *)
Fixpoint type_line (env : Env) (fuel : nat) (speed : Q) (line : str)
    (h : History) : Flow :=
  match line with
  | [] => Go h
  | ch :: rest =>
      check_stop env stopped_during h ;; fun h =>
      emit_key env (if Ascii.eqb ch TAB then Press "tab" else Write ch) h ;;
      fun h =>
      keystroke_pause env fuel speed 0 h ;; fun h =>
      type_line env fuel speed rest h
  end.

(** [for li, line in enumerate(lines): ...], entered at index [li] with
    [lines] still to type; [n] is [len(lines)] of the whole text. *)
Fixpoint type_lines (env : Env) (fuel : nat) (speed : Q) (n li : nat)
    (lines : list str) (h : History) : Flow :=
  match lines with
  | [] => Go h
  | line :: rest =>
      check_stop env stopped_during h ;; fun h =>
      type_line env fuel speed line h ;; fun h =>
      (if li <? n - 1 then
         emit_key env (Press "enter") h ;; fun h =>
         newline_pause env fuel (max (1 # 1000) (speed * (6 # 10))%Q) 0 h
       else Go h) ;; fun h =>
      type_lines env fuel speed n (S li) rest h
  end.

(** The informational foreground-window report. *)
Definition focus_report (env : Env) (w : TypingWorker) (h : History) : Flow :=
  if negb (type_any_window w) && win32_available env then
    match foreground env with
    | Some name => progress (TypingInto name) h
    | None => Go h
    end
  else Go h.

(** [TypingWorker.run]: the signal emitted at the end of the run and what
    the run did, or [None] when [fuel] does not suffice. *)
Definition run (env : Env) (fuel : nat) (w : TypingWorker)
    : option (Signal * History) :=
  let txt := preformat (language w) (text w) in
  let lines := split LF txt in
  let flow :=
    progress (Starting (start_delay w)) [] ;; fun h =>
    countdown env fuel (start_delay w) 0 h ;; fun h =>
    focus_report env w h ;; fun h =>
    type_lines env fuel (speed w) (List.length lines) 0 lines h in
  match flow with
  | Go h => Some (finished completed, h)
  | Done sig h => Some (sig, h)
  | Raise e h => Some (error ("Typing error: " ++ e), h)
  | OutOfFuel => None
  end.

(** The keys emitted, the sleeps and the flag reads of a history. *)
Definition keys (h : History) : list KeyOp :=
  flat_map (fun e => match e with Key k => [k] | _ => [] end) h.

Definition sleeps (h : History) : list Q :=
  flat_map (fun e => match e with Sleep d => [d] | _ => [] end) h.

(** Seconds slept so far. *)
Definition elapsed (h : History) : Q :=
  fold_right Qplus 0%Q (sleeps h).

(** *** The main window *)

Inductive Trigger := TriggerStart | TriggerStop.

(** The dict literal [{start_pyn: ..., stop_pyn: ...}] handed to
    [keyboard.GlobalHotKeys]: with equal keys the later entry wins. *)
Definition hotkey_mapping (start_pyn stop_pyn : str) : list (str * Trigger) :=
  if str_eqb start_pyn stop_pyn then [(stop_pyn, TriggerStop)]
  else [(start_pyn, TriggerStart); (stop_pyn, TriggerStop)].

Record Settings := {
  typing_speed : Q;
  settings_language : str;
  start_hotkey : str;
  stop_hotkey : str;
  hotkeys_enabled : bool;
  settings_start_delay : Q;
  settings_type_any_window : bool
}.

(** The state of [AutoTyperWindow] that the handlers read and write.  The
    status label is kept without its time stamp; [started] lists the
    workers whose thread was started, oldest first; [hotkey_listener] is
    the mapping of the live listener, if any. *)
Record Window := {
  is_typing : bool;
  stop_event : bool;
  status : string;
  ui_running : bool;
  started : list TypingWorker;
  dialogs : list Dialog;
  hotkey_listener : option (list (str * Trigger));
  settings : Settings;
  text_edit : str;
  speed_slider : Z;
  lang_combo : str;
  delay_input : Q;
  any_window_checkbox : bool;
  hotkey_enable_cb : bool;
  start_hotkey_input : str;
  stop_hotkey_input : str
}.

Definition set_status (msg : string) (w : Window) : Window :=
  {| is_typing := is_typing w; stop_event := stop_event w; status := msg;
     ui_running := ui_running w; started := started w;
     dialogs := dialogs w; hotkey_listener := hotkey_listener w;
     settings := settings w; text_edit := text_edit w;
     speed_slider := speed_slider w; lang_combo := lang_combo w;
     delay_input := delay_input w;
     any_window_checkbox := any_window_checkbox w;
     hotkey_enable_cb := hotkey_enable_cb w;
     start_hotkey_input := start_hotkey_input w;
     stop_hotkey_input := stop_hotkey_input w |}.

Definition set_is_typing (b : bool) (w : Window) : Window :=
  {| is_typing := b; stop_event := stop_event w; status := status w;
     ui_running := ui_running w; started := started w;
     dialogs := dialogs w; hotkey_listener := hotkey_listener w;
     settings := settings w; text_edit := text_edit w;
     speed_slider := speed_slider w; lang_combo := lang_combo w;
     delay_input := delay_input w;
     any_window_checkbox := any_window_checkbox w;
     hotkey_enable_cb := hotkey_enable_cb w;
     start_hotkey_input := start_hotkey_input w;
     stop_hotkey_input := stop_hotkey_input w |}.

Definition set_stop_event (b : bool) (w : Window) : Window :=
  {| is_typing := is_typing w; stop_event := b; status := status w;
     ui_running := ui_running w; started := started w;
     dialogs := dialogs w; hotkey_listener := hotkey_listener w;
     settings := settings w; text_edit := text_edit w;
     speed_slider := speed_slider w; lang_combo := lang_combo w;
     delay_input := delay_input w;
     any_window_checkbox := any_window_checkbox w;
     hotkey_enable_cb := hotkey_enable_cb w;
     start_hotkey_input := start_hotkey_input w;
     stop_hotkey_input := stop_hotkey_input w |}.

(** [_toggle_ui_running] *)
Definition toggle_ui_running (running : bool) (w : Window) : Window :=
  {| is_typing := is_typing w; stop_event := stop_event w;
     status := status w; ui_running := running; started := started w;
     dialogs := dialogs w; hotkey_listener := hotkey_listener w;
     settings := settings w; text_edit := text_edit w;
     speed_slider := speed_slider w; lang_combo := lang_combo w;
     delay_input := delay_input w;
     any_window_checkbox := any_window_checkbox w;
     hotkey_enable_cb := hotkey_enable_cb w;
     start_hotkey_input := start_hotkey_input w;
     stop_hotkey_input := stop_hotkey_input w |}.

Definition start_thread (worker : TypingWorker) (w : Window) : Window :=
  {| is_typing := is_typing w; stop_event := stop_event w;
     status := status w; ui_running := ui_running w;
     started := started w ++ [worker];
     dialogs := dialogs w; hotkey_listener := hotkey_listener w;
     settings := settings w; text_edit := text_edit w;
     speed_slider := speed_slider w; lang_combo := lang_combo w;
     delay_input := delay_input w;
     any_window_checkbox := any_window_checkbox w;
     hotkey_enable_cb := hotkey_enable_cb w;
     start_hotkey_input := start_hotkey_input w;
     stop_hotkey_input := stop_hotkey_input w |}.

Definition show_dialog (d : Dialog) (w : Window) : Window :=
  {| is_typing := is_typing w; stop_event := stop_event w;
     status := status w; ui_running := ui_running w; started := started w;
     dialogs := dialogs w ++ [d]; hotkey_listener := hotkey_listener w;
     settings := settings w; text_edit := text_edit w;
     speed_slider := speed_slider w; lang_combo := lang_combo w;
     delay_input := delay_input w;
     any_window_checkbox := any_window_checkbox w;
     hotkey_enable_cb := hotkey_enable_cb w;
     start_hotkey_input := start_hotkey_input w;
     stop_hotkey_input := stop_hotkey_input w |}.

Definition set_listener (l : option (list (str * Trigger))) (w : Window)
    : Window :=
  {| is_typing := is_typing w; stop_event := stop_event w;
     status := status w; ui_running := ui_running w; started := started w;
     dialogs := dialogs w; hotkey_listener := l;
     settings := settings w; text_edit := text_edit w;
     speed_slider := speed_slider w; lang_combo := lang_combo w;
     delay_input := delay_input w;
     any_window_checkbox := any_window_checkbox w;
     hotkey_enable_cb := hotkey_enable_cb w;
     start_hotkey_input := start_hotkey_input w;
     stop_hotkey_input := stop_hotkey_input w |}.

Definition set_settings (st : Settings) (w : Window) : Window :=
  {| is_typing := is_typing w; stop_event := stop_event w;
     status := status w; ui_running := ui_running w; started := started w;
     dialogs := dialogs w; hotkey_listener := hotkey_listener w;
     settings := st; text_edit := text_edit w;
     speed_slider := speed_slider w; lang_combo := lang_combo w;
     delay_input := delay_input w;
     any_window_checkbox := any_window_checkbox w;
     hotkey_enable_cb := hotkey_enable_cb w;
     start_hotkey_input := start_hotkey_input w;
     stop_hotkey_input := stop_hotkey_input w |}.

(** [start_typing] *)
Definition start_typing (txt : str) (w : Window) : Window :=
  let w := set_is_typing true w in
  let w := set_status "Preparing to type..." w in
  let w := toggle_ui_running true w in
  let w := set_stop_event false w in
  let worker :=
    init txt (typing_speed (settings w)) (lang_combo w) (delay_input w)
         (any_window_checkbox w) in
  start_thread worker w.

(** [on_start_clicked] *)
Definition on_start_clicked (w : Window) : Window :=
  if is_typing w then set_status "Typing already in progress." w
  else
    let txt := text_edit w in
    if negb (nonempty (strip txt)) then
      show_dialog (Warning "Warning" "Please enter some text to type.") w
    else start_typing txt (set_stop_event false w).

(** [on_stop_clicked] *)
Definition on_stop_clicked (w : Window) : Window :=
  if is_typing w then set_status "Stopping..." (set_stop_event true w)
  else set_status "No typing in progress." w.

(** [handle_typing_finished], the slot of the worker's [finished] signal. *)
Definition handle_typing_finished (msg : string) (w : Window) : Window :=
  let w := set_is_typing false w in
  let w := set_status msg w in
  let w := toggle_ui_running false w in
  set_stop_event false w.

(** [handle_typing_error], the slot of the worker's [error] signal. *)
Definition handle_typing_error (err : string) (w : Window) : Window :=
  let w := set_is_typing false w in
  let w := set_status err w in
  let w := toggle_ui_running false w in
  let w := set_stop_event false w in
  show_dialog (Critical "Typing Error" err) w.

(** Delivery of the signal a run ends with to the slot connected to it in
    [start_typing]. *)
Definition deliver (sig : Signal) (w : Window) : Window :=
  match sig with
  | finished msg => handle_typing_finished msg w
  | error err => handle_typing_error err w
  end.

(** [save_settings], up to the write of the settings file. *)
Definition save_settings (w : Window) : Window :=
  set_settings
    {| typing_speed := (inject_Z (speed_slider w) / inject_Z 1000)%Q;
       settings_language := lang_combo w;
       start_hotkey := strip (start_hotkey_input w);
       stop_hotkey := strip (stop_hotkey_input w);
       hotkeys_enabled := hotkey_enable_cb w;
       settings_start_delay := delay_input w;
       settings_type_any_window := any_window_checkbox w |} w.

(** [stop_hotkey_listener] *)
Definition stop_hotkey_listener (w : Window) : Window :=
  set_listener None w.

Definition text_of (x : str) : string := string_of_list_ascii x.

(** [start_hotkey_listener]; [os mapping] is [Some e] when
    [keyboard.GlobalHotKeys(mapping)] or its [start] raises [e]. *)
Definition start_hotkey_listener
    (os : list (str * Trigger) -> option string) (w : Window) : Window :=
  let w := stop_hotkey_listener w in
  if negb (hotkeys_enabled (settings w)) then w
  else
    let start_hk := start_hotkey (settings w) in
    let stop_hk := stop_hotkey (settings w) in
    match to_pynput_hotkey start_hk, to_pynput_hotkey stop_hk with
    | Ok start_pyn, Ok stop_pyn =>
        let mapping := hotkey_mapping start_pyn stop_pyn in
        match os mapping with
        | None =>
            set_status
              ("Hotkeys registered: Start="
               ++ text_of (pretty_hotkey_display start_hk) ++ " Stop="
               ++ text_of (pretty_hotkey_display stop_hk))
              (set_listener (Some mapping) w)
        | Some e => set_status ("Failed to register hotkeys: " ++ e) w
        end
    | ValueError e, _ => set_status ("Invalid hotkey format: " ++ e) w
    | _, ValueError e => set_status ("Invalid hotkey format: " ++ e) w
    end.

(** [restart_hotkey_listener] *)
Definition restart_hotkey_listener
    (os : list (str * Trigger) -> option string) (w : Window) : Window :=
  start_hotkey_listener os (stop_hotkey_listener w).

(** [on_apply_hotkeys] *)
Definition on_apply_hotkeys
    (os : list (str * Trigger) -> option string) (w : Window) : Window :=
  let start_hk := lower (strip (start_hotkey_input w)) in
  let stop_hk := lower (strip (stop_hotkey_input w)) in
  if negb (nonempty start_hk) || negb (nonempty stop_hk) then
    show_dialog
      (Critical "Error" "Please enter both start and stop hotkeys.") w
  else if str_eqb start_hk stop_hk then
    show_dialog
      (Critical "Error" "Start and stop hotkeys must be different.") w
  else
    let st := settings w in
    let w :=
      set_settings
        {| typing_speed := typing_speed st;
           settings_language := settings_language st;
           start_hotkey := start_hk;
           stop_hotkey := stop_hk;
           hotkeys_enabled := hotkeys_enabled st;
           settings_start_delay := settings_start_delay st;
           settings_type_any_window := settings_type_any_window st |} w in
    let w := save_settings w in
    let w := restart_hotkey_listener os w in
    set_status
      ("Hotkeys applied: Start=" ++ text_of (pretty_hotkey_display start_hk)
       ++ " Stop=" ++ text_of (pretty_hotkey_display stop_hk)) w.

(** [on_hotkey_toggle]; [checked] is [state == QtCore.Qt.Checked]. *)
Definition on_hotkey_toggle
    (os : list (str * Trigger) -> option string) (checked : bool)
    (w : Window) : Window :=
  let st := settings w in
  let w :=
    set_settings
      {| typing_speed := typing_speed st;
         settings_language := settings_language st;
         start_hotkey := start_hotkey st;
         stop_hotkey := stop_hotkey st;
         hotkeys_enabled := checked;
         settings_start_delay := settings_start_delay st;
         settings_type_any_window := settings_type_any_window st |} w in
  if checked then
    set_status "Global hotkeys enabled." (start_hotkey_listener os w)
  else
    set_status "Global hotkeys disabled." (stop_hotkey_listener w).

End Typer.

(* ================================================================== *)
(** ** The worker of typer.py in binary64 *)
(* ================================================================== *)

(** Python's [float]: IEEE 754 binary64, with the operations rounded to
    nearest, ties to even. *)
Module Float64.

Definition float : Type := spec_float.

Definition prec : Z := 53.
Definition emax : Z := 1024.

(** [float(z)] for an integer [z]. *)
Definition of_Z (z : Z) : float := binary_normalize prec emax z 0 false.

Definition zero : float := S754_zero false.

Definition add : float -> float -> float := SFadd prec emax.
Definition sub : float -> float -> float := SFsub prec emax.
Definition mul : float -> float -> float := SFmul prec emax.
Definition div : float -> float -> float := SFdiv prec emax.

(** [x < y] *)
Definition ltb : float -> float -> bool := SFltb.

(** The decimal literal that denotes [n / d], for [n] and [d] below
    [2^53] in absolute value: both are floats, and their quotient is
    rounded as the literal is.  [lit 5 100] is [0.05]. *)
Definition lit (n d : Z) : float := div (of_Z n) (of_Z d).

(** [max(a, b)] is [b] when [b > a] and [a] otherwise; [min(a, b)] is [b]
    when [b < a] and [a] otherwise. *)
Definition max (a b : float) : float := if ltb a b then b else a.
Definition min (a b : float) : float := if ltb b a then b else a.

(** The number that a float is; [0] for what is not a number. *)
Definition to_Q (x : float) : Q :=
  match x with
  | S754_finite sg m e => (inject_Z (cond_Zopp sg (Zpos m)) * 2 ^ e)%Q
  | _ => 0%Q
  end.

End Float64.

(** [TypingWorker] with its numbers as they are in Python.  The worker of
    [Typer] above has the same loops in exact arithmetic; here [waited]
    and [slept] are sums of floats, and the number of rounds of a loop is
    the one the program makes.  A sleep is recorded with the number its
    argument is. *)
Module Typer64.
Import Py Typer Float64.

Record TypingWorker := {
  text : str;
  speed : float;
  language : str;
  start_delay : float;
  type_any_window : bool
}.

(** [TypingWorker.__init__] *)
Definition init (text : str) (speed : float) (language : str)
    (start_delay : float) (type_any_window : bool) : TypingWorker :=
  {| text := text;
     speed := max zero speed;
     language := language;
     start_delay := max zero start_delay;
     type_any_window := type_any_window |}.

Definition wait_step : float := lit 5 100.
Definition sleep_step : float := lit 1 100.

(** The start-delay loop: [while waited < self.start_delay: ...]. *)
Fixpoint countdown (env : Env) (fuel : nat) (start_delay waited : float)
    (h : History) {struct fuel} : Flow :=
  if ltb waited start_delay then
    match fuel with
    | O => OutOfFuel
    | S fuel' =>
        check_stop env stopped_before h ;; fun h =>
        sleep (to_Q wait_step) h ;; fun h =>
        countdown env fuel' start_delay (add waited wait_step) h
    end
  else Go h.

(** The pause after a keystroke: [while slept < self.speed: ...]. *)
Fixpoint keystroke_pause (env : Env) (fuel : nat) (speed slept : float)
    (h : History) {struct fuel} : Flow :=
  if ltb slept speed then
    match fuel with
    | O => OutOfFuel
    | S fuel' =>
        check_stop env stopped_during h ;; fun h =>
        let step := min sleep_step (sub speed slept) in
        sleep (to_Q step) h ;; fun h =>
        keystroke_pause env fuel' speed (add slept step) h
    end
  else Go h.

(** The pause after a newline: [while slept < nl_delay: ...]. *)
Fixpoint newline_pause (env : Env) (fuel : nat) (nl_delay slept : float)
    (h : History) {struct fuel} : Flow :=
  if ltb slept nl_delay then
    match fuel with
    | O => OutOfFuel
    | S fuel' =>
        check_stop env stopped_during h ;; fun h =>
        sleep (to_Q sleep_step) h ;; fun h =>
        newline_pause env fuel' nl_delay (add slept sleep_step) h
    end
  else Go h.

(** [for ch in line: ...] *)
Fixpoint type_line (env : Env) (fuel : nat) (speed : float) (line : str)
    (h : History) : Flow :=
  match line with
  | [] => Go h
  | ch :: rest =>
      check_stop env stopped_during h ;; fun h =>
      emit_key env (if Ascii.eqb ch TAB then Press "tab" else Write ch) h ;;
      fun h =>
      keystroke_pause env fuel speed zero h ;; fun h =>
      type_line env fuel speed rest h
  end.

(** [for li, line in enumerate(lines): ...], entered at index [li] with
    [lines] still to type; [n] is [len(lines)] of the whole text. *)
Fixpoint type_lines (env : Env) (fuel : nat) (speed : float) (n li : nat)
    (lines : list str) (h : History) : Flow :=
  match lines with
  | [] => Go h
  | line :: rest =>
      check_stop env stopped_during h ;; fun h =>
      type_line env fuel speed line h ;; fun h =>
      (if li <? n - 1 then
         emit_key env (Press "enter") h ;; fun h =>
         newline_pause env fuel (max (lit 1 1000) (mul speed (lit 6 10)))
           zero h
       else Go h) ;; fun h =>
      type_lines env fuel speed n (S li) rest h
  end.

(** The informational foreground-window report. *)
Definition focus_report (env : Env) (w : TypingWorker) (h : History) : Flow :=
  if negb (type_any_window w) && win32_available env then
    match foreground env with
    | Some name => progress (TypingInto name) h
    | None => Go h
    end
  else Go h.

(** [TypingWorker.run]: the signal emitted at the end of the run and what
    the run did, or [None] when [fuel] does not suffice. *)
Definition run (env : Env) (fuel : nat) (w : TypingWorker)
    : option (Signal * History) :=
  let txt := preformat (language w) (text w) in
  let lines := split LF txt in
  let flow :=
    progress (Starting (to_Q (start_delay w))) [] ;; fun h =>
    countdown env fuel (start_delay w) zero h ;; fun h =>
    focus_report env w h ;; fun h =>
    type_lines env fuel (speed w) (List.length lines) 0 lines h in
  match flow with
  | Go h => Some (finished completed, h)
  | Done sig h => Some (sig, h)
  | Raise e h => Some (error ("Typing error: " ++ e), h)
  | OutOfFuel => None
  end.

End Typer64.

(* ================================================================== *)
(** ** auto_typer.py *)
(* ================================================================== *)

Module AutoTyper.
Import Py.
Export Gui.

(** *** Formatters *)

(** [len(line) - len(line.lstrip())] *)
Definition indent_of (line : str) : nat :=
  List.length line - List.length (lstrip line).

(** The loop shared by [format_python_code] and [format_generic_code]:
    blank lines are skipped, the others are stripped and re-indented with
    as many spaces as they had leading whitespace characters. *)
Fixpoint formatted_lines (lines : list str) : list str :=
  match lines with
  | [] => []
  | line :: rest =>
      let stripped := strip line in
      if nonempty stripped
      then (spaces (indent_of line) ++ stripped) :: formatted_lines rest
      else formatted_lines rest
  end.

Definition format_python_code (text : str) : str :=
  join [LF] (formatted_lines (split LF text)).

Definition format_generic_code (text comment_prefix : str) : str :=
  join [LF] (formatted_lines (split LF text)).

Definition format_cpp_code (text : str) : str :=
  format_generic_code text (s "//").
Definition format_java_code (text : str) : str :=
  format_generic_code text (s "//").
Definition format_javascript_code (text : str) : str :=
  format_generic_code text (s "//").
Definition format_csharp_code (text : str) : str :=
  format_generic_code text (s "//").

(** The language dispatch at the head of [type_normal_text]. *)
Definition apply_formatting (lang text : str) : str :=
  if negb (str_eqb lang (s "text")) then
    if str_eqb lang (s "python") then format_python_code text
    else if str_eqb lang (s "c++") then format_cpp_code text
    else if str_eqb lang (s "java") then format_java_code text
    else if str_eqb lang (s "javascript") then format_javascript_code text
    else if str_eqb lang (s "c#") then format_csharp_code text
    else text
  else text.

(** *** The typing thread *)

Inductive Event :=
| IsTyping (b : bool)   (* a read of self.is_typing returned b *)
| Sleep (d : Q)         (* time.sleep(d) *)
| Key (k : KeyOp).      (* a pyautogui call that returned *)

Definition History := list Event.

(** [is_typing] is cleared by the main thread when the user stops, so what
    the typing thread reads is given by the environment; likewise whether
    a pyautogui call raises. *)
Record Env := {
  is_typing_read : History -> bool;
  key_fault : History -> KeyOp -> option string
}.

Inductive Flow :=
| Go (h : History)
| Raise (e : string) (h : History).

Definition and_then (f : Flow) (k : History -> Flow) : Flow :=
  match f with
  | Go h => k h
  | other => other
  end.

Notation "f ;; k" := (and_then f k) (at level 61, right associativity).

Definition sleep (d : Q) (h : History) : Flow := Go (h ++ [Sleep d]).

Definition emit_key (env : Env) (k : KeyOp) (h : History) : Flow :=
  match key_fault env h k with
  | Some e => Raise e h
  | None => Go (h ++ [Key k])
  end.

(** [check_window_focus] *)
Definition check_window_focus (prevent_window_check : bool) : bool :=
  if prevent_window_check then true else true.

(** [for char in line: ...]; a cleared [is_typing] breaks out of this loop
    only. *)
Fixpoint type_chars (env : Env) (speed : Q) (line : str) (h : History)
    : Flow :=
  match line with
  | [] => Go h
  | char :: rest =>
      let b := is_typing_read env h in
      let h := h ++ [IsTyping b] in
      if negb b then Go h
      else
        (if Ascii.eqb char TAB then
           emit_key env (Press "tab") h ;; fun h =>
           sleep (speed * (5 # 10))%Q h
         else
           emit_key env (Write char) h ;; fun h =>
           sleep speed h) ;; fun h =>
        type_chars env speed rest h
  end.

(** [for i, line in enumerate(lines): ...], entered at index [i]; [n] is
    [len(lines)] of the whole text. *)
Fixpoint type_lines (env : Env) (speed : Q) (prevent_window_check : bool)
    (n i : nat) (lines : list str) (h : History) : Flow :=
  match lines with
  | [] => Go h
  | line :: rest =>
      let b := is_typing_read env h in
      let h := h ++ [IsTyping b] in
      if negb b then Go h
      else if negb prevent_window_check
              && negb (check_window_focus prevent_window_check)
      then Go h
      else
        type_chars env speed line h ;; fun h =>
        (if i <? n - 1 then
           emit_key env (Press "enter") h ;; fun h =>
           sleep (speed * (8 # 10))%Q h
         else Go h) ;; fun h =>
        type_lines env speed prevent_window_check n (S i) rest h
  end.

(** The status line of the main window. *)
Inductive Status :=
| Ready
| StartingIn (delay : Q)    (* "Starting in ... seconds... Click in target window!" *)
| InProgress                (* "Typing in progress... Press Stop hotkey to cancel" *)
| Completed                 (* "Typing completed successfully!" *)
| ErrorStatus (e : string)  (* "Error: ...", which [type_text] fails to show *)
| StoppedByUser             (* "Stopped by user" *)
| NoTypingInProgress.       (* "No typing in progress" *)

(** The state of [ModernAutoTyper] that the modelled methods read and
    write.  [timers] holds the [countdown_timer] calls scheduled with
    [root.after(1000, ...)], oldest first; [threads] the texts handed to
    the typing threads started, oldest first. *)
Record App := {
  is_typing : bool;
  status_var : Status;
  dialogs : list Dialog;
  timers : list (Q * str);
  threads : list str;
  text_area : str;
  typing_speed : Q;
  language : str;
  start_delay : Q;
  prevent_window_check : bool
}.

Definition set_is_typing (b : bool) (a : App) : App :=
  {| is_typing := b; status_var := status_var a; dialogs := dialogs a;
     timers := timers a; threads := threads a; text_area := text_area a;
     typing_speed := typing_speed a; language := language a;
     start_delay := start_delay a;
     prevent_window_check := prevent_window_check a |}.

Definition set_status (st : Status) (a : App) : App :=
  {| is_typing := is_typing a; status_var := st; dialogs := dialogs a;
     timers := timers a; threads := threads a; text_area := text_area a;
     typing_speed := typing_speed a; language := language a;
     start_delay := start_delay a;
     prevent_window_check := prevent_window_check a |}.

Definition show_dialog (d : Dialog) (a : App) : App :=
  {| is_typing := is_typing a; status_var := status_var a;
     dialogs := dialogs a ++ [d];
     timers := timers a; threads := threads a; text_area := text_area a;
     typing_speed := typing_speed a; language := language a;
     start_delay := start_delay a;
     prevent_window_check := prevent_window_check a |}.

Definition set_timers (ts : list (Q * str)) (a : App) : App :=
  {| is_typing := is_typing a; status_var := status_var a;
     dialogs := dialogs a;
     timers := ts; threads := threads a; text_area := text_area a;
     typing_speed := typing_speed a; language := language a;
     start_delay := start_delay a;
     prevent_window_check := prevent_window_check a |}.

Definition start_thread (text : str) (a : App) : App :=
  {| is_typing := is_typing a; status_var := status_var a;
     dialogs := dialogs a;
     timers := timers a; threads := threads a ++ [text];
     text_area := text_area a;
     typing_speed := typing_speed a; language := language a;
     start_delay := start_delay a;
     prevent_window_check := prevent_window_check a |}.

(** [type_normal_text] *)
Definition type_normal_text (env : Env) (a : App) (text : str) : Flow :=
  let text := apply_formatting (language a) text in
  let lines := split LF text in
  type_lines env (typing_speed a) (prevent_window_check a)
             (List.length lines) 0 lines [].

(** [type_text], the body of the typing thread: the application as the
    thread leaves it (the status it posts with [root.after(0, ...)]
    applied) and what the thread did.  The callback posted in the [except]
    clause reads [e] when the main loop runs it, after the clause has
    unbound that name: it raises [NameError], and the status stays as it
    was. *)
Definition type_text (env : Env) (text : str) (a : App) : App * History :=
  match type_normal_text env a text with
  | Go h =>
      let b := is_typing_read env h in
      let h := h ++ [IsTyping b] in
      (set_is_typing false (if b then set_status Completed a else a), h)
  | Raise e h => (set_is_typing false a, h)
  end.

(** *** Starting and stopping *)

(** [begin_typing] *)
Definition begin_typing (text : str) (a : App) : App :=
  let a := set_is_typing true a in
  let a := set_status InProgress a in
  start_thread text a.

(** [countdown_timer] *)
Definition countdown_timer (delay : Q) (text : str) (a : App) : App :=
  if lt 0 delay then
    let a := set_status (StartingIn delay) a in
    set_timers (timers a ++ [((delay - 1)%Q, text)]) a
  else begin_typing text a.

(** The Tk main loop runs the oldest scheduled [countdown_timer] call. *)
Definition fire_timer (a : App) : App :=
  match timers a with
  | [] => a
  | (delay, text) :: rest => countdown_timer delay text (set_timers rest a)
  end.

(** [start_typing] *)
Definition start_typing (a : App) : App :=
  let text := strip (text_area a) in
  if negb (nonempty text) then
    show_dialog (Warning "Warning" "Please enter some text to type!") a
  else if is_typing a then
    show_dialog (Information "Info" "Typing is already in progress!") a
  else
    let delay_seconds := start_delay a in
    let a := set_status (StartingIn delay_seconds) a in
    countdown_timer delay_seconds text a.

(** [stop_typing] *)
Definition stop_typing (a : App) : App :=
  if is_typing a then set_status StoppedByUser (set_is_typing false a)
  else set_status NoTypingInProgress a.

(** *** Hotkeys *)

(** [format_hotkey_for_display]:
    [hotkey.replace('<', '').replace('>', '').replace('+', '+').capitalize()] *)
Definition format_hotkey_for_display (hotkey : str) : str :=
  capitalize (remove_char GT (remove_char LT hotkey)).

(** The state of a [HotkeyDialog]. *)
Record HotkeyDialog := {
  start_var : str;
  stop_var : str;
  result : option (str * str);
  destroyed : bool;
  errors : list Dialog
}.

(** [f"<{'>+<'.join(hk.split('+'))}>"] *)
Definition wrap_tokens (hk : str) : str :=
  [LT] ++ join (s ">+<") (split PLUS hk) ++ [GT].

(** [HotkeyDialog.ok_clicked] *)
Definition ok_clicked (d : HotkeyDialog) : HotkeyDialog :=
  let start := lower (strip (start_var d)) in
  let stop := lower (strip (stop_var d)) in
  if negb (nonempty start) || negb (nonempty stop) then
    {| start_var := start_var d; stop_var := stop_var d;
       result := result d; destroyed := destroyed d;
       errors := errors d ++ [Critical "Error" "Please enter both hotkeys!"] |}
  else if str_eqb start stop then
    {| start_var := start_var d; stop_var := stop_var d;
       result := result d; destroyed := destroyed d;
       errors := errors d
         ++ [Critical "Error" "Start and stop hotkeys must be different!"] |}
  else
    {| start_var := start_var d; stop_var := stop_var d;
       result := Some (wrap_tokens start, wrap_tokens stop);
       destroyed := true;
       errors := errors d |}.

(** *** The hotkey dialog and the hotkey listener *)

(** [HotkeyDialog.__init__]: the entries show the current hotkeys without
    their angle brackets. *)
Definition HotkeyDialog_init (current_start current_stop : str)
    : HotkeyDialog :=
  {| start_var := remove_char GT (remove_char LT current_start);
     stop_var := remove_char GT (remove_char LT current_stop);
     result := None; destroyed := false; errors := [] |}.

Definition valid_modifiers : list str := [s "ctrl"; s "alt"; s "shift"].

(** [validate_hotkey], local to [test_hotkeys]. *)
Definition validate_hotkey (hotkey : str) : bool * string :=
  let parts := map (fun p => lower (strip p)) (split PLUS hotkey) in
  if List.length parts <? 2 then
    (false, "Hotkey must contain at least one modifier and one key"%string)
  else
    let modifiers := removelast parts in
    let key := last parts [] in
    match
      find (fun m => negb (existsb (str_eqb m) valid_modifiers)) modifiers
    with
    | Some m =>
        (false, ("Invalid modifier: " ++ string_of_list_ascii m)%string)
    | None =>
        if negb (nonempty key) then (false, "Key cannot be empty"%string)
        else (true, "Valid"%string)
    end.

(** The message box that [test_hotkeys] shows. *)
Inductive TestResult :=
| EnterBoth     (* showerror("Error", "Please enter both hotkeys!") *)
| MustDiffer    (* showerror("Error", "Start and stop hotkeys must be different!") *)
| BothValid     (* showinfo("Test Result", "... Both hotkeys appear to be valid! ...") *)
| Invalid (start_msg stop_msg : option string).
                (* showerror("Test Result", "Hotkey validation errors: ...") *)

(** [HotkeyDialog.test_hotkeys] *)
Definition test_hotkeys (d : HotkeyDialog) : TestResult :=
  let start := strip (start_var d) in
  let stop := strip (stop_var d) in
  if negb (nonempty start) || negb (nonempty stop) then EnterBoth
  else if str_eqb start stop then MustDiffer
  else
    let (start_valid, start_msg) := validate_hotkey start in
    let (stop_valid, stop_msg) := validate_hotkey stop in
    if start_valid && stop_valid then BothValid
    else Invalid (if negb start_valid then Some start_msg else None)
                 (if negb stop_valid then Some stop_msg else None).

(** *** The hotkey listener *)

(** [on_hotkey_start] and [on_hotkey_stop]. *)
Inductive Action := HotkeyStart | HotkeyStop.

(** The dict literal [{self.start_hotkey: ..., self.stop_hotkey: ...}]
    handed to [keyboard.GlobalHotKeys]: with equal keys the later entry
    wins. *)
Definition hotkey_dict (start stop : str) : list (str * Action) :=
  if str_eqb start stop then [(stop, HotkeyStop)]
  else [(start, HotkeyStart); (stop, HotkeyStop)].

(** What becomes of [keyboard.GlobalHotKeys(...)] followed by [.start()]:
    both return, the constructor raises, or [start] raises. *)
Inductive Registration :=
| Registered
| CannotCreate (e : string)
| CannotStart (e : string).

(** The state of [ModernAutoTyper] that the hotkey methods read and write.
    [hotkey_listener] holds the hotkeys of the listener object and whether
    it is running; [hotkey_warnings] the exceptions reported with
    [messagebox.showwarning("Hotkey Error", ...)]; [saved] the hotkeys
    written by each [save_settings], oldest first. *)
Record Hotkeys := {
  hotkeys_enabled : bool;
  start_hotkey : str;
  stop_hotkey : str;
  hotkey_listener : option (list (str * Action) * bool);
  hotkey_var : str;
  hotkey_warnings : list string;
  saved : list (str * str)
}.

Definition default_start_hotkey : str := s "<ctrl>+<shift>+s".
Definition default_stop_hotkey : str := s "<ctrl>+<shift>+x".

Definition set_hotkey_listener
    (l : option (list (str * Action) * bool)) (h : Hotkeys) : Hotkeys :=
  {| hotkeys_enabled := hotkeys_enabled h; start_hotkey := start_hotkey h;
     stop_hotkey := stop_hotkey h; hotkey_listener := l;
     hotkey_var := hotkey_var h; hotkey_warnings := hotkey_warnings h;
     saved := saved h |}.

(** [if self.hotkey_listener: self.hotkey_listener.stop()]; [stop] on a
    listener returns, whether it runs or not. *)
Definition stop_listener (h : Hotkeys) : Hotkeys :=
  match hotkey_listener h with
  | Some (m, _) => set_hotkey_listener (Some (m, false)) h
  | None => h
  end.

(** [save_settings], as far as the hotkeys go. *)
Definition save_settings (h : Hotkeys) : Hotkeys :=
  {| hotkeys_enabled := hotkeys_enabled h; start_hotkey := start_hotkey h;
     stop_hotkey := stop_hotkey h; hotkey_listener := hotkey_listener h;
     hotkey_var := hotkey_var h; hotkey_warnings := hotkey_warnings h;
     saved := saved h ++ [(start_hotkey h, stop_hotkey h)] |}.

(** The [except] branch of [start_hotkey_listener], up to the call of
    itself. *)
Definition reset_after_error (e : string) (h : Hotkeys) : Hotkeys :=
  save_settings
    {| hotkeys_enabled := hotkeys_enabled h;
       start_hotkey := default_start_hotkey;
       stop_hotkey := default_stop_hotkey;
       hotkey_listener := hotkey_listener h;
       hotkey_var := s "Start: Ctrl+Shift+S | Stop: Ctrl+Shift+X";
       hotkey_warnings := hotkey_warnings h ++ [e];
       saved := saved h |}.

(** [start_hotkey_listener].  It calls itself from its [except] branch;
    [depth] is the number of nested calls that Python's recursion limit
    leaves room for, and [None] the [RecursionError] that ends the call
    when they are used up. *)
Fixpoint start_hotkey_listener (depth : nat)
    (os : list (str * Action) -> Registration) (h : Hotkeys)
    : option Hotkeys :=
  match depth with
  | O => None
  | S depth' =>
      if negb (hotkeys_enabled h) then Some h
      else
        let h := stop_listener h in
        let m := hotkey_dict (start_hotkey h) (stop_hotkey h) in
        match os m with
        | Registered => Some (set_hotkey_listener (Some (m, true)) h)
        | CannotCreate e =>
            start_hotkey_listener depth' os (reset_after_error e h)
        | CannotStart e =>
            start_hotkey_listener depth' os
              (reset_after_error e (set_hotkey_listener (Some (m, false)) h))
        end
  end.

(** [restart_hotkey_listener] *)
Definition restart_hotkey_listener (depth : nat)
    (os : list (str * Action) -> Registration) (h : Hotkeys)
    : option Hotkeys :=
  start_hotkey_listener depth os (stop_listener h).

(** [set_hotkeys]: the constructor of the dialog returns as soon as the
    dialog is built, and [dialog.result] is read at once. *)
Definition set_hotkeys (depth : nat)
    (os : list (str * Action) -> Registration) (h : Hotkeys)
    : option Hotkeys * HotkeyDialog :=
  let dialog := HotkeyDialog_init (start_hotkey h) (stop_hotkey h) in
  match result dialog with
  | Some (start, stop) =>
      let h :=
        {| hotkeys_enabled := hotkeys_enabled h;
           start_hotkey := start; stop_hotkey := stop;
           hotkey_listener := hotkey_listener h;
           hotkey_var :=
             s "Start: " ++ format_hotkey_for_display start
               ++ s " | Stop: " ++ format_hotkey_for_display stop;
           hotkey_warnings := hotkey_warnings h; saved := saved h |} in
      let r :=
        if hotkeys_enabled h then restart_hotkey_listener depth os h
        else Some h in
      (option_map save_settings r, dialog)
  | None => (Some h, dialog)
  end.

End AutoTyper.

(* ================================================================== *)
(** ** Vocabulary of the statements *)
(* ================================================================== *)

Module PySpec.
Import Py.

(** The leading whitespace of a string. *)
Fixpoint leading_ws (x : str) : str :=
  match x with
  | [] => []
  | c :: t => if isspace c then c :: leading_ws t else []
  end.

(** A string with nothing but whitespace in it. *)
Definition blank (x : str) : bool := forallb isspace x.

End PySpec.

Module TyperSpec.
Import Py Typer.

(** Rounds that a loop counting up to [limit] in steps of [step] makes at
    most. *)
Definition loop_fuel (limit step : Q) : nat :=
  Z.to_nat (Qceiling (limit / step)).

(** [nl_delay = max(0.001, self.speed * 0.6)] *)
Definition nl_delay (speed : Q) : Q := max (1 # 1000) (speed * (6 # 10))%Q.

(** Fuel that suffices for every loop of a run of [w]. *)
Definition run_fuel (w : TypingWorker) : nat :=
  Nat.max (loop_fuel (start_delay w) wait_step)
    (Nat.max (loop_fuel (speed w) sleep_step)
             (loop_fuel (nl_delay (speed w)) sleep_step)).

(** The key that [run] emits for a character of a line. *)
Definition key_of (ch : ascii) : KeyOp :=
  if Ascii.eqb ch TAB then Press "tab" else Write ch.

(** The keys of the lines of a text: those of each line in order, with an
    "enter" after every line but the last. *)
Fixpoint text_keys (lines : list str) : list KeyOp :=
  match lines with
  | [] => []
  | [l] => map key_of l
  | l :: rest => map key_of l ++ Press "enter" :: text_keys rest
  end.

(** Nobody stops the run and no pyautogui call raises. *)
Definition quiet (env : Env) : Prop :=
  (forall h, stop_is_set env h = false) /\
  (forall h k, key_fault env h k = None).

(** What [focus_report] appends to the history. *)
Definition focus_events (env : Env) (w : TypingWorker) : History :=
  if negb (type_any_window w) && win32_available env then
    match foreground env with
    | Some name => [Progress (TypingInto name)]
    | None => []
    end
  else [].

(** The key that stands for a character of the formatted text. *)
Definition key_of_char (c : ascii) : KeyOp :=
  if Ascii.eqb c LF then Press "enter" else key_of c.

(** The languages that the programs format as code. *)
Definition code_languages : list str :=
  [s "python"; s "c++"; s "java"; s "javascript"; s "c#"].

(** An environment in which nobody stops the run and every key goes
    through. *)
Definition undisturbed : Env :=
  {| stop_is_set := fun _ => false;
     key_fault := fun _ _ => None;
     win32_available := false;
     foreground := None |}.

(** The stop flag is set once the run has slept [t] seconds. *)
Definition stop_at (t : Q) : Env :=
  {| stop_is_set := fun h => Qle_bool t (elapsed h);
     key_fault := fun _ _ => None;
     win32_available := false;
     foreground := None |}.

(** The platform refuses synthetic input. *)
Definition refused : Env :=
  {| stop_is_set := fun _ => false;
     key_fault := fun _ _ => Some "denied"%string;
     win32_available := false;
     foreground := None |}.

(** [AutoTyperWindow] with its default settings and ["hi"] in the editor. *)
Definition window0 : Window :=
  {| is_typing := false; stop_event := false; status := "Ready";
     ui_running := false; started := []; dialogs := [];
     hotkey_listener := None;
     settings :=
       {| typing_speed := 5 # 100; settings_language := s "text";
          start_hotkey := s "ctrl+shift+s"; stop_hotkey := s "ctrl+shift+x";
          hotkeys_enabled := true; settings_start_delay := 3;
          settings_type_any_window := true |};
     text_edit := s "hi"; speed_slider := 50; lang_combo := s "text";
     delay_input := 3; any_window_checkbox := true;
     hotkey_enable_cb := true;
     start_hotkey_input := s "ctrl+shift+s";
     stop_hotkey_input := s "ctrl+shift+x" |}.

(** An operating system that accepts every registration. *)
Definition accept_all : list (str * Trigger) -> option string :=
  fun _ => None.

(** A window with a live listener in which the user has typed the same
    hotkey twice, up to case and blanks. *)
Definition window_with_equal_hotkeys : Window :=
  {| is_typing := false; stop_event := false; status := "Ready";
     ui_running := false; started := []; dialogs := [];
     hotkey_listener :=
       Some [(s "<ctrl>+<shift>+s", TriggerStart);
             (s "<ctrl>+<shift>+x", TriggerStop)];
     settings := settings window0;
     text_edit := s "hi"; speed_slider := 50; lang_combo := s "text";
     delay_input := 3; any_window_checkbox := true;
     hotkey_enable_cb := true;
     start_hotkey_input := s "ctrl+alt+t";
     stop_hotkey_input := s " Ctrl+Alt+T" |}.

(** A window with a live listener in which the user has typed one
    combination twice, with and without blanks around the plus sign. *)
Definition window_with_spaced_hotkeys : Window :=
  {| is_typing := false; stop_event := false; status := "Ready";
     ui_running := false; started := []; dialogs := [];
     hotkey_listener :=
       Some [(s "<ctrl>+<shift>+s", TriggerStart);
             (s "<ctrl>+<shift>+x", TriggerStop)];
     settings := settings window0;
     text_edit := s "hi"; speed_slider := 50; lang_combo := s "text";
     delay_input := 3; any_window_checkbox := true;
     hotkey_enable_cb := true;
     start_hotkey_input := s "ctrl+s";
     stop_hotkey_input := s "ctrl + s" |}.

(** *** Vocabulary of the further properties *)

(** Histories of a run that goes on: every sleep comes right after a read
    of the stop flag that found it clear and lasts at most [wait_step], and
    the flag was never read set. *)
Inductive calm : History -> Prop :=
| calm_nil : calm []
| calm_read h : calm h -> calm (IsSet false :: h)
| calm_nap d h :
    (0 < d <= wait_step)%Q -> calm h -> calm (IsSet false :: Sleep d :: h)
| calm_key k h : calm h -> calm (Key k :: h)
| calm_progress m h : calm h -> calm (Progress m :: h).

(** What a piece of [run] that is to emit the keys [K] has done when
    control leaves it, started after the history [h]: it went on after
    emitting all of [K]; or it found the stop flag set, having emitted the
    first keys of [K], and did nothing after that read; or pyautogui raised
    on the next key of [K]. *)
Definition outcome_ok (env : Env) (K : list KeyOp) (h : History) (f : Flow)
    : Prop :=
  match f with
  | Go h' => exists ext, h' = h ++ ext /\ calm ext /\ keys ext = K
  | Done sig h' =>
      exists ext rest,
        h' = h ++ ext ++ [IsSet true] /\ calm ext /\ K = keys ext ++ rest /\
        (sig = finished stopped_before \/ sig = finished stopped_during)
  | Raise e h' =>
      exists ext k rest,
        h' = h ++ ext /\ calm ext /\ K = keys ext ++ k :: rest /\
        key_fault env h' k = Some e
  | OutOfFuel => True
  end.

(** The text of a run as the worker types it. *)
Definition typed_text (w : TypingWorker) : str :=
  preformat (language w) (text w).

(** pyautogui raises on the third key. *)
Definition third_key_refused : Env :=
  {| stop_is_set := fun _ => false;
     key_fault := fun h _ =>
       if List.length (keys h) =? 2 then Some "denied"%string else None;
     win32_available := false;
     foreground := None |}.

(** An operating system that refuses every registration. *)
Definition refuse_all : list (str * Trigger) -> option string :=
  fun _ => Some "busy"%string.

(** A window in which the user has typed "Ctrl+S" and "control+s". *)
Definition window_with_aliased_hotkeys : Window :=
  {| is_typing := false; stop_event := false; status := "Ready";
     ui_running := false; started := []; dialogs := [];
     hotkey_listener := None;
     settings := settings window0;
     text_edit := s "hi"; speed_slider := 50; lang_combo := s "text";
     delay_input := 3; any_window_checkbox := true;
     hotkey_enable_cb := true;
     start_hotkey_input := s "Ctrl+S";
     stop_hotkey_input := s "control+s" |}.

(** What happens to the window in the main thread: a click on Start or
    Stop (or the hotkey bound to it), or the signal a worker ends with. *)
Inductive UiEvent :=
| ClickStart
| ClickStop
| WorkerEnds (sig : Signal).

Definition ui_step (ev : UiEvent) (w : Window) : Window :=
  match ev with
  | ClickStart => on_start_clicked w
  | ClickStop => on_stop_clicked w
  | WorkerEnds sig => deliver sig w
  end.

Definition ui_run (evs : list UiEvent) (w : Window) : Window :=
  fold_left (fun w ev => ui_step ev w) evs w.

(** A worker signals its end only while it runs. *)
Fixpoint in_time (evs : list UiEvent) (w : Window) : bool :=
  match evs with
  | [] => true
  | ev :: rest =>
      match ev with WorkerEnds _ => is_typing w | _ => true end
      && in_time rest (ui_step ev w)
  end.

(** The number of workers that have signalled their end. *)
Definition ended (evs : list UiEvent) : nat :=
  List.length
    (filter (fun ev => match ev with WorkerEnds _ => true | _ => false end)
       evs).

Definition running (w : Window) : nat := if is_typing w then 1 else 0.

End TyperSpec.

Module Typer64Spec.
Import Py Typer Float64 Typer64.

(** [waited] on entry to round [i] of the start-delay loop: the float sum
    of [i] steps of 0.05. *)
Fixpoint waited (i : nat) : float :=
  match i with
  | O => zero
  | S j => add (waited j) wait_step
  end.

(** The loop condition [waited < start_delay] holds on entry to each of
    the rounds [0 .. n-1]. *)
Definition counting (start_delay : float) (n : nat) : bool :=
  forallb (fun i => ltb (waited i) start_delay) (seq 0 n).

(** The start-delay loop makes [n] rounds when nothing stops it. *)
Definition rounds (start_delay : float) (n : nat) : bool :=
  counting start_delay n && negb (ltb (waited n) start_delay).

(** The events of [j] rounds of the start-delay loop in which the stop flag
    was found clear. *)
Fixpoint ticks (j : nat) : History :=
  match j with
  | O => []
  | S j' => IsSet false :: Sleep (to_Q wait_step) :: ticks j'
  end.

(** The history at the [j]-th read of the stop flag in the start-delay
    loop (counting from 0). *)
Definition at_round (w : TypingWorker) (j : nat) : History :=
  Progress (Starting (to_Q (start_delay w))) :: ticks j.

(** What [focus_report] appends to the history. *)
Definition focus_events (env : Env) (w : TypingWorker) : History :=
  if negb (type_any_window w) && win32_available env then
    match foreground env with
    | Some name => [Progress (TypingInto name)]
    | None => []
    end
  else [].

(** [slept] on entry to round [i] of the pause after a key, and the slice
    [min(0.01, self.speed - slept)] slept in that round. *)
Fixpoint slept_after (speed : float) (i : nat) : float :=
  match i with
  | O => zero
  | S j =>
      add (slept_after speed j)
          (min sleep_step (sub speed (slept_after speed j)))
  end.

Definition slice (speed : float) (i : nat) : float :=
  min sleep_step (sub speed (slept_after speed i)).

(** The pause after a key makes [n] rounds when nothing stops it. *)
Definition pause_rounds (speed : float) (n : nat) : bool :=
  forallb (fun i => ltb (slept_after speed i) speed) (seq 0 n)
  && negb (ltb (slept_after speed n) speed).

(** The events of the rounds [i .. i+n-1] of the pause after a key, with
    the stop flag found clear. *)
Fixpoint pause_events (speed : float) (i n : nat) : History :=
  match n with
  | O => []
  | S m =>
      IsSet false :: Sleep (to_Q (slice speed i))
        :: pause_events speed (S i) m
  end.

(** A growth of the history: what a piece of [run] leaves behind extends
    what it found. *)
Definition grows (h : History) (f : Flow) : Prop :=
  match f with
  | Go h' | Done _ h' | Raise _ h' => exists x, h' = h ++ x
  | OutOfFuel => True
  end.

End Typer64Spec.

Module AutoTyperSpec.
Import Py AutoTyper.

(** A line as [formatted_lines] rewrites it. *)
Definition reindent (line : str) : str :=
  spaces (indent_of line) ++ strip line.

(** The sleep that [type_normal_text] makes after a key. *)
Definition pause_after (speed : Q) (k : KeyOp) : Q :=
  match k with
  | Press key =>
      if String.eqb key "tab" then (speed * (5 # 10))%Q
      else (speed * (8 # 10))%Q
  | Write _ => speed
  end.

(** Histories in which every key is at once followed by its sleep. *)
Inductive paced (speed : Q) : History -> Prop :=
| paced_nil : paced speed []
| paced_read b h : paced speed h -> paced speed (IsTyping b :: h)
| paced_key k h :
    paced speed h -> paced speed (Key k :: Sleep (pause_after speed k) :: h).

(** What the thread had done when the flow ended. *)
Definition flow_history (f : Flow) : History :=
  match f with
  | Go h => h
  | Raise _ h => h
  end.

(** The keys emitted in a history. *)
Definition keys (h : History) : list KeyOp :=
  flat_map (fun e => match e with Key k => [k] | _ => [] end) h.

(** Nobody stops the typing thread and every key goes through. *)
Definition undisturbed : Env :=
  {| is_typing_read := fun _ => true; key_fault := fun _ _ => None |}.

(** [ModernAutoTyper] as [__init__] leaves it, with ["hi"] in the text
    area. *)
Definition app0 : App :=
  {| is_typing := false; status_var := Ready; dialogs := []; timers := [];
     threads := []; text_area := s "hi"; typing_speed := 5 # 100;
     language := s "text"; start_delay := 3;
     prevent_window_check := true |}.

(** A dialog in which the user has typed the same hotkey twice, up to case
    and blanks. *)
Definition dialog0 : HotkeyDialog :=
  {| start_var := s "ctrl+shift+s"; stop_var := s "Ctrl+Shift+S ";
     result := None; destroyed := false; errors := [] |}.

(** A dialog in which the user has typed one combination twice, with and
    without blanks around the plus sign. *)
Definition dialog_spaced : HotkeyDialog :=
  {| start_var := s "ctrl+s"; stop_var := s "ctrl + s";
     result := None; destroyed := false; errors := [] |}.

(** *** Vocabulary of the further properties *)

(** Once [is_typing] has been read as cleared, it stays cleared: nobody
    starts a new run while this thread is alive. *)
Definition stays_stopped (env : Env) : Prop :=
  forall h x, is_typing_read env h = false ->
              is_typing_read env (h ++ x) = false.

(** The thread has read [is_typing] as cleared. *)
Definition dead (env : Env) (h : History) : Prop :=
  forall x, is_typing_read env (h ++ x) = false.

Definition no_false (h : History) : Prop := ~ In (IsTyping false) h.

(** What may follow the first cleared read: no key, or one Enter. *)
Definition stop_tail (t : History) : Prop :=
  keys t = [] \/ keys t = [Press "enter"].

(** The user stops the run once [n] keys have gone out. *)
Definition stop_after (n : nat) : Env :=
  {| is_typing_read := fun h => List.length (keys h) <? n;
     key_fault := fun _ _ => None |}.

(** [app0] with two lines of text. *)
Definition app_two_lines : App :=
  {| is_typing := true; status_var := InProgress; dialogs := [];
     timers := []; threads := [s "ab" ++ [LF] ++ s "cd"];
     text_area := s "ab" ++ [LF] ++ s "cd"; typing_speed := 0;
     language := s "text"; start_delay := 0;
     prevent_window_check := true |}.

(** The delay left after [k] rounds of [countdown_timer]. *)
Definition delay_after (k : nat) (delay : Q) : Q :=
  Nat.iter k (fun d => (d - 1)%Q) delay.

(** The main loop has run [k] of the scheduled timers. *)
Definition after_timers (k : nat) (a : App) : App :=
  Nat.iter k fire_timer a.

(** The whole seconds the countdown of [start_typing] lasts. *)
Definition countdown_seconds (a : App) : nat :=
  Z.to_nat (Qceiling (start_delay a)).

(** [app0] with a delay of two and a half seconds. *)
Definition app_delay_2_5 : App :=
  {| is_typing := false; status_var := Ready; dialogs := []; timers := [];
     threads := []; text_area := s " hi "; typing_speed := 5 # 100;
     language := s "text"; start_delay := 25 # 10;
     prevent_window_check := true |}.

(** An operating system that takes the default hotkeys and no others. *)
Definition defaults_only (m : list (str * Action)) : Registration :=
  match m with
  | [(a, HotkeyStart); (b, HotkeyStop)] =>
      if str_eqb a default_start_hotkey && str_eqb b default_stop_hotkey
      then Registered
      else CannotCreate "unknown key"
  | _ => CannotCreate "unknown key"
  end.

(** An operating system on which no listener can be started. *)
Definition no_listener (m : list (str * Action)) : Registration :=
  CannotStart "no display".

(** The hotkeys of the application after the user's hotkeys "<f13>+s" and
    "<f14>+x" have been loaded from the settings file. *)
Definition hotkeys_f13 : Hotkeys :=
  {| hotkeys_enabled := true;
     start_hotkey := s "<f13>+s"; stop_hotkey := s "<f14>+x";
     hotkey_listener := None;
     hotkey_var := s "Start: F13+s | Stop: F14+x";
     hotkey_warnings := []; saved := [] |}.

(** A dialog in which the user has typed two hotkeys that differ in case
    only. *)
Definition dialog_case : HotkeyDialog :=
  {| start_var := s "ctrl+S"; stop_var := s "ctrl+s";
     result := None; destroyed := false; errors := [] |}.

(** A dialog in which the user has typed " Ctrl+Alt+<F5> " and "ctrl+q". *)
Definition dialog_f5 : HotkeyDialog :=
  {| start_var := s " Ctrl+Alt+<F5> "; stop_var := s "ctrl+q";
     result := None; destroyed := false; errors := [] |}.

(** Nobody stops the typing thread and no pyautogui call raises. *)
Definition quiet (env : Env) : Prop :=
  (forall h, is_typing_read env h = true) /\
  (forall h k, key_fault env h k = None).

End AutoTyperSpec.

(* ================================================================== *)
(** ** Facts about the string primitives *)
(* ================================================================== *)

Import Py PySpec.

Lemma split_nonnil sep x : split sep x <> [].
Proof.
  destruct x as [|c t]; cbn [split]; [discriminate|].
  destruct (Ascii.eqb c sep); [discriminate|].
  destruct (split sep t); discriminate.
Qed.

Lemma join_cons_char sep c l ls :
  join sep ((c :: l) :: ls) = c :: join sep (l :: ls).
Proof. destruct ls; reflexivity. Qed.

Lemma join_cons_nil sep l ls :
  join sep ([] :: l :: ls) = sep ++ join sep (l :: ls).
Proof. reflexivity. Qed.

Lemma join_split sep x : join [sep] (split sep x) = x.
Proof.
  induction x as [|c t IH]; [reflexivity|].
  cbn [split]. pose proof (split_nonnil sep t) as Hn.
  destruct (split sep t) as [|l ls] eqn:Es; [congruence|].
  destruct (Ascii.eqb c sep) eqn:E.
  - apply Ascii.eqb_eq in E. subst c.
    rewrite join_cons_nil. cbn [app]. f_equal. exact IH.
  - rewrite join_cons_char. f_equal. exact IH.
Qed.

Lemma split_tokens_clean sep x : Forall (fun p => ~ In sep p) (split sep x).
Proof.
  induction x as [|c t IH]; cbn [split].
  - constructor; [intros []|constructor].
  - destruct (Ascii.eqb c sep) eqn:E.
    + constructor; [intros []|exact IH].
    + destruct (split sep t) as [|l ls]; [constructor; [|constructor]|].
      * intros [H|[]]. subst. rewrite Ascii.eqb_refl in E. discriminate.
      * inversion IH; subst. constructor; auto.
        intros [H|H]; [subst; rewrite Ascii.eqb_refl in E; discriminate|auto].
Qed.

Lemma split_app_clean sep p x :
  ~ In sep p -> split sep (p ++ sep :: x) = p :: split sep x.
Proof.
  induction p as [|c t IH]; intro Hn; cbn [app split].
  - rewrite Ascii.eqb_refl. reflexivity.
  - destruct (Ascii.eqb c sep) eqn:E.
    + apply Ascii.eqb_eq in E. subst. exfalso. apply Hn. left. reflexivity.
    + rewrite IH; [reflexivity|]. intro H. apply Hn. right. exact H.
Qed.

Lemma split_clean sep p : ~ In sep p -> split sep p = [p].
Proof.
  induction p as [|c t IH]; intro Hn; cbn [split]; [reflexivity|].
  destruct (Ascii.eqb c sep) eqn:E.
  - apply Ascii.eqb_eq in E. subst. exfalso. apply Hn. left. reflexivity.
  - rewrite IH; [reflexivity|]. intro H. apply Hn. right. exact H.
Qed.

Lemma split_join sep parts :
  parts <> [] -> Forall (fun p => ~ In sep p) parts ->
  split sep (join [sep] parts) = parts.
Proof.
  induction parts as [|p rest IH]; intros Hn Hc; [congruence|].
  inversion Hc as [|? ? Hp Hrest]; subst.
  destruct rest as [|q rest].
  - cbn [join]. apply split_clean. exact Hp.
  - change (join [sep] (p :: q :: rest)) with (p ++ sep :: join [sep] (q :: rest)).
    rewrite split_app_clean by exact Hp.
    rewrite IH; [reflexivity|discriminate|exact Hrest].
Qed.

(** [rstrip] removes a whitespace suffix and leaves no trailing whitespace. *)
Lemma rstrip_nil_blank x : rstrip x = [] <-> blank x = true.
Proof.
  unfold blank. induction x as [|c t IH]; cbn [rstrip forallb].
  - tauto.
  - destruct (rstrip t) as [|r rs] eqn:E.
    + destruct (isspace c); cbn [andb].
      * tauto.
      * split; discriminate.
    + split; [discriminate|]. intro H. apply andb_true_iff in H.
      destruct H as [_ H]. apply IH in H. discriminate.
Qed.

Lemma rstrip_suffix x :
  exists ws, x = rstrip x ++ ws /\ blank ws = true.
Proof.
  induction x as [|c t IH]; [exists []; auto|].
  destruct IH as (ws & Ht & Hb). cbn [rstrip].
  destruct (rstrip t) as [|r rs] eqn:E.
  - destruct (isspace c) eqn:Ec.
    + exists (c :: ws). cbn [app] in *. split; [congruence|].
      unfold blank in *. cbn [forallb]. rewrite Ec, Hb. reflexivity.
    + exists ws. cbn [app] in *. split; [congruence|exact Hb].
  - exists ws. split; [|exact Hb]. cbn [app]. f_equal. exact Ht.
Qed.

Lemma rstrip_no_trailing x r c : rstrip x = r ++ [c] -> isspace c = false.
Proof.
  revert r. induction x as [|a t IH]; intros r H; cbn [rstrip] in H.
  - destruct r; discriminate.
  - destruct (rstrip t) as [|q qs] eqn:E.
    + destruct (isspace a) eqn:Ea; [destruct r; discriminate|].
      destruct r as [|r0 r]; cbn [app] in H.
      * congruence.
      * destruct r; discriminate.
    + destruct r as [|r0 r]; cbn [app] in H; [discriminate|].
      injection H as _ H. eapply IH. exact H.
Qed.

Lemma rstrip_char_no_trailing ch x r c :
  rstrip_char ch x = r ++ [c] -> c <> ch.
Proof.
  revert r. induction x as [|a t IH]; intros r H; cbn [rstrip_char] in H.
  - destruct r; discriminate.
  - destruct (rstrip_char ch t) as [|q qs] eqn:E.
    + destruct (Ascii.eqb a ch) eqn:Ea; [destruct r; discriminate|].
      destruct r as [|r0 r]; cbn [app] in H.
      * injection H as <-. intros ->. rewrite Ascii.eqb_refl in Ea.
        discriminate.
      * destruct r; discriminate.
    + destruct r as [|r0 r]; cbn [app] in H; [discriminate|].
      injection H as _ H. eapply IH. exact H.
Qed.

Lemma leading_ws_app x y :
  blank x = false -> leading_ws (x ++ y) = leading_ws x.
Proof.
  unfold blank. induction x as [|c t IH]; cbn [forallb app leading_ws];
    [discriminate|].
  destruct (isspace c); cbn [andb]; [|reflexivity].
  intro H. rewrite IH; auto.
Qed.

Lemma rstrip_keeps_indent x :
  blank x = false -> leading_ws (rstrip x) = leading_ws x.
Proof.
  intro Hb. destruct (rstrip_suffix x) as (ws & Hx & Hw).
  rewrite Hx at 2. symmetry. apply leading_ws_app.
  destruct (blank (rstrip x)) eqn:E; [|reflexivity].
  exfalso. 
  assert (blank x = true).
  { rewrite Hx. unfold blank in *. rewrite forallb_app, E, Hw. reflexivity. }
  congruence.
Qed.

Lemma rstrip_clean sep x : ~ In sep x -> ~ In sep (rstrip x).
Proof.
  intros Hn Hi. destruct (rstrip_suffix x) as (ws & Hx & _).
  apply Hn. rewrite Hx. apply in_or_app. left. exact Hi.
Qed.

Lemma splitlines_from_clean b x :
  Forall (fun l => forallb (fun c => negb (is_linebreak c)) l = true)
         (splitlines_from b x).
Proof.
  revert b. induction x as [|c t IH]; intro b; cbn [splitlines_from];
    [constructor|].
  destruct (b && Ascii.eqb c LF); [apply IH|].
  destruct (is_linebreak c) eqn:E.
  - constructor; [reflexivity|apply IH].
  - specialize (IH false). destruct (splitlines_from false t) as [|l ls].
    + constructor; [|constructor]. cbn. rewrite E. reflexivity.
    + inversion IH; subst. constructor; auto.
      cbn [forallb]. rewrite E. cbn. assumption.
Qed.

Lemma splitlines_no_LF x : Forall (fun l => ~ In LF l) (splitlines x).
Proof.
  unfold splitlines.
  eapply Forall_impl; [|apply splitlines_from_clean].
  intros l Hl Hi. rewrite forallb_forall in Hl. apply Hl in Hi.
  discriminate.
Qed.

(* ================================================================== *)
(** ** Facts about auto_typer.py *)
(* ================================================================== *)

Module AutoTyperFacts.
Import AutoTyper AutoTyperSpec.

Lemma formatted_lines_filter lines :
  formatted_lines lines
  = map reindent (filter (fun l => nonempty (strip l)) lines).
Proof.
  induction lines as [|l ls IH]; [reflexivity|].
  cbn [formatted_lines filter]. destruct (nonempty (strip l)).
  - cbn [map]. f_equal. exact IH.
  - exact IH.
Qed.

Lemma paced_app speed h1 h2 :
  paced speed h1 -> paced speed h2 -> paced speed (h1 ++ h2).
Proof.
  induction 1; intro H2; cbn [app]; auto; constructor; auto.
Qed.

Section Pacing.
Variable env : Env.
Variable speed : Q.

Lemma type_chars_paced line : forall h,
  exists ext,
    flow_history (type_chars env speed line h) = h ++ ext /\ paced speed ext.
Proof.
  induction line as [|ch rest IH]; intro h; cbn [type_chars].
  - exists []. rewrite app_nil_r. split; [reflexivity|constructor].
  - destruct (is_typing_read env h); cbn [negb].
    2:{ exists [IsTyping false]. split; [reflexivity|repeat constructor]. }
    set (k := if Ascii.eqb ch TAB then Press "tab" else Write ch).
    assert (Hstep :
      (if Ascii.eqb ch TAB
       then emit_key env (Press "tab") (h ++ [IsTyping true]) ;;
            (fun h0 => sleep (speed * (5 # 10))%Q h0)
       else emit_key env (Write ch) (h ++ [IsTyping true]) ;;
            (fun h0 => sleep speed h0))
      = emit_key env k (h ++ [IsTyping true]) ;;
        (fun h0 => sleep (pause_after speed k) h0)).
    { subst k. destruct (Ascii.eqb ch TAB); reflexivity. }
    rewrite Hstep. unfold emit_key.
    destruct (key_fault env (h ++ [IsTyping true]) k); cbn [and_then sleep].
    + exists [IsTyping true]. split; [reflexivity|repeat constructor].
    + destruct (IH (((h ++ [IsTyping true]) ++ [Key k])
                      ++ [Sleep (pause_after speed k)]))
        as (ext & He & Hp).
      exists (IsTyping true :: Key k :: Sleep (pause_after speed k) :: ext).
      split.
      * rewrite He, <- !app_assoc. reflexivity.
      * repeat constructor. exact Hp.
Qed.

Lemma type_lines_paced prevent n lines : forall i h,
  exists ext,
    flow_history (type_lines env speed prevent n i lines h) = h ++ ext
    /\ paced speed ext.
Proof.
  induction lines as [|line rest IH]; intros i h; cbn [type_lines].
  - exists []. rewrite app_nil_r. split; [reflexivity|constructor].
  - destruct (is_typing_read env h); cbn [negb].
    2:{ exists [IsTyping false]. split; [reflexivity|repeat constructor]. }
    destruct (negb prevent && negb (check_window_focus prevent)).
    { exists [IsTyping true]. split; [reflexivity|repeat constructor]. }
    destruct (type_chars_paced line (h ++ [IsTyping true]))
      as (e1 & H1 & P1).
    destruct (type_chars env speed line (h ++ [IsTyping true]))
      as [h1|e h1]; cbn [flow_history] in H1; subst h1; cbn [and_then].
    2:{ exists (IsTyping true :: e1). split.
        - cbn [flow_history]. rewrite <- app_assoc. reflexivity.
        - constructor. exact P1. }
    destruct (i <? n - 1).
    + unfold emit_key.
      destruct (key_fault env _ (Press "enter")); cbn [and_then sleep].
      * exists (IsTyping true :: e1). split.
        -- cbn [flow_history]. rewrite <- app_assoc. reflexivity.
        -- constructor. exact P1.
      * destruct (IH (S i)
           ((((h ++ [IsTyping true]) ++ e1) ++ [Key (Press "enter")])
              ++ [Sleep (speed * (8 # 10))%Q])) as (e2 & H2 & P2).
        exists ((IsTyping true :: e1)
                  ++ Key (Press "enter")
                  :: Sleep (pause_after speed (Press "enter")) :: e2).
        split.
        -- rewrite H2. cbn [pause_after String.eqb Ascii.eqb Bool.eqb].
           rewrite <- !app_assoc. reflexivity.
        -- apply paced_app; [constructor; exact P1|constructor; exact P2].
    + cbn [and_then].
      destruct (IH (S i) ((h ++ [IsTyping true]) ++ e1)) as (e2 & H2 & P2).
      exists ((IsTyping true :: e1) ++ e2). split.
      * rewrite H2, <- !app_assoc. reflexivity.
      * apply paced_app; [constructor; exact P1|exact P2].
Qed.

End Pacing.

Lemma type_text_paced env text a :
  paced (typing_speed a) (snd (type_text env text a)).
Proof.
  unfold type_text, type_normal_text.
  destruct (type_lines_paced env (typing_speed a) (prevent_window_check a)
              (List.length (split LF (apply_formatting (language a) text)))
              (split LF (apply_formatting (language a) text)) 0 [])
    as (ext & He & Hp).
  cbn [app] in He.
  destruct (type_lines env (typing_speed a) _ _ 0 _ []) as [h|e h];
    cbn [flow_history] in He; subst h; cbn [snd].
  - apply paced_app; [exact Hp|repeat constructor].
  - exact Hp.
Qed.

Lemma type_text_clears_is_typing env text a :
  is_typing (fst (type_text env text a)) = false.
Proof.
  unfold type_text. destruct (type_normal_text env a text); reflexivity.
Qed.

End AutoTyperFacts.

(** More facts about auto_typer.py: the typing thread once it has been
    stopped, the countdown, the formatters, the hotkey dialog. *)
Module AutoTyperMoreFacts.
Import Py AutoTyper AutoTyperSpec.

Lemma auto_keys_app h1 h2 : keys (h1 ++ h2) = keys h1 ++ keys h2.
Proof. unfold keys. apply flat_map_app. Qed.

Lemma dead_app env h x : dead env h -> dead env (h ++ x).
Proof. intros H y. rewrite <- app_assoc. apply H. Qed.

Lemma dead_read env h : dead env h -> is_typing_read env h = false.
Proof. intro H. specialize (H []). rewrite app_nil_r in H. exact H. Qed.

Lemma no_false_app h1 h2 : no_false h1 -> no_false h2 -> no_false (h1 ++ h2).
Proof.
  unfold no_false. intros H1 H2 Hi. apply in_app_or in Hi. tauto.
Qed.

Section Stopping.
Variable env : Env.
Variable speed : Q.
Hypothesis Hstay : stays_stopped env.

Lemma read_false_dead h : is_typing_read env h = false -> dead env h.
Proof. intros H x. apply Hstay. exact H. Qed.

Lemma type_chars_dead line h :
  dead env h ->
  exists r, type_chars env speed line h = Go (h ++ r) /\ keys r = [].
Proof.
  intro Hd. destruct line as [|c rest]; cbn [type_chars].
  - exists []. rewrite app_nil_r. auto.
  - rewrite (dead_read _ _ Hd). cbn [negb].
    exists [IsTyping false]. auto.
Qed.

Lemma type_lines_dead prevent n lines i h :
  dead env h ->
  exists r,
    type_lines env speed prevent n i lines h = Go (h ++ r) /\ keys r = [].
Proof.
  intro Hd. destruct lines as [|l rest]; cbn [type_lines].
  - exists []. rewrite app_nil_r. auto.
  - rewrite (dead_read _ _ Hd). cbn [negb].
    exists [IsTyping false]. auto.
Qed.

Lemma type_chars_shape line : forall h,
  exists ext,
    flow_history (type_chars env speed line h) = h ++ ext /\
    (no_false ext \/
     exists live,
       ext = live ++ [IsTyping false] /\ no_false live /\
       type_chars env speed line h = Go (h ++ ext) /\
       dead env (h ++ ext)).
Proof.
  induction line as [|c rest IH]; intro h; cbn [type_chars].
  - exists []. rewrite app_nil_r. split; [reflexivity|]. left. intros [].
  - destruct (is_typing_read env h) eqn:Er; cbn [negb].
    2:{ exists [IsTyping false]. split; [reflexivity|]. right.
        exists []. split; [reflexivity|]. split; [intros []|].
        split; [reflexivity|]. apply dead_app, read_false_dead. exact Er. }
    assert (Hk : forall k d,
      exists ext,
        flow_history
          ((emit_key env k (h ++ [IsTyping true]) ;; fun h0 => sleep d h0) ;;
           fun h0 => type_chars env speed rest h0) = h ++ ext /\
        (no_false ext \/
         exists live,
           ext = live ++ [IsTyping false] /\ no_false live /\
           ((emit_key env k (h ++ [IsTyping true]) ;; fun h0 => sleep d h0) ;;
            fun h0 => type_chars env speed rest h0) = Go (h ++ ext) /\
           dead env (h ++ ext))).
    { intros k d. unfold emit_key, sleep.
      destruct (key_fault env (h ++ [IsTyping true]) k) as [e|];
        cbn [and_then flow_history].
      - exists [IsTyping true]. split; [reflexivity|]. left.
        intros [H|[]]; discriminate.
      - destruct (IH (((h ++ [IsTyping true]) ++ [Key k]) ++ [Sleep d]))
          as (ext & He & Hsh).
        exists ([IsTyping true; Key k; Sleep d] ++ ext).
        assert (Eh : ((h ++ [IsTyping true]) ++ [Key k]) ++ [Sleep d]
                     = h ++ [IsTyping true; Key k; Sleep d])
          by (repeat rewrite <- app_assoc; reflexivity).
        rewrite Eh in *. rewrite app_assoc. split; [exact He|].
        destruct Hsh as [Hn|(live & El & Hl & Hg & Hd)].
        + left. apply no_false_app; [|exact Hn].
          intros [H|[H|[H|[]]]]; discriminate.
        + right. exists ([IsTyping true; Key k; Sleep d] ++ live).
          split; [rewrite El, app_assoc; reflexivity|].
          split; [apply no_false_app; [|exact Hl];
                  intros [H|[H|[H|[]]]]; discriminate|].
          split; assumption. }
    destruct (Ascii.eqb c TAB); apply Hk.
Qed.

Lemma type_lines_shape prevent n lines : forall i h,
  exists ext,
    flow_history (type_lines env speed prevent n i lines h) = h ++ ext /\
    (no_false ext \/
     exists live tail,
       ext = live ++ IsTyping false :: tail /\ no_false live /\
       stop_tail tail).
Proof.
  induction lines as [|line rest IH]; intros i h; cbn [type_lines].
  - exists []. rewrite app_nil_r. split; [reflexivity|]. left. intros [].
  - destruct (is_typing_read env h) eqn:Er; cbn [negb].
    2:{ exists [IsTyping false]. split; [reflexivity|]. right.
        exists [], []. split; [reflexivity|]. split; [intros []|].
        left. reflexivity. }
    assert (Ef : negb prevent && negb (check_window_focus prevent) = false)
      by (destruct prevent; reflexivity).
    rewrite Ef.
    destruct (type_chars_shape line (h ++ [IsTyping true]))
      as (e1 & H1 & S1).
    destruct (type_chars env speed line (h ++ [IsTyping true]))
      as [h1|err h1] eqn:Ec; cbn [flow_history] in H1; subst h1;
      cbn [and_then].
    2:{ exists ([IsTyping true] ++ e1). rewrite app_assoc.
        split; [reflexivity|].
        destruct S1 as [Hn|(live & _ & _ & Hg & _)]; [|discriminate].
        left. apply no_false_app; [|exact Hn]. intros [H|[]]; discriminate. }
    assert (Ht : no_false [IsTyping true])
      by (intros [H|[]]; discriminate).
    destruct S1 as [Hn|(live & El & Hl & _ & Hd)].
    + (* the line has been typed to its end *)
      assert (Hrest : forall j mid,
        no_false mid ->
        exists ext,
          flow_history
            (type_lines env speed prevent n j rest
               (((h ++ [IsTyping true]) ++ e1) ++ mid)) = h ++ ext /\
          (no_false ext \/
           exists live tail,
             ext = live ++ IsTyping false :: tail /\ no_false live /\
             stop_tail tail)).
      { intros j mid Hm.
        destruct (IH j (((h ++ [IsTyping true]) ++ e1) ++ mid))
          as (e2 & H2 & S2).
        exists ((([IsTyping true] ++ e1) ++ mid) ++ e2).
        split; [rewrite H2; repeat rewrite <- app_assoc; reflexivity|].
        assert (Hp : no_false (([IsTyping true] ++ e1) ++ mid))
          by (repeat apply no_false_app; assumption).
        destruct S2 as [Hn2|(live & tail & El & Hl & Htl)].
        - left. apply no_false_app; assumption.
        - right. exists ((([IsTyping true] ++ e1) ++ mid) ++ live), tail.
          split; [rewrite El; repeat rewrite <- app_assoc; reflexivity|].
          split; [apply no_false_app; assumption|exact Htl]. }
      destruct (i <? n - 1).
      * unfold emit_key, sleep.
        destruct (key_fault env ((h ++ [IsTyping true]) ++ e1)
                    (Press "enter")) as [e|]; cbn [and_then flow_history].
        -- exists ([IsTyping true] ++ e1). rewrite app_assoc.
           split; [reflexivity|]. left. apply no_false_app; assumption.
        -- rewrite <- app_assoc.
           apply (Hrest (S i)
                    ([Key (Press "enter")] ++ [Sleep (speed * (8 # 10))%Q])).
           intros [H|[H|[]]]; discriminate.
      * cbn [and_then].
        destruct (Hrest (S i) []) as (ext & He & Hs); [intros []|].
        rewrite app_nil_r in He. exists ext. split; assumption.
    + (* the read in the line's loop found the flag cleared *)
      subst e1.
      assert (Hrest : forall j mid,
        keys mid = [] \/ keys mid = [Press "enter"] ->
        exists ext,
          flow_history
            (type_lines env speed prevent n j rest
               (((h ++ [IsTyping true]) ++ live ++ [IsTyping false]) ++ mid))
          = h ++ ext /\
          (no_false ext \/
           exists live0 tail,
             ext = live0 ++ IsTyping false :: tail /\ no_false live0 /\
             stop_tail tail)).
      { intros j mid Hm.
        destruct (type_lines_dead prevent n rest j
                    (((h ++ [IsTyping true]) ++ live ++ [IsTyping false])
                       ++ mid)) as (r & Hr & Kr).
        { apply dead_app. exact Hd. }
        rewrite Hr. cbn [flow_history].
        exists (([IsTyping true] ++ live) ++ IsTyping false :: mid ++ r).
        split.
        { repeat rewrite <- app_assoc. cbn [app]. reflexivity. }
        right. exists ([IsTyping true] ++ live), (mid ++ r).
        split; [reflexivity|]. split; [apply no_false_app; assumption|].
        unfold stop_tail. rewrite auto_keys_app, Kr, app_nil_r. exact Hm. }
      destruct (i <? n - 1).
      * unfold emit_key, sleep.
        destruct (key_fault env
                    ((h ++ [IsTyping true]) ++ live ++ [IsTyping false])
                    (Press "enter")) as [e|]; cbn [and_then flow_history].
        -- exists (([IsTyping true] ++ live) ++ IsTyping false :: []).
           split; [repeat rewrite <- app_assoc; reflexivity|].
           right. exists ([IsTyping true] ++ live), [].
           split; [reflexivity|]. split; [apply no_false_app; assumption|].
           left. reflexivity.
        -- rewrite <- app_assoc.
           apply (Hrest (S i)
                    ([Key (Press "enter")] ++ [Sleep (speed * (8 # 10))%Q])).
           right. reflexivity.
      * cbn [and_then].
        destruct (Hrest (S i) []) as (ext & He & Hs); [left; reflexivity|].
        rewrite app_nil_r in He. exists ext. split; assumption.
Qed.

End Stopping.

Lemma first_occurrence {A} (a : A) m1 : forall l1 l2 m2,
  l1 ++ a :: l2 = m1 ++ a :: m2 -> ~ In a m1 ->
  exists x, m2 = x ++ l2.
Proof.
  induction m1 as [|b m1 IH]; intros l1 l2 m2 E Hn.
  - destruct l1 as [|c l1]; cbn [app] in E.
    + injection E as <-. exists []. reflexivity.
    + injection E as _ <-. exists (l1 ++ [a]).
      rewrite <- app_assoc. reflexivity.
  - destruct l1 as [|c l1]; cbn [app] in E.
    + injection E as <- _. exfalso. apply Hn. left. reflexivity.
    + injection E as _ E. apply (IH l1 l2 m2 E).
      intro H. apply Hn. right. exact H.
Qed.

Lemma stop_tail_suffix x t : stop_tail (x ++ t) -> stop_tail t.
Proof.
  unfold stop_tail. rewrite auto_keys_app. intros [H|H].
  - apply app_eq_nil in H. left. tauto.
  - destruct (keys x) as [|k [|k' kx]]; cbn [app] in H.
    + right. exact H.
    + injection H as _ H. left. exact H.
    + injection H as _ H. destruct kx; discriminate.
Qed.

Lemma py_lt_true x y : lt x y = true <-> (x < y)%Q.
Proof.
  unfold lt. rewrite negb_true_iff.
  split; intro H.
  - apply Qnot_le_lt. intro L. apply Qle_bool_iff in L. congruence.
  - destruct (Qle_bool y x) eqn:E; auto.
    apply Qle_bool_iff in E. exfalso. apply (Qlt_not_le _ _ H E).
Qed.

Lemma py_lt_false x y : lt x y = false <-> (y <= x)%Q.
Proof.
  unfold lt. rewrite negb_false_iff. apply Qle_bool_iff.
Qed.

Lemma delay_after_value k d : (delay_after k d == d - inject_Z (Z.of_nat k))%Q.
Proof.
  induction k as [|k IH].
  - cbn. ring.
  - change (delay_after (S k) d) with (delay_after k d - 1)%Q.
    rewrite IH, Nat2Z.inj_succ. unfold Z.succ. rewrite inject_Z_plus. ring.
Qed.

Lemma below_ceiling k d :
  (inject_Z (Z.of_nat k) < d)%Q <-> k < Z.to_nat (Qceiling d).
Proof.
  split; intro H.
  - pose proof (Qle_ceiling d) as Hc.
    assert (L : (inject_Z (Z.of_nat k) < inject_Z (Qceiling d))%Q)
      by (eapply Qlt_le_trans; eassumption).
    rewrite <- Zlt_Qlt in L. lia.
  - pose proof (Qceiling_lt d) as Hc.
    assert (L : (Z.of_nat k <= Qceiling d - 1)%Z) by lia.
    rewrite Zle_Qle in L. eapply Qle_lt_trans; eassumption.
Qed.

Lemma countdown_running text a d k :
  timers a = [] ->
  k < Z.to_nat (Qceiling d) ->
  timers (after_timers k (countdown_timer d text a))
  = [(delay_after (S k) d, text)] /\
  threads (after_timers k (countdown_timer d text a)) = threads a /\
  is_typing (after_timers k (countdown_timer d text a)) = is_typing a.
Proof.
  intros Ht. induction k as [|k IH]; intro Hk.
  - cbn [after_timers Nat.iter]. unfold countdown_timer.
    assert (L : lt 0 d = true).
    { apply py_lt_true. apply (below_ceiling 0 d). exact Hk. }
    rewrite L.
    cbn [timers threads is_typing set_timers set_status app].
    rewrite Ht. auto.
  - destruct IH as (T & Th & Ty); [lia|].
    change (after_timers (S k) (countdown_timer d text a))
      with (fire_timer (after_timers k (countdown_timer d text a))).
    remember (after_timers k (countdown_timer d text a)) as prev.
    unfold fire_timer. rewrite T. unfold countdown_timer.
    assert (L : lt 0 (delay_after (S k) d) = true).
    { apply py_lt_true. rewrite delay_after_value.
      apply below_ceiling in Hk. lra. }
    rewrite L.
    cbn [timers threads is_typing set_timers set_status app].
    auto.
Qed.

Lemma countdown_expires text a d :
  timers a = [] ->
  threads (after_timers (Z.to_nat (Qceiling d)) (countdown_timer d text a))
  = threads a ++ [text] /\
  is_typing (after_timers (Z.to_nat (Qceiling d)) (countdown_timer d text a))
  = true /\
  timers (after_timers (Z.to_nat (Qceiling d)) (countdown_timer d text a))
  = [].
Proof.
  intro Ht. destruct (Z.to_nat (Qceiling d)) as [|n] eqn:En.
  - cbn [after_timers Nat.iter]. unfold countdown_timer.
    assert (L : lt 0 d = false).
    { apply py_lt_false. destruct (Qlt_le_dec 0 d) as [H|H]; [|exact H].
      apply (below_ceiling 0 d) in H. lia. }
    rewrite L. unfold begin_typing.
    cbn [timers threads is_typing set_timers set_status set_is_typing
         start_thread app].
    auto.
  - destruct (countdown_running text a d n Ht) as (T & Th & Ty); [lia|].
    change (after_timers (S n) (countdown_timer d text a))
      with (fire_timer (after_timers n (countdown_timer d text a))).
    remember (after_timers n (countdown_timer d text a)) as prev.
    unfold fire_timer. rewrite T. unfold countdown_timer.
    assert (L : lt 0 (delay_after (S n) d) = false).
    { apply py_lt_false. rewrite delay_after_value.
      destruct (Qlt_le_dec (inject_Z (Z.of_nat (S n))) d) as [H|H]; [|lra].
      apply below_ceiling in H. lia. }
    rewrite L. unfold begin_typing.
    cbn [timers threads is_typing set_timers set_status set_is_typing
         start_thread app].
    rewrite Th. auto.
Qed.

(** *** The formatters *)

Lemma lstrip_idem x : lstrip (lstrip x) = lstrip x.
Proof.
  induction x as [|c t IH]; [reflexivity|]. cbn [lstrip].
  destruct (isspace c) eqn:E; [exact IH|]. cbn [lstrip]. rewrite E.
  reflexivity.
Qed.

Lemma lstrip_spaces n y : lstrip (spaces n ++ y) = lstrip y.
Proof. induction n as [|n IH]; [reflexivity|exact IH]. Qed.

Lemma rstrip_app x y : rstrip y <> [] -> rstrip (x ++ y) = x ++ rstrip y.
Proof.
  intro Hy. induction x as [|c t IH]; [reflexivity|].
  cbn [app rstrip]. rewrite IH.
  destruct (t ++ rstrip y) eqn:E; [|reflexivity].
  apply app_eq_nil in E. tauto.
Qed.

Lemma rstrip_idem x : rstrip (rstrip x) = rstrip x.
Proof.
  induction x as [|c t IH]; [reflexivity|]. cbn [rstrip].
  destruct (rstrip t) as [|r rs] eqn:E.
  - destruct (isspace c) eqn:Ec; [reflexivity|]. cbn [rstrip]. rewrite Ec.
    reflexivity.
  - cbn [rstrip]. cbn [rstrip] in IH. rewrite IH. reflexivity.
Qed.

Lemma rstrip_lstrip z : rstrip z = z -> rstrip (lstrip z) = lstrip z.
Proof.
  induction z as [|c t IH]; intro H; [reflexivity|]. cbn [lstrip].
  destruct (isspace c) eqn:Ec; [|exact H].
  apply IH. cbn [rstrip] in H. rewrite Ec in H.
  destruct (rstrip t) as [|r rs]; [discriminate|]. injection H as H. exact H.
Qed.

Lemma rstrip_strip x : rstrip (strip x) = strip x.
Proof. unfold strip. apply rstrip_lstrip, rstrip_idem. Qed.

Lemma lstrip_strip x : lstrip (strip x) = strip x.
Proof. unfold strip. apply lstrip_idem. Qed.

Lemma strip_reindent l :
  nonempty (strip l) = true -> strip (reindent l) = strip l.
Proof.
  intro Hn. unfold reindent. unfold strip at 1.
  rewrite rstrip_app; rewrite rstrip_strip.
  - rewrite lstrip_spaces. apply lstrip_strip.
  - destruct (strip l); [discriminate|discriminate].
Qed.

Lemma spaces_length n : List.length (spaces n) = n.
Proof. apply repeat_length. Qed.

Lemma indent_of_reindent l : indent_of (reindent l) = indent_of l.
Proof.
  unfold reindent. unfold indent_of at 1.
  rewrite lstrip_spaces, lstrip_strip, length_app, spaces_length. lia.
Qed.

Lemma reindent_idem l :
  nonempty (strip l) = true -> reindent (reindent l) = reindent l.
Proof.
  intro Hn. unfold reindent at 1.
  rewrite indent_of_reindent, strip_reindent by exact Hn. reflexivity.
Qed.

Lemma strip_clean sep x : ~ In sep x -> ~ In sep (strip x).
Proof.
  intros Hn. unfold strip.
  assert (Hl : forall y, ~ In sep y -> ~ In sep (lstrip y)).
  { induction y as [|c t IH]; [auto|]. cbn [lstrip].
    destruct (isspace c); [|auto].
    intros H Hi. apply IH in Hi; auto. intro K. apply H. right. exact K. }
  apply Hl, rstrip_clean. exact Hn.
Qed.

Lemma reindent_clean l : ~ In LF l -> ~ In LF (reindent l).
Proof.
  intros Hn Hi. unfold reindent in Hi. apply in_app_or in Hi.
  destruct Hi as [Hi|Hi].
  - unfold spaces in Hi. apply repeat_spec in Hi. discriminate.
  - revert Hi. apply strip_clean. exact Hn.
Qed.

Lemma formatted_lines_fixed ls :
  Forall (fun l => nonempty (strip l) = true) ls ->
  formatted_lines (map reindent ls) = map reindent ls.
Proof.
  induction 1 as [|l ls Hl _ IH]; [reflexivity|].
  cbn [map formatted_lines].
  rewrite strip_reindent by exact Hl. rewrite Hl.
  rewrite indent_of_reindent. fold (reindent l). f_equal. exact IH.
Qed.

Lemma formatted_lines_idem x :
  formatted_lines (split LF (join [LF] (formatted_lines (split LF x))))
  = formatted_lines (split LF x).
Proof.
  rewrite (AutoTyperFacts.formatted_lines_filter (split LF x)).
  pose proof (split_tokens_clean LF x) as Hc.
  set (kept := filter (fun l => nonempty (strip l)) (split LF x)).
  assert (Hk : Forall (fun l => nonempty (strip l) = true /\ ~ In LF l) kept).
  { apply Forall_forall. intros l Hl. apply filter_In in Hl.
    destruct Hl as [Hi Hn]. split; [exact Hn|].
    rewrite Forall_forall in Hc. apply Hc. exact Hi. }
  destruct kept as [|k ks] eqn:Ek.
  - reflexivity.
  - rewrite split_join.
    + apply formatted_lines_fixed.
      eapply Forall_impl; [|exact Hk]. intros l [H _]. exact H.
    + discriminate.
    + apply Forall_forall. intros l Hl. apply in_map_iff in Hl.
      destruct Hl as (l0 & <- & Hl0). apply reindent_clean.
      rewrite Forall_forall in Hk. apply Hk. exact Hl0.
Qed.

Lemma remove_char_app ch x y :
  remove_char ch (x ++ y) = remove_char ch x ++ remove_char ch y.
Proof. apply filter_app. Qed.

Lemma remove_char_join ch sep parts :
  remove_char ch (join sep parts)
  = join (remove_char ch sep) (map (remove_char ch) parts).
Proof.
  induction parts as [|p rest IH]; [reflexivity|].
  destruct rest as [|q rest]; [reflexivity|].
  change (join sep (p :: q :: rest)) with (p ++ sep ++ join sep (q :: rest)).
  rewrite !remove_char_app, IH. reflexivity.
Qed.

Lemma split_remove_char sep ch x :
  Ascii.eqb sep ch = false ->
  split sep (remove_char ch x) = map (remove_char ch) (split sep x).
Proof.
  intro Hne. induction x as [|c t IH]; [reflexivity|].
  unfold remove_char in *. cbn [filter split].
  destruct (Ascii.eqb c ch) eqn:Ec; cbn [negb].
  - assert (Es : Ascii.eqb c sep = false).
    { apply Ascii.eqb_eq in Ec. subst c. rewrite Ascii.eqb_sym. exact Hne. }
    rewrite Es, IH. pose proof (split_nonnil sep t) as Hn.
    destruct (split sep t) as [|l ls]; [congruence|].
    cbn [map filter]. rewrite Ec. reflexivity.
  - cbn [split]. destruct (Ascii.eqb c sep) eqn:Es.
    + cbn [map filter]. f_equal. exact IH.
    + rewrite IH. pose proof (split_nonnil sep t) as Hn.
      destruct (split sep t) as [|l ls]; [congruence|].
      cbn [map filter]. rewrite Ec. reflexivity.
Qed.

Lemma unwrap_tokens hk :
  remove_char GT (remove_char LT (wrap_tokens hk))
  = remove_char GT (remove_char LT hk).
Proof.
  unfold wrap_tokens.
  repeat (rewrite remove_char_app || rewrite remove_char_join).
  change (remove_char GT (remove_char LT [LT])) with (@nil ascii).
  change (remove_char GT (remove_char LT [GT])) with (@nil ascii).
  change (remove_char GT (remove_char LT (s ">+<"))) with [PLUS].
  rewrite app_nil_r. cbn [app].
  rewrite <- (split_remove_char PLUS LT) by reflexivity.
  rewrite <- (split_remove_char PLUS GT) by reflexivity.
  apply join_split.
Qed.

Lemma set_listener_enabled l h :
  hotkeys_enabled (set_hotkey_listener l h) = hotkeys_enabled h.
Proof. reflexivity. Qed.

Lemma stop_listener_fields h :
  hotkeys_enabled (stop_listener h) = hotkeys_enabled h /\
  start_hotkey (stop_listener h) = start_hotkey h /\
  stop_hotkey (stop_listener h) = stop_hotkey h /\
  hotkey_warnings (stop_listener h) = hotkey_warnings h /\
  saved (stop_listener h) = saved h.
Proof.
  unfold stop_listener. destruct (hotkey_listener h) as [[m r]|];
    repeat split; reflexivity.
Qed.

Lemma validate_hotkey_nonempty x :
  fst (validate_hotkey x) = true -> nonempty x = true.
Proof. destruct x; [discriminate|reflexivity]. Qed.

Section QuietThread.
Variable env : Env.
Variable speed : Q.
Hypothesis Hq : quiet env.

Lemma thread_chars_quiet line : forall h,
  exists ext,
    type_chars env speed line h = Go (h ++ ext) /\
    keys ext = map TyperSpec.key_of line.
Proof.
  destruct Hq as [Hr Hk].
  induction line as [|c rest IH]; intro h; cbn [type_chars].
  - exists []. rewrite app_nil_r. auto.
  - rewrite Hr. cbn [negb].
    change (map TyperSpec.key_of (c :: rest)) with (TyperSpec.key_of c :: map TyperSpec.key_of rest).
    assert (Kc : TyperSpec.key_of c
                 = if Ascii.eqb c TAB then Press "tab" else Write c)
      by reflexivity.
    destruct (Ascii.eqb c TAB); unfold emit_key, sleep; rewrite Hk;
      cbn [and_then]; rewrite Kc.
    + destruct (IH (((h ++ [IsTyping true]) ++ [Key (Press "tab")])
                      ++ [Sleep (speed * (5 # 10))%Q])) as (ext & He & Ke).
      exists ([IsTyping true; Key (Press "tab");
               Sleep (speed * (5 # 10))%Q] ++ ext).
      split.
      * rewrite He. repeat rewrite <- app_assoc. reflexivity.
      * rewrite auto_keys_app, Ke. reflexivity.
    + destruct (IH (((h ++ [IsTyping true]) ++ [Key (Write c)])
                      ++ [Sleep speed])) as (ext & He & Ke).
      exists ([IsTyping true; Key (Write c); Sleep speed] ++ ext).
      split.
      * rewrite He. repeat rewrite <- app_assoc. reflexivity.
      * rewrite auto_keys_app, Ke. reflexivity.
Qed.

Lemma thread_lines_quiet prevent lines : forall n i h,
  n = i + List.length lines ->
  exists ext,
    type_lines env speed prevent n i lines h = Go (h ++ ext) /\
    keys ext = TyperSpec.text_keys lines.
Proof.
  induction lines as [|line rest IH]; intros n i h Hn; cbn [type_lines].
  - exists []. rewrite app_nil_r. auto.
  - destruct Hq as [Hr Hk]. rewrite Hr. cbn [negb].
    assert (Ef : negb prevent && negb (check_window_focus prevent) = false)
      by (destruct prevent; reflexivity).
    rewrite Ef.
    destruct (thread_chars_quiet line (h ++ [IsTyping true]))
      as (e1 & H1 & K1).
    rewrite H1. cbn [and_then]. cbn [List.length] in Hn.
    destruct rest as [|l2 rest].
    + assert (E : (i <? n - 1) = false) by (apply Nat.ltb_ge; cbn in Hn; lia).
      rewrite E. cbn [and_then type_lines].
      exists ([IsTyping true] ++ e1). split.
      * rewrite app_assoc. reflexivity.
      * rewrite auto_keys_app, K1. reflexivity.
    + assert (E : (i <? n - 1) = true)
        by (apply Nat.ltb_lt; cbn [List.length] in Hn; lia).
      rewrite E. unfold emit_key, sleep. rewrite Hk. cbn [and_then].
      destruct (IH n (S i)
                  ((((h ++ [IsTyping true]) ++ e1)
                      ++ [Key (Press "enter")])
                     ++ [Sleep (speed * (8 # 10))%Q]))
        as (e2 & H2 & K2); [lia|].
      exists (([IsTyping true] ++ e1)
                ++ [Key (Press "enter"); Sleep (speed * (8 # 10))%Q] ++ e2).
      split.
      * rewrite H2. repeat rewrite <- app_assoc. reflexivity.
      * rewrite !auto_keys_app, K1, K2. reflexivity.
Qed.

End QuietThread.

End AutoTyperMoreFacts.

(* ================================================================== *)
(** ** Facts about typer.py *)
(* ================================================================== *)

Import Typer TyperSpec.

Lemma lt_true x y : lt x y = true <-> (x < y)%Q.
Proof.
  unfold lt. rewrite negb_true_iff.
  split; intro H.
  - apply Qnot_le_lt. intro L. apply Qle_bool_iff in L. congruence.
  - destruct (Qle_bool y x) eqn:E; auto.
    apply Qle_bool_iff in E. exfalso. apply (Qlt_not_le _ _ H E).
Qed.

Lemma lt_false x y : lt x y = false <-> (y <= x)%Q.
Proof.
  unfold lt. rewrite negb_false_iff. apply Qle_bool_iff.
Qed.

Lemma loop_fuel_covers limit step fuel :
  (0 < step)%Q -> loop_fuel limit step <= fuel ->
  (limit <= inject_Z (Z.of_nat fuel) * step)%Q.
Proof.
  intros Hs Hf. unfold loop_fuel in Hf.
  assert (Hc : (limit / step <= inject_Z (Z.of_nat fuel))%Q).
  { eapply Qle_trans; [apply Qle_ceiling|].
    rewrite <- Zle_Qle. lia. }
  apply (Qmult_le_compat_r _ _ step) in Hc; [|apply Qlt_le_weak; assumption].
  eapply Qle_trans; [|exact Hc].
  apply Qle_lteq. right. field. intro E. rewrite E in Hs. discriminate.
Qed.

Lemma inject_succ n :
  (inject_Z (Z.of_nat (S n)) == inject_Z (Z.of_nat n) + 1)%Q.
Proof.
  rewrite Nat2Z.inj_succ. unfold Z.succ. rewrite inject_Z_plus. reflexivity.
Qed.

Lemma min_cases a b :
  (min a b = b /\ (b < a)%Q) \/ (min a b = a /\ (a <= b)%Q).
Proof.
  unfold min. destruct (lt b a) eqn:E.
  - left. split; auto. apply lt_true; auto.
  - right. split; auto. apply lt_false; auto.
Qed.

Lemma max_cases a b :
  (max a b = b /\ (a < b)%Q) \/ (max a b = a /\ (b <= a)%Q).
Proof.
  unfold max. destruct (lt a b) eqn:E.
  - left. split; auto. apply lt_true; auto.
  - right. split; auto. apply lt_false; auto.
Qed.

Section Totality.
Variable env : Env.

Lemma countdown_total fuel : forall delay waited h,
  (delay - waited <= inject_Z (Z.of_nat fuel) * wait_step)%Q ->
  countdown env fuel delay waited h <> OutOfFuel.
Proof.
  unfold wait_step.
  induction fuel as [|fuel IH]; intros delay waited h Hb;
    cbn [countdown]; destruct (lt waited delay) eqn:E; try discriminate.
  - apply lt_true in E. change (inject_Z (Z.of_nat 0)) with 0%Q in Hb. lra.
  - unfold check_stop. destruct (stop_is_set env h); cbn; [discriminate|].
    apply IH. rewrite inject_succ in Hb. unfold wait_step. lra.
Qed.

Lemma newline_pause_total fuel : forall limit slept h,
  (limit - slept <= inject_Z (Z.of_nat fuel) * sleep_step)%Q ->
  newline_pause env fuel limit slept h <> OutOfFuel.
Proof.
  unfold sleep_step.
  induction fuel as [|fuel IH]; intros limit slept h Hb;
    cbn [newline_pause]; destruct (lt slept limit) eqn:E; try discriminate.
  - apply lt_true in E. change (inject_Z (Z.of_nat 0)) with 0%Q in Hb. lra.
  - unfold check_stop. destruct (stop_is_set env h); cbn; [discriminate|].
    apply IH. rewrite inject_succ in Hb. unfold sleep_step. lra.
Qed.

Lemma keystroke_pause_total fuel : forall speed slept h,
  (speed - slept <= inject_Z (Z.of_nat fuel) * sleep_step)%Q ->
  keystroke_pause env fuel speed slept h <> OutOfFuel.
Proof.
  induction fuel as [|fuel IH]; intros speed slept h Hb;
    cbn [keystroke_pause]; destruct (lt slept speed) eqn:E; try discriminate.
  - apply lt_true in E. change (inject_Z (Z.of_nat 0)) with 0%Q in Hb. lra.
  - unfold check_stop. destruct (stop_is_set env h); cbn; [discriminate|].
    apply IH. rewrite inject_succ in Hb.
    assert (0 <= inject_Z (Z.of_nat fuel))%Q.
    { change 0%Q with (inject_Z 0). rewrite <- Zle_Qle. lia. }
    unfold sleep_step in *.
    destruct (min_cases (1 # 100) (speed - slept)) as [[-> L]|[-> L]]; lra.
Qed.

Lemma type_line_total fuel speed : forall line h,
  loop_fuel speed sleep_step <= fuel ->
  type_line env fuel speed line h <> OutOfFuel.
Proof.
  intros line h Hf.
  assert (Hp : forall h, keystroke_pause env fuel speed 0 h <> OutOfFuel).
  { intro h0. apply keystroke_pause_total.
    pose proof (loop_fuel_covers speed sleep_step fuel eq_refl Hf). lra. }
  revert h. induction line as [|ch rest IH]; intro h; cbn [type_line].
  - discriminate.
  - unfold check_stop. destruct (stop_is_set env h); cbn [and_then]; [discriminate|].
    unfold emit_key. destruct (key_fault env _ _); cbn [and_then]; [discriminate|].
    specialize (Hp ((h ++ [IsSet false]) ++
       [Key (if (ch =? TAB)%char then Press "tab" else Write ch)])).
    destruct (keystroke_pause env fuel speed 0 _); cbn [and_then];
      try discriminate; auto.
Qed.

Lemma type_lines_total fuel speed n : forall lines li h,
  loop_fuel speed sleep_step <= fuel ->
  loop_fuel (nl_delay speed) sleep_step <= fuel ->
  type_lines env fuel speed n li lines h <> OutOfFuel.
Proof.
  intros lines li h Hf Hn.
  assert (Hp : forall h, newline_pause env fuel (nl_delay speed) 0 h <> OutOfFuel).
  { intro h0. apply newline_pause_total.
    pose proof (loop_fuel_covers (nl_delay speed) sleep_step fuel eq_refl Hn).
    lra. }
  revert li h. induction lines as [|line rest IH]; intros li h;
    cbn [type_lines].
  - discriminate.
  - unfold check_stop. destruct (stop_is_set env h); cbn [and_then]; [discriminate|].
    pose proof (type_line_total fuel speed line (h ++ [IsSet false]) Hf) as Hl.
    destruct (type_line env fuel speed line _) as [h1| | |]; cbn [and_then];
      try discriminate; try congruence.
    destruct (li <? n - 1).
    + unfold emit_key. destruct (key_fault env _ _); cbn [and_then]; [discriminate|].
      specialize (Hp (h1 ++ [Key (Press "enter")])).
      fold (nl_delay speed).
      destruct (newline_pause env fuel (nl_delay speed) 0 _); cbn [and_then];
        try discriminate; auto.
    + cbn [and_then]. auto.
Qed.

Lemma run_total fuel w :
  run_fuel w <= fuel -> exists sig h, run env fuel w = Some (sig, h).
Proof.
  intro Hf. unfold run_fuel in Hf.
  assert (H1 : loop_fuel (start_delay w) wait_step <= fuel) by lia.
  assert (H2 : loop_fuel (speed w) sleep_step <= fuel) by lia.
  assert (H3 : loop_fuel (nl_delay (speed w)) sleep_step <= fuel) by lia.
  unfold run. cbn [progress and_then app].
  pose proof (countdown_total fuel (start_delay w) 0
                [Progress (Starting (start_delay w))]) as Hc.
  destruct (countdown env fuel (start_delay w) 0 _) as [h1| | |] eqn:Ec; cbn [and_then].
  - assert (Hg : exists h2, focus_report env w h1 = Go h2).
    { unfold focus_report, progress.
      destruct (negb (type_any_window w) && win32_available env);
        [destruct (foreground env)|]; eauto. }
    destruct Hg as [h2 ->]. cbn [and_then].
    pose proof (type_lines_total fuel (speed w)
                  (List.length (split LF (preformat (language w) (text w)))) 
                  (split LF (preformat (language w) (text w))) 0 h2 H2 H3) as Ht.
    destruct (type_lines env fuel (speed w) _ 0 _ h2); eauto. congruence.
  - eauto.
  - eauto.
  - exfalso. apply Hc; auto.
    pose proof (loop_fuel_covers (start_delay w) wait_step fuel eq_refl H1).
    lra.
Qed.

End Totality.

Lemma keys_app h1 h2 : keys (h1 ++ h2) = keys h1 ++ keys h2.
Proof. unfold keys. apply flat_map_app. Qed.

Lemma sleeps_app h1 h2 : sleeps (h1 ++ h2) = sleeps h1 ++ sleeps h2.
Proof. unfold sleeps. apply flat_map_app. Qed.

Section Quiet.
Variable env : Env.
Hypothesis Hq : quiet env.

Lemma check_stop_quiet msg h : check_stop env msg h = Go (h ++ [IsSet false]).
Proof. unfold check_stop. destruct Hq as [-> _]. reflexivity. Qed.

Lemma emit_key_quiet k h : emit_key env k h = Go (h ++ [Key k]).
Proof. unfold emit_key. destruct Hq as [_ ->]. reflexivity. Qed.

Lemma keystroke_pause_quiet fuel : forall speed slept h,
  (speed - slept <= inject_Z (Z.of_nat fuel) * sleep_step)%Q ->
  exists p,
    keystroke_pause env fuel speed slept h = Go (h ++ p) /\
    keys p = [] /\
    Forall (fun d => (0 < d <= sleep_step)%Q) (sleeps p) /\
    ((slept <= speed)%Q -> (elapsed p == speed - slept)%Q).
Proof.
  induction fuel as [|fuel IH]; intros speed slept h Hb;
    cbn [keystroke_pause]; destruct (lt slept speed) eqn:E.
  - apply lt_true in E. change (inject_Z (Z.of_nat 0)) with 0%Q in Hb. lra.
  - exists []. rewrite app_nil_r. apply lt_false in E.
    repeat split; auto. intros. cbn. lra.
  - rewrite check_stop_quiet. cbn [and_then sleep].
    apply lt_true in E.
    rewrite inject_succ in Hb.
    assert (Hn : (0 <= inject_Z (Z.of_nat fuel))%Q).
    { change 0%Q with (inject_Z 0). rewrite <- Zle_Qle. lia. }
    set (step := min sleep_step (speed - slept)%Q).
    assert (Hstep : (0 < step <= sleep_step)%Q /\ (step <= speed - slept)%Q
                    /\ (speed - (slept + step)
                        <= inject_Z (Z.of_nat fuel) * sleep_step)%Q).
    { subst step. unfold sleep_step in *.
      destruct (min_cases (1 # 100) (speed - slept)) as [[-> L]|[-> L]];
        repeat split; lra. }
    destruct Hstep as (Hs1 & Hs2 & Hs3).
    destruct (IH speed (slept + step)%Q
                ((h ++ [IsSet false]) ++ [Sleep step]) Hs3)
      as (p & Hp & Hk & Hf & He).
    exists (IsSet false :: Sleep step :: p).
    rewrite Hp. split.
    { f_equal. rewrite <- !app_assoc. reflexivity. }
    split; [exact Hk|]. split.
    { cbn. constructor; auto. }
    intros _. unfold elapsed in *. cbn [sleeps flat_map app fold_right].
    fold (sleeps p). rewrite He; [ring|lra].
  - exists []. rewrite app_nil_r. apply lt_false in E.
    repeat split; auto. intros. cbn. lra.
Qed.

Lemma newline_pause_quiet fuel : forall limit slept h,
  (limit - slept <= inject_Z (Z.of_nat fuel) * sleep_step)%Q ->
  exists p,
    newline_pause env fuel limit slept h = Go (h ++ p) /\ keys p = [].
Proof.
  induction fuel as [|fuel IH]; intros limit slept h Hb;
    cbn [newline_pause]; destruct (lt slept limit) eqn:E.
  - apply lt_true in E. change (inject_Z (Z.of_nat 0)) with 0%Q in Hb. lra.
  - exists []. rewrite app_nil_r. auto.
  - rewrite check_stop_quiet. cbn [and_then sleep].
    rewrite inject_succ in Hb.
    destruct (IH limit (slept + sleep_step)%Q
                ((h ++ [IsSet false]) ++ [Sleep sleep_step]))
      as (p & Hp & Hk).
    { unfold sleep_step in *. lra. }
    exists (IsSet false :: Sleep sleep_step :: p).
    rewrite Hp. split; [|exact Hk].
    f_equal. rewrite <- !app_assoc. reflexivity.
  - exists []. rewrite app_nil_r. auto.
Qed.

Lemma countdown_quiet fuel : forall delay waited h,
  (delay - waited <= inject_Z (Z.of_nat fuel) * wait_step)%Q ->
  exists p,
    countdown env fuel delay waited h = Go (h ++ p) /\ keys p = [].
Proof.
  induction fuel as [|fuel IH]; intros limit slept h Hb;
    cbn [countdown]; destruct (lt slept limit) eqn:E.
  - apply lt_true in E. change (inject_Z (Z.of_nat 0)) with 0%Q in Hb. lra.
  - exists []. rewrite app_nil_r. auto.
  - rewrite check_stop_quiet. cbn [and_then sleep].
    rewrite inject_succ in Hb.
    destruct (IH limit (slept + wait_step)%Q
                ((h ++ [IsSet false]) ++ [Sleep wait_step]))
      as (p & Hp & Hk).
    { unfold wait_step in *. lra. }
    exists (IsSet false :: Sleep wait_step :: p).
    rewrite Hp. split; [|exact Hk].
    f_equal. rewrite <- !app_assoc. reflexivity.
  - exists []. rewrite app_nil_r. auto.
Qed.

Lemma type_line_quiet fuel speed : forall line h,
  loop_fuel speed sleep_step <= fuel ->
  exists h',
    type_line env fuel speed line h = Go h' /\
    keys h' = keys h ++ map key_of line.
Proof.
  intros line h Hf.
  assert (Hb : (speed - 0 <= inject_Z (Z.of_nat fuel) * sleep_step)%Q).
  { pose proof (loop_fuel_covers speed sleep_step fuel eq_refl Hf). lra. }
  revert h. induction line as [|ch rest IH]; intro h; cbn [type_line].
  - exists h. rewrite app_nil_r. auto.
  - rewrite check_stop_quiet. cbn [and_then].
    rewrite emit_key_quiet. cbn [and_then].
    fold (key_of ch).
    destruct (keystroke_pause_quiet fuel speed 0
                ((h ++ [IsSet false]) ++ [Key (key_of ch)]) Hb)
      as (p & Hp & Hk & _).
    rewrite Hp. cbn [and_then].
    destruct (IH (((h ++ [IsSet false]) ++ [Key (key_of ch)]) ++ p))
      as (h' & Hh & Hk').
    exists h'. split; [exact Hh|].
    rewrite Hk', !keys_app, Hk. cbn [keys flat_map map].
    rewrite !app_nil_r, <- !app_assoc. reflexivity.
Qed.

Lemma type_lines_quiet fuel speed n : forall lines li h,
  loop_fuel speed sleep_step <= fuel ->
  loop_fuel (nl_delay speed) sleep_step <= fuel ->
  li + List.length lines = n ->
  exists h',
    type_lines env fuel speed n li lines h = Go h' /\
    keys h' = keys h ++ text_keys lines.
Proof.
  intros lines li h Hf Hn.
  assert (Hb : (nl_delay speed - 0
                <= inject_Z (Z.of_nat fuel) * sleep_step)%Q).
  { pose proof (loop_fuel_covers (nl_delay speed) sleep_step fuel eq_refl Hn).
    lra. }
  revert li h. induction lines as [|line rest IH]; intros li h Hlen;
    cbn [type_lines].
  - exists h. rewrite app_nil_r. auto.
  - rewrite check_stop_quiet. cbn [and_then].
    destruct (type_line_quiet fuel speed line (h ++ [IsSet false]) Hf)
      as (h1 & Hl & Hk1).
    rewrite Hl. cbn [and_then].
    rewrite keys_app in Hk1. cbn in Hk1. rewrite app_nil_r in Hk1.
    cbn [List.length] in Hlen.
    destruct rest as [|line2 rest2].
    + assert (E : (li <? n - 1) = false) by (apply Nat.ltb_ge; cbn in Hlen; lia).
      rewrite E. cbn [and_then type_lines].
      exists h1. split; auto.
    + assert (E : (li <? n - 1) = true)
        by (apply Nat.ltb_lt; cbn in Hlen; lia).
      rewrite E. rewrite emit_key_quiet. cbn [and_then].
      fold (nl_delay speed).
      destruct (newline_pause_quiet fuel (nl_delay speed) 0
                  (h1 ++ [Key (Press "enter")]) Hb) as (p & Hp & Hkp).
      rewrite Hp. cbn [and_then].
      destruct (IH (S li) ((h1 ++ [Key (Press "enter")]) ++ p))
        as (h' & Hh & Hk'); [lia|].
      exists h'. split; [exact Hh|].
      rewrite Hk', !keys_app, Hkp, Hk1. cbn [keys flat_map app text_keys].
      rewrite app_nil_r, <- !app_assoc. reflexivity.
Qed.

Lemma run_quiet fuel w :
  run_fuel w <= fuel ->
  exists h,
    run env fuel w = Some (finished completed, h) /\
    keys h = text_keys (split LF (preformat (language w) (text w))).
Proof.
  intro Hf. unfold run_fuel in Hf.
  assert (H1 : loop_fuel (start_delay w) wait_step <= fuel) by lia.
  assert (H2 : loop_fuel (speed w) sleep_step <= fuel) by lia.
  assert (H3 : loop_fuel (nl_delay (speed w)) sleep_step <= fuel) by lia.
  unfold run. cbn [progress and_then app].
  destruct (countdown_quiet fuel (start_delay w) 0
              [Progress (Starting (start_delay w))]) as (p & Hp & Hk).
  { pose proof (loop_fuel_covers (start_delay w) wait_step fuel eq_refl H1).
    lra. }
  rewrite Hp. cbn [and_then].
  assert (Hg : exists q, focus_report env w
                 ([Progress (Starting (start_delay w))] ++ p)
               = Go (([Progress (Starting (start_delay w))] ++ p) ++ q)
               /\ keys q = []).
  { unfold focus_report, progress.
    destruct (negb (type_any_window w) && win32_available env);
      [destruct (foreground env)|].
    - eexists. split; [reflexivity|reflexivity].
    - exists []. rewrite app_nil_r. auto.
    - exists []. rewrite app_nil_r. auto. }
  destruct Hg as (q & -> & Hkq). cbn [and_then].
  destruct (type_lines_quiet fuel (speed w)
              (List.length (split LF (preformat (language w) (text w))))
              (split LF (preformat (language w) (text w))) 0
              (([Progress (Starting (start_delay w))] ++ p) ++ q) H2 H3
              eq_refl) as (h' & Hh & Hk').
  rewrite Hh. exists h'. split; [reflexivity|].
  rewrite Hk', !keys_app, Hk, Hkq. reflexivity.
Qed.

End Quiet.

Lemma focus_report_events env w h :
  focus_report env w h = Go (h ++ focus_events env w).
Proof.
  unfold focus_report, focus_events, progress.
  destruct (negb (type_any_window w) && win32_available env);
    [destruct (foreground env)|]; rewrite ?app_nil_r; reflexivity.
Qed.

Lemma split_cons sep x : exists l ls, split sep x = l :: ls.
Proof.
  induction x as [|c t IH]; cbn [split]; eauto.
  destruct (Ascii.eqb c sep); eauto.
  destruct IH as (l & ls & ->). eauto.
Qed.

Ltac each_char c :=
  destruct c as [[] [] [] [] [] [] [] []]; vm_compute; try reflexivity;
  try discriminate; try tauto.

Lemma lower_char_plus c : Ascii.eqb (lower_char c) PLUS = Ascii.eqb c PLUS.
Proof. each_char c. Qed.

Lemma upper_char_plus c : Ascii.eqb (upper_char c) PLUS = Ascii.eqb c PLUS.
Proof. each_char c. Qed.

Lemma lower_char_idem c : lower_char (lower_char c) = lower_char c.
Proof. each_char c. Qed.

Lemma upper_lower_char c :
  is_ascii c = true -> upper_char (lower_char c) = upper_char c.
Proof. each_char c. Qed.

Lemma lower_idem x : lower (lower x) = lower x.
Proof.
  unfold lower. rewrite map_map. apply map_ext. apply lower_char_idem.
Qed.

Lemma split_map sep (f : ascii -> ascii) x :
  (forall c, Ascii.eqb (f c) sep = Ascii.eqb c sep) ->
  split sep (map f x) = map (map f) (split sep x).
Proof.
  intro Hf. induction x as [|c t IH]; [reflexivity|].
  cbn [map split]. rewrite Hf. destruct (Ascii.eqb c sep).
  - cbn [map]. f_equal. exact IH.
  - rewrite IH. destruct (split sep t); reflexivity.
Qed.

Lemma capitalize_lower p :
  forallb is_ascii p = true -> capitalize (lower p) = capitalize p.
Proof.
  destruct p as [|c t]; [reflexivity|]. cbn [forallb lower map capitalize].
  intro H. apply andb_true_iff in H. destruct H as [Hc _].
  rewrite upper_lower_char by exact Hc. f_equal. apply lower_idem.
Qed.

Lemma split_ascii sep x :
  forallb is_ascii x = true ->
  Forall (fun p => forallb is_ascii p = true) (split sep x).
Proof.
  induction x as [|c t IH]; cbn [forallb split]; intro H.
  - constructor; [reflexivity|constructor].
  - apply andb_true_iff in H. destruct H as [Hc Ht]. specialize (IH Ht).
    destruct (Ascii.eqb c sep).
    + constructor; [reflexivity|exact IH].
    + destruct (split sep t) as [|l ls].
      * constructor; [cbn [forallb]; rewrite Hc; reflexivity|constructor].
      * inversion IH; subst. constructor; auto.
        cbn [forallb]. rewrite Hc. assumption.
Qed.

Lemma pretty_lower x :
  forallb is_ascii x = true ->
  pretty_hotkey_display (lower x) = pretty_hotkey_display x.
Proof.
  intro Ha. unfold pretty_hotkey_display, lower at 1.
  rewrite split_map by apply lower_char_plus.
  rewrite map_map. f_equal.
  pose proof (split_ascii PLUS x Ha) as Hs.
  induction Hs as [|p ps Hp _ IH]; [reflexivity|].
  cbn [map]. f_equal; [|exact IH].
  apply capitalize_lower. exact Hp.
Qed.

Lemma capitalize_clean p : ~ In PLUS p -> ~ In PLUS (capitalize p).
Proof.
  destruct p as [|c t]; [auto|]. cbn [capitalize].
  intros Hn [H|H].
  - apply Hn. left.
    assert (E : Ascii.eqb (upper_char c) PLUS = true)
      by (apply Ascii.eqb_eq; exact H).
    rewrite upper_char_plus in E. apply Ascii.eqb_eq in E. exact E.
  - unfold lower in H. apply in_map_iff in H. destruct H as (d & Hd & Hi).
    apply Hn. right.
    assert (E : Ascii.eqb (lower_char d) PLUS = true)
      by (apply Ascii.eqb_eq; exact Hd).
    rewrite lower_char_plus in E. apply Ascii.eqb_eq in E. subst d. exact Hi.
Qed.

Lemma pretty_tokens x :
  split PLUS (pretty_hotkey_display x) = map capitalize (split PLUS x).
Proof.
  unfold pretty_hotkey_display. apply split_join.
  - pose proof (split_nonnil PLUS x). destruct (split PLUS x);
      [congruence|discriminate].
  - pose proof (split_tokens_clean PLUS x) as Hc.
    induction Hc as [|p ps Hp _ IH]; cbn [map]; constructor; auto.
    apply capitalize_clean. exact Hp.
Qed.

(** Case-insensitivity and token order of [pretty_hotkey_display] on ASCII
    input (typer.py, claim C9). *)
Lemma pretty_hotkey_display_case_insensitive x y :
  forallb is_ascii x = true -> forallb is_ascii y = true ->
  lower x = lower y ->
  pretty_hotkey_display x = pretty_hotkey_display y.
Proof.
  intros Hx Hy E.
  rewrite <- (pretty_lower x Hx), <- (pretty_lower y Hy), E. reflexivity.
Qed.

Lemma hotkey_parts_nil x :
  hotkey_parts x = [] <-> Forall (fun p => strip p = []) (split PLUS x).
Proof.
  unfold hotkey_parts.
  induction (split PLUS x) as [|p ps IH]; cbn [filter map].
  - split; auto.
  - destruct (strip p) as [|c t] eqn:E; cbn [nonempty].
    + rewrite IH. split; intro H.
      * constructor; auto.
      * inversion H; auto.
    + cbn [map]. split; [discriminate|]. intro H. inversion H; subst.
      congruence.
Qed.

Lemma to_pynput_hotkey_error x :
  (exists msg, to_pynput_hotkey x = ValueError msg) <-> hotkey_parts x = [].
Proof.
  unfold to_pynput_hotkey. destruct (hotkey_parts x) as [|p [|q r]].
  - split; eauto.
  - split; [intros [m H]; discriminate|discriminate].
  - split; [intros [m H]; discriminate|discriminate].
Qed.

(* ================================================================== *)
(** ** Facts about the worker in binary64 *)
(* ================================================================== *)

(** None of these facts rests on a property of the arithmetic: the rounds
    that a loop makes are those for which its own comparison holds. *)
Module Typer64Facts.
Import Float64 Typer64 Typer64Spec.

Lemma counting_spec d n :
  counting d n = true <-> (forall i, i < n -> ltb (waited i) d = true).
Proof.
  unfold counting. rewrite forallb_forall. split.
  - intros H i Hi. apply H. apply in_seq. lia.
  - intros H i Hi. apply in_seq in Hi. apply H. lia.
Qed.

Lemma rounds_spec d n :
  rounds d n = true <->
  (forall i, i < n -> ltb (waited i) d = true) /\ ltb (waited n) d = false.
Proof.
  unfold rounds. rewrite andb_true_iff, negb_true_iff, counting_spec.
  reflexivity.
Qed.

Lemma pause_rounds_spec speed n :
  pause_rounds speed n = true <->
  (forall i, i < n -> ltb (slept_after speed i) speed = true) /\
  ltb (slept_after speed n) speed = false.
Proof.
  unfold pause_rounds. rewrite andb_true_iff, negb_true_iff, forallb_forall.
  split; intros [H1 H2]; (split; [|exact H2]).
  - intros i Hi. apply H1. apply in_seq. lia.
  - intros i Hi. apply in_seq in Hi. apply H1. lia.
Qed.

Lemma keys_ticks64 j : keys (ticks j) = [].
Proof. induction j as [|j IH]; [reflexivity|exact IH]. Qed.

Lemma sleeps_ticks64 j : sleeps (ticks j) = repeat (to_Q wait_step) j.
Proof.
  induction j as [|j IH]; [reflexivity|].
  cbn [ticks sleeps flat_map app repeat]. f_equal. exact IH.
Qed.

Lemma keys_pause_events speed i n : keys (pause_events speed i n) = [].
Proof.
  revert i. induction n as [|n IH]; intro i; [reflexivity|apply IH].
Qed.

Lemma key_not_in_ticks64 k j : ~ In (Key k) (ticks j).
Proof.
  induction j as [|j IH]; [intros []|].
  intros [H|[H|H]]; [discriminate|discriminate|exact (IH H)].
Qed.

Lemma ticks_shift (h : History) j :
  ((h ++ [IsSet false]) ++ [Sleep (to_Q wait_step)]) ++ ticks j
  = h ++ ticks (S j).
Proof. rewrite <- !app_assoc. reflexivity. Qed.

Section Loops.
Variable env : Env.

(** The start-delay loop, stopped at its read number [k]. *)
Lemma countdown_seen64 d k : forall fuel i h,
  k < fuel ->
  (forall j, j <= k -> ltb (waited (i + j)) d = true) ->
  (forall j, j < k -> stop_is_set env (h ++ ticks j) = false) ->
  stop_is_set env (h ++ ticks k) = true ->
  countdown env fuel d (waited i) h
  = Done (finished stopped_before) (h ++ ticks k ++ [IsSet true]).
Proof.
  induction k as [|k IH]; intros fuel i h Hf Hc Hclear Hset;
    (destruct fuel as [|fuel]; [lia|]); cbn [countdown].
  - rewrite <- (Nat.add_0_r i) at 1. rewrite Hc by lia.
    unfold check_stop. cbn [ticks] in Hset. rewrite app_nil_r in Hset.
    rewrite Hset. reflexivity.
  - rewrite <- (Nat.add_0_r i) at 1. rewrite Hc by lia.
    unfold check_stop. pose proof (Hclear 0 ltac:(lia)) as H0.
    cbn [ticks] in H0. rewrite app_nil_r in H0. rewrite H0.
    cbn [and_then]. unfold sleep. cbn [and_then].
    change (add (waited i) wait_step) with (waited (S i)).
    rewrite (IH fuel (S i)).
    + f_equal. rewrite <- !app_assoc. reflexivity.
    + lia.
    + intros j Hj. rewrite Nat.add_succ_comm. apply Hc. lia.
    + intros j Hj. rewrite ticks_shift. apply Hclear. lia.
    + rewrite ticks_shift. exact Hset.
Qed.

(** The start-delay loop when none of its reads finds the flag set. *)
Lemma countdown_unseen64 d n : forall fuel i h,
  n <= fuel ->
  (forall j, j < n -> ltb (waited (i + j)) d = true) ->
  ltb (waited (i + n)) d = false ->
  (forall j, j < n -> stop_is_set env (h ++ ticks j) = false) ->
  countdown env fuel d (waited i) h = Go (h ++ ticks n).
Proof.
  induction n as [|n IH]; intros fuel i h Hf Hc He Hclear.
  - rewrite Nat.add_0_r in He.
    destruct fuel; cbn [countdown]; rewrite He; cbn [ticks];
      rewrite app_nil_r; reflexivity.
  - destruct fuel as [|fuel]; [lia|]. cbn [countdown].
    rewrite <- (Nat.add_0_r i) at 1. rewrite Hc by lia.
    unfold check_stop. pose proof (Hclear 0 ltac:(lia)) as H0.
    cbn [ticks] in H0. rewrite app_nil_r in H0. rewrite H0.
    cbn [and_then]. unfold sleep. cbn [and_then].
    change (add (waited i) wait_step) with (waited (S i)).
    rewrite (IH fuel (S i)).
    + f_equal. rewrite <- !app_assoc. reflexivity.
    + lia.
    + intros j Hj. rewrite Nat.add_succ_comm. apply Hc. lia.
    + rewrite Nat.add_succ_comm. exact He.
    + intros j Hj. rewrite ticks_shift. apply Hclear. lia.
Qed.

(** How the start-delay loop ends, whatever the environment does. *)
Lemma countdown_ends64 d : forall fuel i h,
  match countdown env fuel d (waited i) h with
  | Go h' =>
      exists m, h' = h ++ ticks m /\
                (forall j, j < m -> ltb (waited (i + j)) d = true) /\
                ltb (waited (i + m)) d = false
  | Done _ h' => exists m, h' = h ++ ticks m ++ [IsSet true]
  | Raise _ _ => False
  | OutOfFuel => True
  end.
Proof.
  induction fuel as [|fuel IH]; intros i h; cbn [countdown];
    destruct (ltb (waited i) d) eqn:El.
  - exact I.
  - exists 0. cbn [ticks]. rewrite app_nil_r, Nat.add_0_r.
    split; [reflexivity|]. split; [intros j Hj; lia|exact El].
  - unfold check_stop. destruct (stop_is_set env h); cbn [and_then].
    + exists 0. reflexivity.
    + unfold sleep. cbn [and_then].
      change (add (waited i) wait_step) with (waited (S i)).
      specialize (IH (S i) ((h ++ [IsSet false]) ++ [Sleep (to_Q wait_step)])).
      destruct (countdown env fuel d (waited (S i)) _) as [h'|sg h'|e h'|].
      * destruct IH as (m & -> & Hc & He). exists (S m).
        split; [rewrite <- !app_assoc; reflexivity|].
        split.
        -- intros j Hj. destruct j as [|j].
           ++ rewrite Nat.add_0_r. exact El.
           ++ rewrite <- Nat.add_succ_comm. apply Hc. lia.
        -- rewrite <- Nat.add_succ_comm. exact He.
      * destruct IH as (m & ->). exists (S m).
        rewrite <- !app_assoc. reflexivity.
      * exact IH.
      * exact I.
  - exists 0. cbn [ticks]. rewrite app_nil_r, Nat.add_0_r.
    split; [reflexivity|]. split; [intros j Hj; lia|exact El].
Qed.

(** The pause after a key when nobody stops the run. *)
Lemma keystroke_pause_rounds speed n : forall fuel i h,
  (forall h0, stop_is_set env h0 = false) ->
  n <= fuel ->
  (forall j, j < n -> ltb (slept_after speed (i + j)) speed = true) ->
  ltb (slept_after speed (i + n)) speed = false ->
  keystroke_pause env fuel speed (slept_after speed i) h
  = Go (h ++ pause_events speed i n).
Proof.
  induction n as [|n IH]; intros fuel i h Hq Hf Hc He.
  - rewrite Nat.add_0_r in He.
    destruct fuel; cbn [keystroke_pause]; rewrite He; cbn [pause_events];
      rewrite app_nil_r; reflexivity.
  - destruct fuel as [|fuel]; [lia|]. cbn [keystroke_pause].
    rewrite <- (Nat.add_0_r i) at 1. rewrite Hc by lia.
    unfold check_stop. rewrite Hq. cbn [and_then]. unfold sleep.
    cbn [and_then].
    change (add (slept_after speed i)
              (min sleep_step (sub speed (slept_after speed i))))
      with (slept_after speed (S i)).
    rewrite (IH fuel (S i)).
    + f_equal. rewrite <- !app_assoc. reflexivity.
    + exact Hq.
    + lia.
    + intros j Hj. rewrite Nat.add_succ_comm. apply Hc. lia.
    + rewrite Nat.add_succ_comm. exact He.
Qed.

(** Every piece of [run] extends the history it finds. *)
Lemma grows_refl h : grows h (Go h).
Proof. exists []. symmetry. apply app_nil_r. Qed.

Lemma grows_bind h f k :
  grows h f -> (forall h', grows h' (k h')) -> grows h (f ;; k).
Proof.
  intros Hf Hk. destruct f as [h1|sg h1|e h1|]; cbn [and_then]; auto.
  destruct Hf as (x & ->). specialize (Hk (h ++ x)).
  destruct (k (h ++ x)) as [h2|sg h2|e h2|]; cbn [grows] in *; auto;
    destruct Hk as (y & ->); exists (x ++ y); symmetry; apply app_assoc.
Qed.

Lemma check_stop_grows msg h : grows h (check_stop env msg h).
Proof.
  unfold check_stop. destruct (stop_is_set env h); cbn [grows]; eauto.
Qed.

Lemma emit_key_grows k h : grows h (emit_key env k h).
Proof.
  unfold emit_key. destruct (key_fault env h k); cbn [grows]; eauto.
  exists []. symmetry. apply app_nil_r.
Qed.

Lemma sleep_grows d h : grows h (sleep d h).
Proof. unfold sleep. cbn [grows]. eauto. Qed.

Lemma keystroke_pause_grows speed : forall fuel slept h,
  grows h (keystroke_pause env fuel speed slept h).
Proof.
  induction fuel as [|fuel IH]; intros slept h; cbn [keystroke_pause];
    destruct (ltb slept speed); try apply grows_refl; [exact I|].
  apply grows_bind; [apply check_stop_grows|]. intro h1.
  apply grows_bind; [apply sleep_grows|]. intro h2. apply IH.
Qed.

Lemma newline_pause_grows limit : forall fuel slept h,
  grows h (newline_pause env fuel limit slept h).
Proof.
  induction fuel as [|fuel IH]; intros slept h; cbn [newline_pause];
    destruct (ltb slept limit); try apply grows_refl; [exact I|].
  apply grows_bind; [apply check_stop_grows|]. intro h1.
  apply grows_bind; [apply sleep_grows|]. intro h2. apply IH.
Qed.

Lemma type_line_grows fuel speed line : forall h,
  grows h (type_line env fuel speed line h).
Proof.
  induction line as [|ch rest IH]; intro h; cbn [type_line];
    [apply grows_refl|].
  apply grows_bind; [apply check_stop_grows|]. intro h1.
  apply grows_bind; [apply emit_key_grows|]. intro h2.
  apply grows_bind; [apply keystroke_pause_grows|]. intro h3. apply IH.
Qed.

Lemma type_lines_grows fuel speed n lines : forall li h,
  grows h (type_lines env fuel speed n li lines h).
Proof.
  induction lines as [|line rest IH]; intros li h; cbn [type_lines];
    [apply grows_refl|].
  apply grows_bind; [apply check_stop_grows|]. intro h1.
  apply grows_bind; [apply type_line_grows|]. intro h2.
  apply grows_bind.
  - destruct (li <? n - 1); [|apply grows_refl].
    apply grows_bind; [apply emit_key_grows|]. intro h3.
    apply newline_pause_grows.
  - intro h3. apply IH.
Qed.

Lemma focus_report_events64 w h :
  focus_report env w h = Go (h ++ focus_events env w).
Proof.
  unfold focus_report, focus_events, progress.
  destruct (negb (type_any_window w) && win32_available env);
    [destruct (foreground env)|]; try reflexivity;
    rewrite app_nil_r; reflexivity.
Qed.

Lemma keys_focus_events w : keys (focus_events env w) = [].
Proof.
  unfold focus_events.
  destruct (negb (type_any_window w) && win32_available env);
    [destruct (foreground env)|]; reflexivity.
Qed.

End Loops.

(** The run stopped by the read number [k] of the start-delay loop. *)
Lemma run_stopped_in_countdown64 env fuel w k :
  k < fuel ->
  counting (start_delay w) (S k) = true ->
  (forall i, i < k -> stop_is_set env (at_round w i) = false) ->
  stop_is_set env (at_round w k) = true ->
  run env fuel w
  = Some (finished stopped_before, at_round w k ++ [IsSet true]).
Proof.
  intros Hf Hc Hclear Hset. unfold run. cbn [progress and_then app].
  change zero with (waited 0).
  rewrite (countdown_seen64 env (start_delay w) k fuel 0
             [Progress (Starting (to_Q (start_delay w)))]); auto.
  intros j Hj. cbn [Nat.add]. apply counting_spec with (n := S k); auto. lia.
Qed.

(** The run stopped by the first read of the typing loop. *)
Lemma run_stopped_at_first_line64 env fuel w n :
  n <= fuel ->
  rounds (start_delay w) n = true ->
  (forall i, i < n -> stop_is_set env (at_round w i) = false) ->
  stop_is_set env (at_round w n ++ focus_events env w) = true ->
  run env fuel w
  = Some (finished stopped_during,
          at_round w n ++ focus_events env w ++ [IsSet true]).
Proof.
  intros Hf Hr Hclear Hset. apply rounds_spec in Hr. destruct Hr as [Hc He].
  unfold run. cbn [progress and_then app].
  change zero with (waited 0).
  rewrite (countdown_unseen64 env (start_delay w) n fuel 0
             [Progress (Starting (to_Q (start_delay w)))]); auto.
  cbn [and_then]. rewrite focus_report_events64. cbn [and_then].
  destruct (split_cons LF (preformat (language w) (text w)))
    as (l & ls & ->).
  cbn [type_lines]. unfold check_stop.
  change ([Progress (Starting (to_Q (start_delay w)))] ++ ticks n)
    with (at_round w n).
  rewrite Hset. cbn [and_then]. rewrite <- app_assoc. reflexivity.
Qed.

End Typer64Facts.

(* ================================================================== *)
(** ** The claims *)
(* ================================================================== *)

(** Claim C1.  Whatever the environment does to a run of the typing worker
    of typer.py (nobody interferes, the user stops it, pyautogui raises),
    the run ends, with enough fuel, by emitting one signal, and the slot
    connected to that signal leaves [is_typing] false and the stop event
    clear.  In auto_typer.py the [finally] clause of [type_text] leaves
    [is_typing] false on every exit of the typing thread; that program has
    no stop event apart from this flag. *)
Theorem C1_completion_clears_is_typing :
  (forall env worker extra win,
     exists sig h,
       run env (run_fuel worker + extra) worker = Some (sig, h) /\
       is_typing (deliver sig win) = false /\
       stop_event (deliver sig win) = false) /\
  (forall env text app,
     AutoTyper.is_typing (fst (AutoTyper.type_text env text app)) = false).
Proof.
  split.
  - intros env worker extra win.
    destruct (run_total env (run_fuel worker + extra) worker) as (sig & h & H);
      [lia|].
    exists sig, h. split; [exact H|]. destruct sig; split; reflexivity.
  - apply AutoTyperFacts.type_text_clears_is_typing.
Qed.

(** The three kinds of exit of a run of the worker: it completes, the user
    stops it, or the platform refuses synthetic input. *)
Example run_exits :
  (exists h, run undisturbed 1 (init (s "ab") 0 (s "text") 0 true)
             = Some (finished completed, h)) /\
  (exists h, run (stop_at 0) 1 (init (s "ab") 0 (s "text") 0 true)
             = Some (finished stopped_during, h)) /\
  (exists h, run refused 1 (init (s "ab") 0 (s "text") 0 true)
             = Some (error "Typing error: denied", h)).
Proof. repeat split; eexists; vm_compute; reflexivity. Qed.

(** typer.py, for claim C2: a second start request while the first run is in
    flight starts no worker and changes nothing but the status line, which
    says that typing is already in progress. *)
Lemma on_start_clicked_twice w :
  is_typing w = false ->
  nonempty (strip (text_edit w)) = true ->
  started (on_start_clicked w)
  = started w ++ [init (text_edit w) (typing_speed (settings w))
                       (lang_combo w) (delay_input w)
                       (any_window_checkbox w)] /\
  on_start_clicked (on_start_clicked w)
  = set_status "Typing already in progress." (on_start_clicked w).
Proof.
  intros Hi Ht. unfold on_start_clicked at 1 3 4. rewrite Hi, Ht.
  cbn [negb]. split; reflexivity.
Qed.

(** Claim C2, auto_typer.py at its default start delay of 3 seconds: two
    start requests in a row both pass the [is_typing] guard, because the
    flag is raised only by [begin_typing] when the countdown ends.  No
    dialog says that typing is already in progress, two countdowns are
    scheduled, and when the timers have fired two typing threads have been
    started on the same text. *)
Theorem C2_auto_typer_second_start_during_countdown :
  let a2 := AutoTyper.start_typing (AutoTyper.start_typing AutoTyperSpec.app0) in
  AutoTyper.is_typing a2 = false /\
  AutoTyper.dialogs a2 = [] /\
  List.length (AutoTyper.timers a2) = 2 /\
  AutoTyper.threads (Nat.iter 6 AutoTyper.fire_timer a2) = [s "hi"; s "hi"].
Proof. vm_compute. repeat split; reflexivity. Qed.

(** Claim C3, as typer.py has it, in the arithmetic of the program.  The
    start-delay loop reads the stop flag before each sleep of [wait_step]
    (50 ms), and goes on while the float sum [waited] of the steps is below
    the start delay.  (1) When the read number [k] of the loop is the first
    to find the flag set, the run ends with the signal
    [finished "Stopped before typing (user requested stop)."]; it has
    pressed no key and has made [k] sleeps of [wait_step].  (2) When the
    loop makes [n] rounds, none of its reads finds the flag set and the
    first read of the typing loop does (the stop came during the last sleep
    of the countdown), the run ends with
    [finished "Stopped by user during typing."], still without a key
    pressed. *)
Theorem C3_stop_observed_by_the_countdown :
  forall env fuel w,
    (forall k,
       k < fuel ->
       Typer64Spec.counting (Typer64.start_delay w) (S k) = true ->
       (forall i, i < k ->
                  stop_is_set env (Typer64Spec.at_round w i) = false) ->
       stop_is_set env (Typer64Spec.at_round w k) = true ->
       Typer64.run env fuel w
       = Some (finished stopped_before,
               Typer64Spec.at_round w k ++ [IsSet true])
       /\ keys (Typer64Spec.at_round w k ++ [IsSet true]) = []
       /\ sleeps (Typer64Spec.at_round w k ++ [IsSet true])
          = repeat (Float64.to_Q Typer64.wait_step) k) /\
    (forall n,
       n <= fuel ->
       Typer64Spec.rounds (Typer64.start_delay w) n = true ->
       (forall i, i < n ->
                  stop_is_set env (Typer64Spec.at_round w i) = false) ->
       stop_is_set env
         (Typer64Spec.at_round w n ++ Typer64Spec.focus_events env w)
       = true ->
       Typer64.run env fuel w
       = Some (finished stopped_during,
               Typer64Spec.at_round w n ++ Typer64Spec.focus_events env w
                 ++ [IsSet true])
       /\ keys (Typer64Spec.at_round w n ++ Typer64Spec.focus_events env w
                ++ [IsSet true]) = []).
Proof.
  intros env fuel w. split.
  - intros k Hk Hc Hclear Hset. split; [|split].
    + apply Typer64Facts.run_stopped_in_countdown64; auto.
    + unfold Typer64Spec.at_round. rewrite keys_app. cbn [keys flat_map app].
      fold (keys (Typer64Spec.ticks k)).
      rewrite Typer64Facts.keys_ticks64. reflexivity.
    + unfold Typer64Spec.at_round. rewrite sleeps_app.
      cbn [sleeps flat_map app]. fold (sleeps (Typer64Spec.ticks k)).
      rewrite Typer64Facts.sleeps_ticks64, app_nil_r. reflexivity.
  - intros n Hn Hr Hclear Hset. split.
    + apply Typer64Facts.run_stopped_at_first_line64; auto.
    + unfold Typer64Spec.at_round. rewrite !keys_app.
      cbn [keys flat_map app]. fold (keys (Typer64Spec.ticks n)).
      rewrite Typer64Facts.keys_ticks64.
      fold (keys (Typer64Spec.focus_events env w)).
      rewrite Typer64Facts.keys_focus_events. reflexivity.
Qed.

(** Claim C3 at concrete inputs.  With the default delay of 3.0 s the loop
    makes 61 rounds, [waited] being 2.9999999999999973 after 60 steps; a
    stop that comes 2.96 s into the countdown is found by the read number
    60, and the run ends as stopped before typing.  With a delay of 50 ms
    and a stop after 20 ms the only read of the loop has passed, and the
    first read of the typing loop finds the flag. *)
Lemma C3_stop_observed_by_the_countdown_witness :
  Typer64Spec.rounds (Float64.lit 3 1) 61 = true /\
  Typer64.run (stop_at (296 # 100)) 61
    (Typer64.init (s "ab") Float64.zero (s "text") (Float64.lit 3 1) true)
  = Some (finished stopped_before,
          Typer64Spec.at_round
            (Typer64.init (s "ab") Float64.zero (s "text")
               (Float64.lit 3 1) true) 60 ++ [IsSet true]) /\
  Typer64.run (stop_at (2 # 100)) 1
    (Typer64.init (s "ab") Float64.zero (s "text") (Float64.lit 5 100) true)
  = Some (finished stopped_during,
          [Progress (Starting (Float64.to_Q (Float64.lit 5 100)));
           IsSet false; Sleep (Float64.to_Q Typer64.wait_step);
           IsSet true]).
Proof.
  split; [vm_compute; reflexivity|]. split.
  - refine (proj1 (proj1 (C3_stop_observed_by_the_countdown
             (stop_at (296 # 100)) 61
             (Typer64.init (s "ab") Float64.zero (s "text")
                (Float64.lit 3 1) true)) 60 _ _ _ _)).
    + lia.
    + vm_compute. reflexivity.
    + intros i Hi.
      do 60 (destruct i as [|i]; [vm_compute; reflexivity|]). lia.
    + vm_compute. reflexivity.
  - refine (proj1 (proj2 (C3_stop_observed_by_the_countdown
             (stop_at (2 # 100)) 1
             (Typer64.init (s "ab") Float64.zero (s "text")
                (Float64.lit 5 100) true)) 1 _ _ _ _)).
    + lia.
    + vm_compute. reflexivity.
    + intros i Hi. destruct i as [|i]; [vm_compute; reflexivity|lia].
    + vm_compute. reflexivity.
Defined.

(** auto_typer.py, for claim C3: a stop request during the countdown finds
    [is_typing] false, is answered with "No typing in progress", and the
    countdown goes on to start the typing thread. *)
Example auto_typer_stop_during_countdown_is_ignored :
  let a1 := AutoTyper.stop_typing (AutoTyper.start_typing AutoTyperSpec.app0) in
  AutoTyper.status_var a1 = AutoTyper.NoTypingInProgress /\
  AutoTyper.threads (Nat.iter 3 AutoTyper.fire_timer a1) = [s "hi"] /\
  AutoTyper.is_typing (Nat.iter 3 AutoTyper.fire_timer a1) = true.
Proof. vm_compute. repeat split; reflexivity. Qed.

(** Claim C3 as worded fails on typer.py: with a start delay of 50 ms and a
    stop request 20 ms into the countdown, the only read of the countdown
    has already happened, and the run reports a stop during typing, not a
    stop before the start. *)
Lemma C3_stop_in_the_last_slice_of_the_countdown :
  (0 < 2 # 100)%Q /\
  (2 # 100 < Float64.to_Q (Float64.lit 5 100))%Q /\
  Typer64.run (stop_at (2 # 100)) 1
    (Typer64.init (s "ab") Float64.zero (s "text") (Float64.lit 5 100) true)
  = Some (finished stopped_during,
          [Progress (Starting (Float64.to_Q (Float64.lit 5 100)));
           IsSet false; Sleep (Float64.to_Q (Float64.lit 5 100));
           IsSet true]) /\
  stopped_during <> stopped_before.
Proof.
  split; [reflexivity|]. split; [vm_compute; reflexivity|].
  split; [vm_compute; reflexivity|]. discriminate.
Qed.

Ltac eval_str_eqb :=
  repeat match goal with
  | |- context [str_eqb ?a ?b] =>
      let v := eval vm_compute in (str_eqb a b) in
      change (str_eqb a b) with v
  end.

Lemma preformat_code lang txt :
  In lang code_languages ->
  preformat lang txt = join [LF] (map rstrip (splitlines txt)).
Proof.
  intro H. unfold code_languages in H.
  destruct H as [<-|[<-|[<-|[<-|[<-|[]]]]]]; unfold preformat;
    cbn [existsb]; eval_str_eqb; reflexivity.
Qed.

Lemma apply_formatting_code lang txt :
  In lang code_languages ->
  AutoTyper.apply_formatting lang txt
  = join [LF] (AutoTyper.formatted_lines (split LF txt)).
Proof.
  intro H. unfold code_languages in H.
  destruct H as [<-|[<-|[<-|[<-|[<-|[]]]]]]; unfold AutoTyper.apply_formatting;
    eval_str_eqb; reflexivity.
Qed.

Lemma preformat_text txt : preformat (s "text") txt = rstrip_char LF txt.
Proof. unfold preformat. cbn [existsb]. eval_str_eqb. reflexivity. Qed.

Lemma text_keys_never_end_with_enter txt r k :
  map key_of_char (preformat (s "text") txt) = r ++ [k] ->
  k <> Press "enter".
Proof.
  rewrite preformat_text. intro H.
  apply map_eq_app in H. destruct H as (x1 & x2 & Hx & _ & H2).
  destruct x2 as [|c [|c' x2]]; try discriminate.
  injection H2 as <-. apply rstrip_char_no_trailing in Hx.
  unfold key_of_char, key_of.
  destruct (Ascii.eqb c LF) eqn:E.
  - apply Ascii.eqb_eq in E. contradiction.
  - destruct (Ascii.eqb c TAB); discriminate.
Qed.

Lemma text_keys_cons_char c l ls :
  text_keys ((c :: l) :: ls) = key_of c :: text_keys (l :: ls).
Proof. destruct ls; reflexivity. Qed.

Lemma text_keys_split x : text_keys (split LF x) = map key_of_char x.
Proof.
  induction x as [|c t IH]; [reflexivity|].
  cbn [split map]. pose proof (split_nonnil LF t) as Hn.
  destruct (split LF t) as [|l ls] eqn:Es; [congruence|].
  unfold key_of_char at 1. destruct (Ascii.eqb c LF).
  - change (text_keys ([] :: l :: ls))
      with (Press "enter" :: text_keys (l :: ls)).
    f_equal. exact IH.
  - rewrite text_keys_cons_char. f_equal. exact IH.
Qed.

Lemma undisturbed_quiet : quiet undisturbed.
Proof. split; reflexivity. Qed.

(** Claim C4, as the two programs have it.  In auto_typer.py every key of a
    run is followed at once by one sleep: half the typing speed after a
    "tab", the typing speed after a written character (and 0.8 of it after
    "enter"); and when nobody stops the thread the keys are those of the
    formatted text, "tab" for a tab and the character itself for any other
    character of a line.  In typer.py, in the arithmetic of the program, a
    character, tab or not, is followed by the rounds of one and the same
    pause loop: a read of the stop flag and a sleep of
    [min(0.01, speed - slept)], as long as the float sum [slept] of the
    slices is below the speed; the pause after a tab is not halved.  Both
    programs type "a<tab>b" as [a, tab, b]. *)
Theorem C4_pause_after_each_key :
  forall env fuel speed ch h n aenv sp text app,
    quiet env -> n <= fuel -> Typer64Spec.pause_rounds speed n = true ->
    (* auto_typer.py *)
    AutoTyperSpec.paced (AutoTyper.typing_speed app)
          (snd (AutoTyper.type_text aenv text app)) /\
    AutoTyperSpec.pause_after sp (Press "tab") = (sp * (5 # 10))%Q /\
    (forall c, AutoTyperSpec.pause_after sp (Write c) = sp) /\
    (AutoTyperSpec.quiet aenv ->
     AutoTyperSpec.keys (snd (AutoTyper.type_text aenv text app))
     = map key_of_char
         (AutoTyper.apply_formatting (AutoTyper.language app) text)) /\
    AutoTyperSpec.keys
      (snd (AutoTyper.type_text AutoTyperSpec.undisturbed
              (s "a" ++ [TAB] ++ s "b") AutoTyperSpec.app0))
    = [Write "a"; Press "tab"; Write "b"] /\
    (* typer.py *)
    Typer64.type_line env fuel speed [ch] h
    = Go (h ++ IsSet false :: Key (key_of ch)
            :: Typer64Spec.pause_events speed 0 n) /\
    keys (Typer64Spec.pause_events speed 0 n) = [] /\
    key_of TAB = Press "tab" /\
    (ch <> TAB -> key_of ch = Write ch) /\
    key_of_char TAB = Press "tab" /\
    (ch <> TAB -> ch <> LF -> key_of_char ch = Write ch) /\
    (exists h',
       Typer64.run undisturbed 0
         (Typer64.init (s "a" ++ [TAB] ++ s "b") Float64.zero (s "text")
            Float64.zero true)
       = Some (finished completed, h') /\
       keys h' = [Write "a"; Press "tab"; Write "b"]).
Proof.
  intros env fuel speed ch h n aenv sp text app Hq Hf Hr.
  split; [apply AutoTyperFacts.type_text_paced|].
  split; [reflexivity|]. split; [reflexivity|].
  split.
  { intro Ha. unfold AutoTyper.type_text, AutoTyper.type_normal_text.
    destruct (AutoTyperMoreFacts.thread_lines_quiet aenv
                (AutoTyper.typing_speed app) Ha
                (AutoTyper.prevent_window_check app)
                (split LF
                   (AutoTyper.apply_formatting (AutoTyper.language app) text))
                (List.length
                   (split LF
                      (AutoTyper.apply_formatting (AutoTyper.language app)
                         text)))
                0 []) as (ext & He & Hk); [reflexivity|].
    rewrite He. cbn [List.app]. destruct Ha as [Hread _]. rewrite Hread.
    cbn [snd]. rewrite AutoTyperMoreFacts.auto_keys_app, Hk.
    cbn [AutoTyperSpec.keys flat_map]. rewrite app_nil_r.
    apply text_keys_split. }
  split; [vm_compute; reflexivity|].
  split.
  { cbn [Typer64.type_line]. rewrite check_stop_quiet by exact Hq.
    cbn [and_then]. rewrite emit_key_quiet by exact Hq. cbn [and_then].
    fold (key_of ch). apply Typer64Facts.pause_rounds_spec in Hr.
    destruct Hr as [Hc He].
    change Float64.zero with (Typer64Spec.slept_after speed 0).
    rewrite (Typer64Facts.keystroke_pause_rounds env speed n fuel 0);
      [| destruct Hq as [Hs _]; exact Hs | exact Hf | exact Hc | exact He].
    cbn [and_then]. rewrite <- !app_assoc. reflexivity. }
  split; [apply Typer64Facts.keys_pause_events|].
  split; [reflexivity|].
  assert (Hk : ch <> TAB -> key_of ch = Write ch).
  { intro Hn. unfold key_of. destruct (Ascii.eqb ch TAB) eqn:E; auto.
    apply Ascii.eqb_eq in E. contradiction. }
  split; [exact Hk|]. split; [reflexivity|].
  split.
  { intros Hn Hl. unfold key_of_char.
    destruct (Ascii.eqb ch LF) eqn:E; [|auto].
    apply Ascii.eqb_eq in E. contradiction. }
  eexists. split; vm_compute; reflexivity.
Qed.

(** Claim C4 at a concrete input: a tab typed by typer.py at 100 ms per
    key.  The pause loop makes eleven rounds, the float sum of ten slices
    of 0.01 being below 0.1: the eleventh slice is positive and lasts less
    than a nanosecond. *)
Lemma C4_pause_after_each_key_witness :
  Typer64Spec.pause_rounds (Float64.lit 100 1000) 11 = true /\
  Typer64.type_line undisturbed 11 (Float64.lit 100 1000) [TAB] []
  = Go ([] ++ IsSet false :: Key (Press "tab")
           :: Typer64Spec.pause_events (Float64.lit 100 1000) 0 11) /\
  (0 < Float64.to_Q (Typer64Spec.slice (Float64.lit 100 1000) 10)
     < 1 # 1000000000)%Q.
Proof.
  split; [vm_compute; reflexivity|].
  split; [|split; vm_compute; reflexivity].
  refine (proj1 (proj2 (proj2 (proj2 (proj2 (proj2
            (C4_pause_after_each_key undisturbed 11 (Float64.lit 100 1000)
               TAB [] 11 AutoTyperSpec.undisturbed 0 (s "a")
               AutoTyperSpec.app0 undisturbed_quiet _ _))))))).
  - lia.
  - vm_compute. reflexivity.
Defined.

(** Claim C4 as worded fails on typer.py: at 20 ms per key the tab is
    followed by two sleeps of 10 ms, the full speed and not half of it. *)
Lemma C4_tab_pause_in_typer_is_the_full_speed :
  Typer64.run undisturbed 2
    (Typer64.init [TAB] (Float64.lit 20 1000) (s "text") Float64.zero true)
  = Some (finished completed,
          [Progress (Starting 0); IsSet false; IsSet false;
           Key (Press "tab");
           IsSet false; Sleep (Float64.to_Q (Float64.lit 1 100));
           IsSet false; Sleep (Float64.to_Q (Float64.lit 1 100))]) /\
  ~ (Float64.to_Q (Float64.lit 1 100) + Float64.to_Q (Float64.lit 1 100)
     == Float64.to_Q (Float64.mul (Float64.lit 20 1000) (Float64.lit 5 10)))%Q.
Proof.
  split; [vm_compute; reflexivity|]. intro H. vm_compute in H. discriminate.
Qed.

(** Claim C5.  When nobody stops the run and every key goes through, the
    worker of typer.py completes, and the keys it emitted are those of the
    lines of the pre-formatted text, in order, with an "enter" between two
    lines and none after the last: character by character, the image of the
    pre-formatted text.  For the language "text" the sequence never ends
    with "enter".  "ab" gives [a, b] and "a\nb" gives [a, enter, b]. *)
Theorem C5_keys_follow_the_text :
  forall env fuel w,
    quiet env -> run_fuel w <= fuel ->
    (exists h,
       run env fuel w = Some (finished completed, h) /\
       keys h = text_keys (split LF (preformat (language w) (text w))) /\
       keys h = map key_of_char (preformat (language w) (text w))) /\
    (forall txt r k,
       map key_of_char (preformat (s "text") txt) = r ++ [k] ->
       k <> Press "enter") /\
    (exists h,
       run undisturbed 0 (init (s "ab") 0 (s "text") 0 true)
       = Some (finished completed, h) /\
       keys h = [Write "a"; Write "b"]) /\
    (exists h,
       run undisturbed 1 (init (s "a" ++ [LF] ++ s "b") 0 (s "text") 0 true)
       = Some (finished completed, h) /\
       keys h = [Write "a"; Press "enter"; Write "b"]).
Proof.
  intros env fuel w Hq Hf. split; [|split; [|split]].
  - destruct (run_quiet env Hq fuel w Hf) as (h & Hr & Hk).
    exists h. repeat split; auto. rewrite Hk. apply text_keys_split.
  - apply text_keys_never_end_with_enter.
  - eexists. split; vm_compute; reflexivity.
  - eexists. split; vm_compute; reflexivity.
Qed.

(** Claim C5 at a concrete input: the Python text "a<tab>\nb" at 20 ms per
    key. *)
Lemma C5_keys_follow_the_text_witness :
  exists h,
    run undisturbed 2
      (init (s "a" ++ [TAB; LF] ++ s "b") (2 # 100) (s "python") 0 true)
    = Some (finished completed, h) /\
    keys h = [Write "a"; Press "enter"; Write "b"].
Proof.
  destruct (C5_keys_follow_the_text undisturbed 2
              (init (s "a" ++ [TAB; LF] ++ s "b") (2 # 100) (s "python") 0
                    true) undisturbed_quiet) as [(h & Hr & Hk & _) _].
  - vm_compute. lia.
  - exists h. split; [exact Hr|]. rewrite Hk. reflexivity.
Defined.

(** Claim C6, as typer.py has it.  [to_pynput_hotkey] drops the tokens that
    are blank before it looks at them, so it raises [ValueError] exactly
    when every token between the '+' signs is blank.  The empty string and
    "+" are refused; "ctrl+" is read as the bare key "ctrl". *)
Theorem C6_parse_fails_iff_every_token_blank :
  (forall x,
     (exists msg, to_pynput_hotkey x = ValueError msg)
     <-> Forall (fun p => strip p = []) (split PLUS x)) /\
  to_pynput_hotkey [] = ValueError "Empty hotkey" /\
  to_pynput_hotkey (s "+") = ValueError "Empty hotkey" /\
  to_pynput_hotkey (s "ctrl+") = Ok (s "ctrl").
Proof.
  split; [|repeat split; reflexivity].
  intro x. rewrite to_pynput_hotkey_error. apply hotkey_parts_nil.
Qed.

(** Claim C6 as worded fails: the key token of "ctrl+" is empty, and the
    string is accepted. *)
Lemma C6_trailing_plus_is_accepted :
  last (split PLUS (s "ctrl+")) [] = [] /\
  ~ (exists msg, to_pynput_hotkey (s "ctrl+") = ValueError msg).
Proof.
  split; [reflexivity|]. intros [msg H]. discriminate.
Qed.

(** Claim C7, as the two programs have it.  For each of the five code
    languages the formatter of typer.py is [splitlines], [rstrip] on each
    line, and a join with newlines: the lines of the result are those of the
    input, one for one; each is its input line without a suffix of
    whitespace, has no trailing whitespace, and keeps the leading
    whitespace of a line that is not blank.  The formatters of
    auto_typer.py keep only the lines that are not blank, strip them, and
    indent them with as many spaces as they had leading whitespace
    characters. *)
Theorem C7_code_formatters :
  forall lang txt,
    In lang code_languages ->
    (* typer.py *)
    preformat lang txt = join [LF] (map rstrip (splitlines txt)) /\
    split LF (preformat lang txt)
    = match splitlines txt with
      | [] => [[]]
      | ls => map rstrip ls
      end /\
    Forall (fun line =>
              (exists ws, line = rstrip line ++ ws /\ blank ws = true) /\
              (forall r c, rstrip line = r ++ [c] -> isspace c = false) /\
              (blank line = false ->
               leading_ws (rstrip line) = leading_ws line))
           (splitlines txt) /\
    (* auto_typer.py *)
    AutoTyper.apply_formatting lang txt
    = join [LF]
        (map AutoTyperSpec.reindent
           (filter (fun l => nonempty (strip l)) (split LF txt))).
Proof.
  intros lang txt Hl. split; [apply preformat_code; exact Hl|].
  split; [|split].
  - rewrite preformat_code by exact Hl.
    pose proof (splitlines_no_LF txt) as Hc.
    destruct (splitlines txt) as [|l ls] eqn:E; [reflexivity|].
    apply split_join; [discriminate|].
    clear E. induction Hc as [|p ps Hp _ IH]; cbn [map]; constructor; auto.
    apply rstrip_clean. exact Hp.
  - apply Forall_forall. intros line _. split; [apply rstrip_suffix|].
    split; [apply rstrip_no_trailing|apply rstrip_keeps_indent].
  - rewrite apply_formatting_code by exact Hl.
    rewrite AutoTyperFacts.formatted_lines_filter. reflexivity.
Qed.

(** Claim C7 at a concrete input, for the language "c++". *)
Lemma C7_code_formatters_witness :
  preformat (s "c++") (s "  a " ++ [LF; LF] ++ s "b")
  = s "  a" ++ [LF; LF] ++ s "b" /\
  AutoTyper.apply_formatting (s "c++") (s "  a " ++ [LF; LF] ++ s "b")
  = s "  a" ++ [LF] ++ s "b".
Proof.
  destruct (C7_code_formatters (s "c++") (s "  a " ++ [LF; LF] ++ s "b"))
    as (H1 & _ & _ & H2).
  - right. left. reflexivity.
  - split; [rewrite H1|rewrite H2]; reflexivity.
Defined.

(** Claim C7 as worded fails on auto_typer.py: of the three lines
    "a", the empty line and "<tab>b" the Python formatter keeps two, and the
    tab of the indentation becomes a space. *)
Lemma C7_auto_typer_drops_blank_lines :
  In (s "python") code_languages /\
  AutoTyper.apply_formatting (s "python") (s "a" ++ [LF; LF; TAB] ++ s "b")
  = s "a" ++ [LF] ++ s " b" /\
  List.length (split LF (s "a" ++ [LF; LF; TAB] ++ s "b")) = 3 /\
  List.length
    (split LF (AutoTyper.apply_formatting (s "python")
                 (s "a" ++ [LF; LF; TAB] ++ s "b"))) = 2.
Proof. split; [left; reflexivity|]. repeat split; vm_compute; reflexivity. Qed.

Lemma str_eqb_refl x : str_eqb x x = true.
Proof. unfold str_eqb. destruct (list_eq_dec ascii_dec x x); congruence. Qed.

(** What the guard of the two programs does reject: entries that are equal
    as texts after trimming and lower-casing.  [on_apply_hotkeys] of
    typer.py then only shows an error dialog: the settings and the live
    hotkey listener are what they were.  [ok_clicked] of the dialog of
    auto_typer.py shows an error, sets no result and leaves the dialog
    open, so nothing is handed to the application. *)
Lemma equal_hotkey_texts_are_rejected :
  forall os w d,
    lower (strip (start_hotkey_input w)) = lower (strip (stop_hotkey_input w)) ->
    lower (strip (AutoTyper.start_var d))
    = lower (strip (AutoTyper.stop_var d)) ->
    (* typer.py *)
    (exists msg,
       on_apply_hotkeys os w = show_dialog (Critical "Error" msg) w) /\
    hotkey_listener (on_apply_hotkeys os w) = hotkey_listener w /\
    settings (on_apply_hotkeys os w) = settings w /\
    (* auto_typer.py *)
    AutoTyper.result (AutoTyper.ok_clicked d) = AutoTyper.result d /\
    AutoTyper.destroyed (AutoTyper.ok_clicked d) = AutoTyper.destroyed d /\
    (exists msg,
       AutoTyper.errors (AutoTyper.ok_clicked d)
       = AutoTyper.errors d ++ [Critical "Error" msg]).
Proof.
  intros os w d Hw Hd.
  assert (H : exists msg,
             on_apply_hotkeys os w = show_dialog (Critical "Error" msg) w).
  { unfold on_apply_hotkeys. rewrite Hw, str_eqb_refl.
    destruct (negb (nonempty (lower (strip (stop_hotkey_input w))))
              || negb (nonempty (lower (strip (stop_hotkey_input w)))));
      eauto. }
  split; [exact H|]. destruct H as (msg & ->).
  split; [reflexivity|]. split; [reflexivity|].
  unfold AutoTyper.ok_clicked. rewrite Hd, str_eqb_refl.
  destruct (negb (nonempty (lower (strip (AutoTyper.stop_var d))))
            || negb (nonempty (lower (strip (AutoTyper.stop_var d)))));
    cbn; eauto.
Qed.

(** At concrete inputs: "ctrl+alt+t" against " Ctrl+Alt+T" with a
    listener in place, and "ctrl+shift+s" against "Ctrl+Shift+S ". *)
Lemma equal_hotkey_texts_are_rejected_witness :
  hotkey_listener (on_apply_hotkeys accept_all window_with_equal_hotkeys)
  = Some [(s "<ctrl>+<shift>+s", TriggerStart);
          (s "<ctrl>+<shift>+x", TriggerStop)] /\
  AutoTyper.result (AutoTyper.ok_clicked AutoTyperSpec.dialog0) = None.
Proof.
  destruct (equal_hotkey_texts_are_rejected accept_all
              window_with_equal_hotkeys AutoTyperSpec.dialog0)
    as (_ & H1 & _ & H2 & _).
  - reflexivity.
  - reflexivity.
  - split; [rewrite H1|rewrite H2]; reflexivity.
Defined.

(** Claim C8 fails on typer.py.  [on_apply_hotkeys] compares the two
    entries as texts, trimmed and lower-cased, where [to_pynput_hotkey]
    also trims every token.  "ctrl+s" and "ctrl + s" are one and the same
    combination, "<ctrl>+s", and differ as texts: with a listener in place
    for the default hotkeys, the entries are applied without an error
    dialog, the settings take them, and the listener is replaced by one
    that has this combination alone, bound to the stop action.
    [ok_clicked] of auto_typer.py compares texts in the same way and hands
    both entries over. *)
Theorem C8_equal_combos_written_differently_are_accepted :
  to_pynput_hotkey (s "ctrl+s") = Ok (s "<ctrl>+s") /\
  to_pynput_hotkey (s "ctrl + s") = Ok (s "<ctrl>+s") /\
  hotkey_listener window_with_spaced_hotkeys
  = Some [(s "<ctrl>+<shift>+s", TriggerStart);
          (s "<ctrl>+<shift>+x", TriggerStop)] /\
  dialogs (on_apply_hotkeys accept_all window_with_spaced_hotkeys) = [] /\
  hotkey_listener (on_apply_hotkeys accept_all window_with_spaced_hotkeys)
  = Some [(s "<ctrl>+s", TriggerStop)] /\
  start_hotkey (settings (on_apply_hotkeys accept_all
                            window_with_spaced_hotkeys)) = s "ctrl+s" /\
  stop_hotkey (settings (on_apply_hotkeys accept_all
                           window_with_spaced_hotkeys)) = s "ctrl + s" /\
  AutoTyper.result (AutoTyper.ok_clicked AutoTyperSpec.dialog_spaced)
  = Some (s "<ctrl>+<s>", s "<ctrl >+< s>") /\
  AutoTyper.errors (AutoTyper.ok_clicked AutoTyperSpec.dialog_spaced) = [].
Proof. vm_compute. repeat split; reflexivity. Qed.

(** Claim C9 on auto_typer.py.  [format_hotkey_for_display] capitalizes the
    string as a whole, so the default start hotkey is displayed as
    "Ctrl+shift+s", where [pretty_hotkey_display] of typer.py gives
    "Ctrl+Shift+S". *)
Theorem C9_auto_typer_display_capitalizes_first_token_only :
  AutoTyper.format_hotkey_for_display (s "<ctrl>+<shift>+s")
  = s "Ctrl+shift+s" /\
  pretty_hotkey_display (s "ctrl+shift+s") = s "Ctrl+Shift+S".
Proof. split; reflexivity. Qed.

(** Claim C10.  The constructor of the worker stores [max(0.0, speed)] and
    [max(0.0, start_delay)]: both are non-negative, equal to the given value
    when that is non-negative, and a run with a negative (or zero) speed or
    delay is the run with speed or delay 0. *)
Theorem C10_negative_speed_and_delay_count_as_zero :
  forall txt sp lang d any env fuel,
    speed (init txt sp lang d any) = max 0 sp /\
    start_delay (init txt sp lang d any) = max 0 d /\
    (0 <= speed (init txt sp lang d any))%Q /\
    (0 <= start_delay (init txt sp lang d any))%Q /\
    ((0 <= sp)%Q -> (speed (init txt sp lang d any) == sp)%Q) /\
    ((0 <= d)%Q -> (start_delay (init txt sp lang d any) == d)%Q) /\
    ((sp <= 0)%Q ->
     run env fuel (init txt sp lang d any)
     = run env fuel (init txt 0 lang d any)) /\
    ((d <= 0)%Q ->
     run env fuel (init txt sp lang d any)
     = run env fuel (init txt sp lang 0 any)).
Proof.
  intros txt sp lang d any env fuel. cbn [speed start_delay init].
  split; [reflexivity|]. split; [reflexivity|].
  assert (Hmax : forall v, (0 <= max 0 v)%Q /\
                           ((0 <= v)%Q -> (max 0 v == v)%Q) /\
                           ((v <= 0)%Q -> max 0 v = 0%Q)).
  { intro v. destruct (max_cases 0 v) as [[-> L]|[-> L]].
    - repeat split; try lra.
    - repeat split; try lra. }
  destruct (Hmax sp) as (S1 & S2 & S3), (Hmax d) as (D1 & D2 & D3).
  repeat split; auto.
  - intro H. unfold init. rewrite (S3 H).
    change (max 0 0) with 0%Q. reflexivity.
  - intro H. unfold init. rewrite (D3 H).
    change (max 0 0) with 0%Q. reflexivity.
Qed.

(** Claim C10 at a concrete input: speed -0.5 and start delay -3. *)
Lemma C10_negative_speed_and_delay_count_as_zero_witness :
  run undisturbed 1 (init (s "ab") (-(1 # 2)) (s "text") (-3) true)
  = run undisturbed 1 (init (s "ab") 0 (s "text") 0 true).
Proof.
  destruct (C10_negative_speed_and_delay_count_as_zero
              (s "ab") (-(1 # 2))%Q (s "text") (-3)%Q true undisturbed 1)
    as (_ & _ & _ & _ & _ & _ & Hs & Hd).
  rewrite Hs by (vm_compute; discriminate).
  destruct (C10_negative_speed_and_delay_count_as_zero
              (s "ab") 0%Q (s "text") (-3)%Q true undisturbed 1)
    as (_ & _ & _ & _ & _ & _ & _ & Hd0).
  apply Hd0. vm_compute. discriminate.
Defined.

(* ================================================================== *)
(** ** Further properties of typer.py *)
(* ================================================================== *)

Lemma calm_app h1 h2 : calm h1 -> calm h2 -> calm (h1 ++ h2).
Proof.
  induction 1; intro H2; cbn [app]; auto;
    [apply calm_read|apply calm_nap|apply calm_key|apply calm_progress]; auto.
Qed.

Section Outcome.
Variable env : Env.

Lemma outcome_bind K1 K2 h f k :
  outcome_ok env K1 h f ->
  (forall h1, outcome_ok env K2 h1 (k h1)) ->
  outcome_ok env (K1 ++ K2) h (f ;; k).
Proof.
  intros Hf Hk. destruct f as [h1|sig h1|e h1|]; cbn [and_then outcome_ok] in *.
  - destruct Hf as (e1 & -> & C1 & K1e). specialize (Hk (h ++ e1)).
    destruct (k (h ++ e1)) as [h2|sig h2|e h2|]; cbn [outcome_ok] in *.
    + destruct Hk as (e2 & -> & C2 & K2e). exists (e1 ++ e2).
      rewrite app_assoc. split; [reflexivity|]. split; [apply calm_app; auto|].
      rewrite keys_app. congruence.
    + destruct Hk as (e2 & rest & -> & C2 & K2e & Hs).
      exists (e1 ++ e2), rest. split; [rewrite <- !app_assoc; reflexivity|].
      split; [apply calm_app; auto|]. split; [|exact Hs].
      rewrite keys_app, <- app_assoc. congruence.
    + destruct Hk as (e2 & k0 & rest & -> & C2 & K2e & Hfault).
      exists (e1 ++ e2), k0, rest.
      split; [rewrite app_assoc; reflexivity|].
      split; [apply calm_app; auto|]. split.
      * rewrite keys_app, <- app_assoc. congruence.
      * exact Hfault.
    + exact I.
  - destruct Hf as (e1 & rest & -> & C1 & -> & Hs).
    exists e1, (rest ++ K2). rewrite <- app_assoc. auto.
  - destruct Hf as (e1 & k0 & rest & -> & C1 & -> & Hfault).
    exists e1, k0, (rest ++ K2). rewrite <- app_assoc. cbn [app]. auto.
  - exact I.
Qed.

Lemma check_stop_ok msg h :
  msg = stopped_before \/ msg = stopped_during ->
  outcome_ok env [] h (check_stop env msg h).
Proof.
  intro Hm. unfold check_stop. destruct (stop_is_set env h); cbn [outcome_ok].
  - exists [], []. split; [reflexivity|]. split; [constructor|].
    split; [reflexivity|]. destruct Hm as [-> | ->]; auto.
  - exists [IsSet false]. repeat split; repeat constructor.
Qed.

Lemma emit_key_ok k h : outcome_ok env [k] h (emit_key env k h).
Proof.
  unfold emit_key. destruct (key_fault env h k) eqn:E; cbn [outcome_ok].
  - exists [], k, []. rewrite app_nil_r. repeat split; auto; constructor.
  - exists [Key k]. repeat split; repeat constructor.
Qed.

(** One round of a pause loop followed by the rest of the loop. *)
Lemma nap_ok msg d h k :
  msg = stopped_before \/ msg = stopped_during ->
  (0 < d <= wait_step)%Q ->
  (forall h1, outcome_ok env [] h1 (k h1)) ->
  outcome_ok env [] h
    (check_stop env msg h ;; fun h => sleep d h ;; fun h => k h).
Proof.
  intros Hm Hd Hk. unfold check_stop.
  destruct (stop_is_set env h); cbn [and_then sleep outcome_ok].
  - exists [], []. split; [reflexivity|]. split; [constructor|].
    split; [reflexivity|]. destruct Hm as [-> | ->]; auto.
  - specialize (Hk ((h ++ [IsSet false]) ++ [Sleep d])).
    destruct (k _) as [h2|sig h2|e h2|]; cbn [outcome_ok] in *.
    + destruct Hk as (e2 & -> & C2 & K2).
      exists (IsSet false :: Sleep d :: e2).
      split; [rewrite <- !app_assoc; reflexivity|].
      split; [apply calm_nap; auto|exact K2].
    + destruct Hk as (e2 & rest & -> & C2 & K2 & Hs).
      exists (IsSet false :: Sleep d :: e2), rest.
      split; [rewrite <- !app_assoc; reflexivity|].
      split; [apply calm_nap; auto|]. split; auto.
    + destruct Hk as (e2 & k0 & rest & -> & C2 & K2 & Hfault).
      exists (IsSet false :: Sleep d :: e2), k0, rest.
      split; [rewrite <- !app_assoc; reflexivity|].
      split; [apply calm_nap; auto|]. split; auto.
    + exact I.
Qed.

Lemma countdown_ok fuel : forall delay waited h,
  outcome_ok env [] h (countdown env fuel delay waited h).
Proof.
  induction fuel as [|fuel IH]; intros delay waited h; cbn [countdown];
    destruct (lt waited delay); cbn [outcome_ok]; auto;
    try (exists []; rewrite app_nil_r; repeat split; constructor).
  apply nap_ok; [auto| |intro h1; apply IH].
  unfold wait_step. split; [reflexivity|apply Qle_refl].
Qed.

Lemma newline_pause_ok fuel : forall limit slept h,
  outcome_ok env [] h (newline_pause env fuel limit slept h).
Proof.
  induction fuel as [|fuel IH]; intros limit slept h; cbn [newline_pause];
    destruct (lt slept limit); cbn [outcome_ok]; auto;
    try (exists []; rewrite app_nil_r; repeat split; constructor).
  apply nap_ok; [auto| |intro h1; apply IH].
  unfold wait_step, sleep_step. split; [reflexivity|discriminate].
Qed.

Lemma keystroke_pause_ok fuel : forall speed slept h,
  outcome_ok env [] h (keystroke_pause env fuel speed slept h).
Proof.
  induction fuel as [|fuel IH]; intros speed slept h; cbn [keystroke_pause];
    destruct (lt slept speed) eqn:E; cbn [outcome_ok]; auto;
    try (exists []; rewrite app_nil_r; repeat split; constructor).
  apply nap_ok; [auto| |intro h1; apply IH].
  apply lt_true in E. unfold wait_step, sleep_step.
  destruct (min_cases (1 # 100) (speed - slept)) as [[-> L]|[-> L]];
    split; lra.
Qed.

Lemma type_line_ok fuel speed : forall line h,
  outcome_ok env (map key_of line) h (type_line env fuel speed line h).
Proof.
  induction line as [|ch rest IH]; intro h; cbn [type_line map].
  - exists []. rewrite app_nil_r. repeat split; constructor.
  - change (key_of ch :: map key_of rest)
      with ([] ++ [key_of ch] ++ [] ++ map key_of rest).
    apply outcome_bind; [apply check_stop_ok; auto|]. intro h1.
    apply outcome_bind; [apply emit_key_ok|]. intro h2.
    apply outcome_bind; [apply keystroke_pause_ok|]. intro h3. apply IH.
Qed.

Lemma type_lines_ok fuel speed n : forall lines li h,
  li + List.length lines = n ->
  outcome_ok env (text_keys lines) h
    (type_lines env fuel speed n li lines h).
Proof.
  induction lines as [|line rest IH]; intros li h Hlen; cbn [type_lines].
  - exists []. rewrite app_nil_r. repeat split; constructor.
  - cbn [List.length] in Hlen.
    assert (HK : text_keys (line :: rest)
                 = [] ++ map key_of line
                   ++ (if li <? n - 1 then [Press "enter"] else [])
                   ++ text_keys rest).
    { destruct rest as [|l2 r2].
      - assert (E : (li <? n - 1) = false)
          by (apply Nat.ltb_ge; cbn in Hlen; lia).
        rewrite E. cbn. rewrite app_nil_r. reflexivity.
      - assert (E : (li <? n - 1) = true)
          by (apply Nat.ltb_lt; cbn in Hlen; lia).
        rewrite E. reflexivity. }
    rewrite HK.
    apply outcome_bind; [apply check_stop_ok; auto|]. intro h1.
    apply outcome_bind; [apply type_line_ok|]. intro h2.
    apply outcome_bind.
    + destruct (li <? n - 1).
      * change [Press "enter"] with ([Press "enter"] ++ []).
        apply outcome_bind; [apply emit_key_ok|]. intro h3.
        apply newline_pause_ok.
      * exists []. rewrite app_nil_r. repeat split; constructor.
    + intro h3. apply IH. lia.
Qed.

Lemma focus_report_ok w h : outcome_ok env [] h (focus_report env w h).
Proof.
  rewrite focus_report_events. exists (focus_events env w).
  split; [reflexivity|]. unfold focus_events.
  destruct (negb (type_any_window w) && win32_available env);
    [destruct (foreground env)|]; repeat split; repeat constructor.
Qed.

(** The whole body of [run], before the final signal. *)
Lemma run_flow_ok fuel w :
  outcome_ok env
    (map key_of_char (preformat (language w) (text w))) []
    (progress (Starting (start_delay w)) [] ;; fun h =>
     countdown env fuel (start_delay w) 0 h ;; fun h =>
     focus_report env w h ;; fun h =>
     type_lines env fuel (speed w)
       (List.length (split LF (preformat (language w) (text w)))) 0
       (split LF (preformat (language w) (text w))) h).
Proof.
  rewrite <- text_keys_split.
  change (text_keys (split LF (preformat (language w) (text w))))
    with ([] ++ [] ++ [] ++
          text_keys (split LF (preformat (language w) (text w)))).
  apply outcome_bind.
  { exists [Progress (Starting (start_delay w))].
    repeat split; repeat constructor. }
  intro h1. apply outcome_bind; [apply countdown_ok|]. intro h2.
  apply outcome_bind; [apply focus_report_ok|]. intro h3.
  apply type_lines_ok. reflexivity.
Qed.

End Outcome.

Lemma run_outcome env fuel w sig h :
  run env fuel w = Some (sig, h) ->
  (sig = finished completed /\ calm h /\
   keys h = map key_of_char (typed_text w)) \/
  (exists ext rest,
     (sig = finished stopped_before \/ sig = finished stopped_during) /\
     h = ext ++ [IsSet true] /\ calm ext /\
     map key_of_char (typed_text w) = keys ext ++ rest) \/
  (exists e k rest,
     sig = error ("Typing error: " ++ e) /\ calm h /\
     map key_of_char (typed_text w) = keys h ++ k :: rest /\
     key_fault env h k = Some e).
Proof.
  unfold run, typed_text. intro H.
  pose proof (run_flow_ok env fuel w) as Hok.
  destruct (progress (Starting (start_delay w)) [] ;; _) as [h1|s1 h1|e h1|];
    cbn [outcome_ok app] in Hok; [| | |discriminate]; injection H as <- <-.
  - left. destruct Hok as (ext & -> & C & K). auto.
  - right. left. destruct Hok as (ext & rest & -> & C & K & Hs).
    exists ext, rest. auto.
  - right. right. destruct Hok as (ext & k & rest & -> & C & K & Hf).
    exists e, k, rest. auto.
Qed.



Lemma keys_snoc_read h b : keys (h ++ [IsSet b]) = keys h.
Proof. rewrite keys_app. cbn. apply app_nil_r. Qed.

(** Property X1.  Whatever the environment does (the user stops the run at
    any moment, pyautogui raises on any key), the keys a run of the worker
    of typer.py has emitted when it ends are a prefix of the keys of the
    pre-formatted text: nothing is skipped, repeated or reordered.  The
    prefix is the whole text when the run completes, and a proper prefix
    when it ends with the error signal. *)
Theorem run_emits_a_prefix_of_the_text env fuel w sig h :
  run env fuel w = Some (sig, h) ->
  exists rest,
    map key_of_char (typed_text w) = keys h ++ rest /\
    (sig = finished completed -> rest = []) /\
    (forall msg, sig = error msg -> rest <> []).
Proof.
  intro H. apply run_outcome in H.
  destruct H as [(-> & C & K)|[(ext & rest & Hs & -> & C & K)
                              |(e & k & rest & -> & C & K & Hf)]].
  - exists []. rewrite app_nil_r. repeat split; auto. discriminate.
  - exists rest. rewrite keys_snoc_read. split; [exact K|].
    split; [|intros msg ->; destruct Hs; discriminate].
    intros ->. destruct Hs; discriminate.
  - exists (k :: rest). split; [exact K|]. split; discriminate.
Qed.

Lemma run_emits_a_prefix_of_the_text_witness :
  exists rest,
    map key_of_char (s "abcd") = [Write "a"; Write "b"] ++ rest /\ rest <> [].
Proof.
  destruct (run_emits_a_prefix_of_the_text third_key_refused 0
              (init (s "abcd") 0 (s "text") 0 true)
              (error "Typing error: denied")
              [Progress (Starting 0); IsSet false; IsSet false;
               Key (Write "a"); IsSet false; Key (Write "b"); IsSet false])
    as (rest & K & _ & Hr).
  - vm_compute. reflexivity.
  - exists rest. split; [exact K|]. apply (Hr _ eq_refl).
Defined.

(** Property X2.  A run of the worker of typer.py ends with the error
    signal only when pyautogui raised on a key: the message is
    "Typing error: " followed by the exception, the key is the one that
    comes next in the text after the keys emitted, and it has not been
    emitted.  When no pyautogui call raises, the run ends with
    [finished]. *)
Theorem run_reports_the_fault_of_the_next_key env fuel w sig h :
  run env fuel w = Some (sig, h) ->
  (forall msg, sig = error msg ->
     exists e k rest,
       msg = ("Typing error: " ++ e)%string /\
       key_fault env h k = Some e /\
       map key_of_char (typed_text w) = keys h ++ k :: rest) /\
  ((forall h' k, key_fault env h' k = None) -> exists msg, sig = finished msg).
Proof.
  intro H. apply run_outcome in H.
  destruct H as [(-> & C & K)|[(ext & rest & Hs & -> & C & K)
                              |(e & k & rest & -> & C & K & Hf)]].
  - split; [discriminate|]. eauto.
  - split; [intros msg ->; destruct Hs; discriminate|].
    intros _. destruct Hs as [-> | ->]; eauto.
  - split.
    + intros msg E. injection E as <-. exists e, k, rest. auto.
    + intro Hn. rewrite Hn in Hf. discriminate.
Qed.

Lemma run_reports_the_fault_of_the_next_key_witness :
  exists e k rest,
    "Typing error: denied"%string = ("Typing error: " ++ e)%string /\
    k :: rest = [Write "c"; Write "d"].
Proof.
  destruct (run_reports_the_fault_of_the_next_key third_key_refused 0
              (init (s "abcd") 0 (s "text") 0 true)
              (error "Typing error: denied")
              [Progress (Starting 0); IsSet false; IsSet false;
               Key (Write "a"); IsSet false; Key (Write "b"); IsSet false])
    as (He & _).
  - vm_compute. reflexivity.
  - destruct (He _ eq_refl) as (e & k & rest & Hm & _ & K).
    exists e, k, rest. split; [exact Hm|].
    vm_compute in K. injection K as <- <-. reflexivity.
Defined.




Lemma split_after_prefix {A} (a : A) : forall p l1 l2 X,
  ~ In a p -> l1 ++ a :: l2 = p ++ X ->
  exists x1, l1 = p ++ x1 /\ X = x1 ++ a :: l2.
Proof.
  induction p as [|b p IH]; intros l1 l2 X Hn E; cbn [app] in *.
  - exists l1. auto.
  - destruct l1 as [|c l1]; cbn [app] in E.
    + injection E as -> _. exfalso. apply Hn. left. reflexivity.
    + injection E as -> E. destruct (IH l1 l2 X) as (x1 & -> & ->); auto.
      * intro Hi. apply Hn. right. exact Hi.
      * exists x1. auto.
Qed.

(** Property X4.  In every run of the worker of typer.py that ends,
    whatever the environment, the start-delay loop has run to its end
    before the first key is emitted: the history up to any key begins with
    the [n] rounds of the loop, each a read of the stop flag that found it
    clear and a sleep of 50 ms, where [n] is the number of rounds the loop
    makes, that is, the first number of steps whose float sum [waited] is
    not below the start delay. *)
Theorem run_types_nothing_before_the_delay env fuel w sig h :
  Typer64.run env fuel w = Some (sig, h) ->
  forall h1 k h2,
    h = h1 ++ Key k :: h2 ->
    exists n x,
      h1 = Typer64Spec.at_round w n ++ x /\
      Typer64Spec.rounds (Typer64.start_delay w) n = true.
Proof.
  unfold Typer64.run. cbn [progress and_then app]. intros H h1 k h2 E.
  change Float64.zero with (Typer64Spec.waited 0) in H.
  pose proof (Typer64Facts.countdown_ends64 env (Typer64.start_delay w) fuel
                0 [Progress (Starting (Float64.to_Q (Typer64.start_delay w)))])
    as Hc.
  destruct (Typer64.countdown env fuel (Typer64.start_delay w)
              (Typer64Spec.waited 0) _) as [hc|s1 hc|e hc|];
    cbn [and_then] in H.
  - destruct Hc as (n & -> & Hcnt & Hend).
    assert (Hg : Typer64Spec.grows
              ([Progress (Starting (Float64.to_Q (Typer64.start_delay w)))]
                 ++ Typer64Spec.ticks n)
              (Typer64.focus_report env w
                 ([Progress (Starting (Float64.to_Q (Typer64.start_delay w)))]
                    ++ Typer64Spec.ticks n) ;; fun h0 =>
               Typer64.type_lines env fuel (Typer64.speed w)
                 (List.length
                    (split LF (preformat (Typer64.language w)
                                 (Typer64.text w)))) 0
                 (split LF (preformat (Typer64.language w) (Typer64.text w)))
                 h0)).
    { apply Typer64Facts.grows_bind.
      - rewrite Typer64Facts.focus_report_events64. cbn. eauto.
      - intro h0. apply Typer64Facts.type_lines_grows. }
    assert (HX : exists X,
              h = ([Progress (Starting (Float64.to_Q (Typer64.start_delay w)))]
                     ++ Typer64Spec.ticks n) ++ X).
    { destruct (Typer64.focus_report env w _ ;; _) as [h'|s' h'|e' h'|];
        cbn [Typer64Spec.grows] in Hg; [| | |discriminate];
        injection H as _ <-; exact Hg. }
    destruct HX as (X & ->). symmetry in E.
    apply split_after_prefix in E.
    + destruct E as (x1 & -> & _). exists n, x1. split; [reflexivity|].
      apply Typer64Facts.rounds_spec. split; [exact Hcnt|exact Hend].
    + intro Hi. cbn [app] in Hi. destruct Hi as [Hi|Hi]; [discriminate|].
      exact (Typer64Facts.key_not_in_ticks64 k n Hi).
  - exfalso. injection H as _ <-. destruct Hc as (m & ->).
    assert (Hin : In (Key k)
              ([Progress (Starting (Float64.to_Q (Typer64.start_delay w)))]
                 ++ Typer64Spec.ticks m ++ [IsSet true])).
    { rewrite E. apply in_or_app. right. left. reflexivity. }
    cbn [app] in Hin. destruct Hin as [Hin|Hin]; [discriminate|].
    apply in_app_or in Hin. destruct Hin as [Hin|[Hin|[]]];
      [|discriminate]. exact (Typer64Facts.key_not_in_ticks64 k m Hin).
  - destruct Hc.
  - discriminate.
Qed.

(** Property X4 at a concrete input: with a start delay of 1.1 s the loop
    makes 22 rounds before the key; the numbers that the 22 sleeps are add
    up to a little less than the number that the delay is. *)
Lemma run_types_nothing_before_the_delay_witness :
  (exists n x,
     Typer64Spec.at_round
       (Typer64.init (s "a") Float64.zero (s "text") (Float64.lit 11 10) true)
       22 ++ [IsSet false; IsSet false]
     = Typer64Spec.at_round
         (Typer64.init (s "a") Float64.zero (s "text") (Float64.lit 11 10)
            true) n ++ x /\
     Typer64Spec.rounds (Float64.lit 11 10) n = true) /\
  Typer64Spec.rounds (Float64.lit 11 10) 22 = true /\
  (elapsed (Typer64Spec.ticks 22) < Float64.to_Q (Float64.lit 11 10))%Q.
Proof.
  split; [|split; vm_compute; reflexivity].
  apply (run_types_nothing_before_the_delay undisturbed 22
           (Typer64.init (s "a") Float64.zero (s "text") (Float64.lit 11 10)
              true)
           (finished completed)
           (Typer64Spec.at_round
              (Typer64.init (s "a") Float64.zero (s "text")
                 (Float64.lit 11 10) true) 22
              ++ [IsSet false; IsSet false; Key (Write "a")]))
    with (k := Write "a") (h2 := []).
  - vm_compute. reflexivity.
  - rewrite <- app_assoc. reflexivity.
Defined.

Lemma isspace_lower c : isspace (lower_char c) = isspace c.
Proof. each_char c. Qed.

Lemma lstrip_lower x : lstrip (lower x) = lower (lstrip x).
Proof.
  induction x as [|c t IH]; [reflexivity|].
  cbn [lower map lstrip]. rewrite isspace_lower.
  destruct (isspace c); [exact IH|reflexivity].
Qed.

Lemma rstrip_lower x : rstrip (lower x) = lower (rstrip x).
Proof.
  induction x as [|c t IH]; [reflexivity|].
  cbn [lower map rstrip]. fold (lower t). rewrite IH, isspace_lower.
  destruct (rstrip t) as [|r rs]; cbn [lower map].
  - destruct (isspace c); reflexivity.
  - reflexivity.
Qed.

Lemma strip_lower x : strip (lower x) = lower (strip x).
Proof. unfold strip. rewrite rstrip_lower, lstrip_lower. reflexivity. Qed.

Lemma nonempty_lower x : nonempty (lower x) = nonempty x.
Proof. destruct x; reflexivity. Qed.

Lemma hotkey_parts_lower x : hotkey_parts (lower x) = hotkey_parts x.
Proof.
  unfold hotkey_parts.
  change (split PLUS (lower x)) with (split PLUS (map lower_char x)).
  rewrite (split_map PLUS lower_char x lower_char_plus).
  induction (split PLUS x) as [|p ps IH]; [reflexivity|].
  cbn [map filter]. fold (lower p).
  rewrite strip_lower, nonempty_lower.
  destruct (nonempty (strip p)); [|exact IH].
  cbn [map]. f_equal; [|exact IH].
  rewrite strip_lower. apply lower_idem.
Qed.

(** Property X5.  [to_pynput_hotkey] does not depend on the case of its
    input: two hotkey texts that are equal once lower-cased have the same
    result, be it a pynput hotkey or the error. *)
Theorem to_pynput_hotkey_ignores_case x y :
  lower x = lower y -> to_pynput_hotkey x = to_pynput_hotkey y.
Proof.
  intro E. unfold to_pynput_hotkey.
  rewrite <- (hotkey_parts_lower x), <- (hotkey_parts_lower y), E.
  reflexivity.
Qed.

Lemma to_pynput_hotkey_ignores_case_witness :
  to_pynput_hotkey (s "CTRL+Shift+S") = to_pynput_hotkey (s "ctrl+shift+s").
Proof.
  apply to_pynput_hotkey_ignores_case. reflexivity.
Defined.

Lemma lstrip_clean sep x : ~ In sep x -> ~ In sep (lstrip x).
Proof.
  induction x as [|c t IH]; [auto|]. cbn [lstrip].
  destruct (isspace c); [|auto].
  intros Hn Hi. apply IH in Hi; auto. intro H. apply Hn. right. exact H.
Qed.

Lemma lower_clean x : ~ In PLUS x -> ~ In PLUS (lower x).
Proof.
  intros Hn Hi. unfold lower in Hi. apply in_map_iff in Hi.
  destruct Hi as (d & Hd & Hi). apply Hn.
  assert (E : Ascii.eqb (lower_char d) PLUS = true)
    by (apply Ascii.eqb_eq; exact Hd).
  rewrite lower_char_plus in E. apply Ascii.eqb_eq in E. subst d. exact Hi.
Qed.

Lemma hotkey_parts_clean x : Forall (fun p => ~ In PLUS p) (hotkey_parts x).
Proof.
  unfold hotkey_parts. pose proof (split_tokens_clean PLUS x) as Hc.
  induction Hc as [|p ps Hp _ IH]; cbn [filter map]; [constructor|].
  destruct (nonempty (strip p)); [|exact IH].
  cbn [map]. constructor; [|exact IH].
  apply lower_clean. unfold strip. apply lstrip_clean, rstrip_clean. exact Hp.
Qed.

Lemma convert_modifier_clean p :
  ~ In PLUS p -> ~ In PLUS (convert_modifier p).
Proof.
  intro Hn. unfold convert_modifier.
  destruct (str_eqb p (s "ctrl") || str_eqb p (s "control")).
  { vm_compute. intuition discriminate. }
  destruct (str_eqb p (s "alt")). { vm_compute. intuition discriminate. }
  destruct (str_eqb p (s "shift")). { vm_compute. intuition discriminate. }
  intro Hi. cbn [app In] in Hi. destruct Hi as [Hi|Hi]; [discriminate|].
  apply in_app_or in Hi. destruct Hi as [Hi|[Hi|[]]]; [auto|discriminate].
Qed.

Lemma Forall_removelast {A} (P : A -> Prop) l :
  Forall P l -> Forall P (removelast l).
Proof.
  induction 1 as [|a l Ha Hl IH]; cbn [removelast]; [constructor|].
  destruct l; [constructor|]. constructor; auto.
Qed.

Lemma Forall_last {A} (P : A -> Prop) l d :
  Forall P l -> l <> [] -> P (last l d).
Proof.
  induction 1 as [|a l Ha Hl IH]; intro Hn; [congruence|].
  cbn [last]. destruct l; [exact Ha|]. apply IH. discriminate.
Qed.

(** Property X6.  When [to_pynput_hotkey] returns, its result splits at
    '+' into the converted modifiers, in order, followed by the key: one
    token for each token of the input that is not blank.  Blank tokens of
    the input (as in "ctrl++s") leave no trace, and no token of the result
    contains a '+'. *)
Theorem to_pynput_hotkey_tokens x r :
  to_pynput_hotkey x = Ok r ->
  hotkey_parts x <> [] /\
  split PLUS r
  = map convert_modifier (removelast (hotkey_parts x))
      ++ [last (hotkey_parts x) []] /\
  List.length (split PLUS r)
  = List.length (filter (fun p => nonempty (strip p)) (split PLUS x)).
Proof.
  unfold to_pynput_hotkey. intro H.
  pose proof (hotkey_parts_clean x) as Hc.
  assert (Hlen : List.length (hotkey_parts x)
                 = List.length (filter (fun p => nonempty (strip p))
                                  (split PLUS x)))
    by (unfold hotkey_parts; apply length_map).
  rewrite <- Hlen. clear Hlen.
  destruct (hotkey_parts x) as [|p [|q ps]] eqn:E; [discriminate| |].
  - injection H as <-. split; [discriminate|].
    inversion Hc; subst. cbn [removelast map app last].
    rewrite split_clean by assumption. split; reflexivity.
  - assert (Hr : r = join [PLUS]
                        (map convert_modifier (removelast (p :: q :: ps))
                           ++ [last (p :: q :: ps) []]))
      by (injection H as <-; reflexivity).
    clear H. split; [discriminate|].
    remember (p :: q :: ps) as parts. rewrite Hr. clear Hr.
    assert (Hs : split PLUS
                   (join [PLUS] (map convert_modifier (removelast parts)
                                   ++ [last parts []]))
                 = map convert_modifier (removelast parts)
                     ++ [last parts []]).
    { apply split_join.
      - destruct (map convert_modifier (removelast parts)); discriminate.
      - apply Forall_app. split.
        + apply Forall_removelast in Hc.
          apply Forall_forall. intros y Hy. apply in_map_iff in Hy.
          destruct Hy as (z & <- & Hz). apply convert_modifier_clean.
          rewrite Forall_forall in Hc. apply Hc. exact Hz.
        + constructor; [|constructor]. apply Forall_last; [exact Hc|].
          subst parts. discriminate. }
    rewrite Hs. split; [reflexivity|].
    rewrite length_app, length_map. cbn [List.length].
    subst parts. clear. 
    assert (forall (l : list str) a, List.length (removelast (a :: l)) = List.length l).
    { induction l as [|b l IH]; intro a; [reflexivity|].
      change (removelast (a :: b :: l)) with (a :: removelast (b :: l)).
      cbn [List.length]. rewrite IH. reflexivity. }
    rewrite H. cbn [List.length]. lia.
Qed.

Lemma to_pynput_hotkey_tokens_witness :
  split PLUS (s "<ctrl>+<win>+s")
  = map convert_modifier (removelast (hotkey_parts (s " Control ++ WIN + s ")))
      ++ [last (hotkey_parts (s " Control ++ WIN + s ")) []].
Proof.
  apply (to_pynput_hotkey_tokens (s " Control ++ WIN + s ")
           (s "<ctrl>+<win>+s")).
  reflexivity.
Defined.

(** Property X7.  After [start_hotkey_listener] of typer.py a listener is
    live exactly when the hotkeys are enabled, both hotkeys of the settings
    parse, and the operating system took the registration; the listener
    then has the mapping of the two parsed hotkeys.  In every other case
    no listener is live: the one that was live before the call never
    survives it. *)
Theorem start_hotkey_listener_registers_or_clears os w m :
  hotkey_listener (start_hotkey_listener os w) = Some m <->
  hotkeys_enabled (settings w) = true /\
  exists a b,
    to_pynput_hotkey (start_hotkey (settings w)) = Ok a /\
    to_pynput_hotkey (stop_hotkey (settings w)) = Ok b /\
    m = hotkey_mapping a b /\ os m = None.
Proof.
  unfold start_hotkey_listener, stop_hotkey_listener.
  cbn [settings set_listener].
  destruct (hotkeys_enabled (settings w)); cbn [negb].
  2:{ cbn. split; [discriminate|intros [H _]; discriminate]. }
  destruct (to_pynput_hotkey (start_hotkey (settings w))) as [a|e1];
    destruct (to_pynput_hotkey (stop_hotkey (settings w))) as [b|e2];
    try (cbn; split; [discriminate|intros (_ & a' & b' & H1 & H2 & _);
                                    discriminate]).
  destruct (os (hotkey_mapping a b)) eqn:Eos; cbn.
  - split; [discriminate|].
    intros (_ & a' & b' & H1 & H2 & -> & Hos).
    injection H1 as <-. injection H2 as <-. congruence.
  - split.
    + intro H. injection H as <-. split; [reflexivity|].
      exists a, b. auto.
    + intros (_ & a' & b' & H1 & H2 & -> & _).
      injection H1 as <-. injection H2 as <-. reflexivity.
Qed.

(** Property X8.  Switching the global hotkeys off with [on_hotkey_toggle]
    stops the listener and keeps the two hotkeys of the settings; and
    switching them off and on again leaves the window in the state that
    switching them on leaves it in. *)
Theorem hotkey_toggle_off_and_on os w :
  on_hotkey_toggle os true (on_hotkey_toggle os false w)
  = on_hotkey_toggle os true w /\
  hotkey_listener (on_hotkey_toggle os false w) = None /\
  start_hotkey (settings (on_hotkey_toggle os false w))
  = start_hotkey (settings w) /\
  stop_hotkey (settings (on_hotkey_toggle os false w))
  = stop_hotkey (settings w).
Proof.
  repeat split.
Qed.

(** Property X9.  When the operating system refuses the registration,
    [on_hotkey_toggle] with the box checked leaves no live listener, and
    yet the status line reads "Global hotkeys enabled.": the message of
    [start_hotkey_listener] about the failure is overwritten. *)
Theorem hotkey_toggle_hides_a_refused_registration os w :
  (forall m, os m <> None) ->
  hotkey_listener (on_hotkey_toggle os true w) = None /\
  status (on_hotkey_toggle os true w) = "Global hotkeys enabled."%string.
Proof.
  intro Hos. split; [|reflexivity].
  unfold on_hotkey_toggle, start_hotkey_listener, stop_hotkey_listener.
  cbn [hotkey_listener set_status settings set_settings set_listener
       hotkeys_enabled start_hotkey stop_hotkey negb].
  destruct (to_pynput_hotkey (start_hotkey (settings w))) as [a|e1];
    destruct (to_pynput_hotkey (stop_hotkey (settings w))) as [b|e2];
    try reflexivity.
  destruct (os (hotkey_mapping a b)) as [e|] eqn:Eos; [reflexivity|].
  exfalso. exact (Hos _ Eos).
Qed.

Lemma hotkey_toggle_hides_a_refused_registration_witness :
  hotkey_listener (on_hotkey_toggle refuse_all true window_with_equal_hotkeys)
  = None /\
  status (on_hotkey_toggle refuse_all true window_with_equal_hotkeys)
  = "Global hotkeys enabled."%string.
Proof.
  apply hotkey_toggle_hides_a_refused_registration.
  intros m. discriminate.
Defined.

(** Property X10.  [on_apply_hotkeys] compares the two entries as texts.
    When they differ as texts and denote the same pynput hotkey (such as
    "Ctrl+S" and "control+s"), they are accepted without an error dialog,
    and the listener registered has one hotkey only, bound to the stop
    action: no hotkey starts the typing. *)
Theorem aliased_hotkeys_register_the_stop_action_only os w p :
  nonempty (lower (strip (start_hotkey_input w))) = true ->
  nonempty (lower (strip (stop_hotkey_input w))) = true ->
  lower (strip (start_hotkey_input w)) <> lower (strip (stop_hotkey_input w)) ->
  hotkey_enable_cb w = true ->
  to_pynput_hotkey (strip (start_hotkey_input w)) = Ok p ->
  to_pynput_hotkey (strip (stop_hotkey_input w)) = Ok p ->
  os [(p, TriggerStop)] = None ->
  hotkey_listener (on_apply_hotkeys os w) = Some [(p, TriggerStop)] /\
  dialogs (on_apply_hotkeys os w) = dialogs w.
Proof.
  intros Ha Hb Hne Hcb Hs Ht Hos. unfold on_apply_hotkeys.
  rewrite Ha, Hb. cbn [negb orb].
  assert (E : str_eqb (lower (strip (start_hotkey_input w)))
                      (lower (strip (stop_hotkey_input w))) = false).
  { unfold str_eqb. destruct (list_eq_dec ascii_dec _ _); congruence. }
  rewrite E.
  unfold restart_hotkey_listener, start_hotkey_listener, stop_hotkey_listener,
    save_settings.
  cbn [settings set_settings set_listener hotkeys_enabled start_hotkey
       stop_hotkey hotkey_enable_cb start_hotkey_input stop_hotkey_input
       set_status hotkey_listener dialogs].
  rewrite Hcb. cbn [negb]. rewrite Hs, Ht.
  unfold hotkey_mapping. rewrite str_eqb_refl, Hos.
  split; reflexivity.
Qed.

Lemma aliased_hotkeys_register_the_stop_action_only_witness :
  hotkey_listener (on_apply_hotkeys accept_all window_with_aliased_hotkeys)
  = Some [(s "<ctrl>+s", TriggerStop)].
Proof.
  apply (aliased_hotkeys_register_the_stop_action_only accept_all
           window_with_aliased_hotkeys (s "<ctrl>+s"));
    try reflexivity.
  vm_compute. discriminate.
Defined.

(** Property X11.  Along every sequence of clicks on Start and Stop and of
    worker signals, in which a worker signals its end only while
    [is_typing] holds, the window of typer.py has started one worker more
    than have ended when [is_typing] holds, and as many otherwise: no two
    workers run at a time.  Besides, the controls are disabled exactly
    while [is_typing] holds, and the stop event is set only while it
    holds, so that a stop requested while idle does not reach the next
    run. *)
Theorem window_runs_one_worker_at_a_time evs w :
  in_time evs w = true ->
  ui_running w = is_typing w ->
  (stop_event w = true -> is_typing w = true) ->
  List.length (started (ui_run evs w)) + running w
  = List.length (started w) + ended evs + running (ui_run evs w) /\
  ui_running (ui_run evs w) = is_typing (ui_run evs w) /\
  (stop_event (ui_run evs w) = true -> is_typing (ui_run evs w) = true).
Proof.
  revert w. induction evs as [|ev evs IH]; intros w Ht Hu Hs.
  - cbn. split; [lia|]. split; assumption.
  - cbn [in_time] in Ht. apply andb_true_iff in Ht. destruct Ht as [Hev Ht].
    cbn [ui_run fold_left]. fold (ui_run evs (ui_step ev w)).
    assert (Hstep :
      List.length (started (ui_step ev w)) + running w
      = List.length (started w)
        + ended [ev] + running (ui_step ev w) /\
      ui_running (ui_step ev w) = is_typing (ui_step ev w) /\
      (stop_event (ui_step ev w) = true -> is_typing (ui_step ev w) = true)).
    { unfold running. destruct ev as [| |sig]; cbn [ui_step ended filter List.length].
      - unfold on_start_clicked. destruct (is_typing w) eqn:Et.
        + cbn. rewrite Et. split; [lia|]. split; [exact Hu|]. intros _; reflexivity.
        + destruct (nonempty (strip (text_edit w))); cbn.
          * rewrite length_app. cbn. split; [lia|]. split; [reflexivity|].
            intros _; reflexivity.
          * rewrite Et. split; [lia|]. split; [exact Hu|]. exact Hs.
      - unfold on_stop_clicked. destruct (is_typing w) eqn:Et; cbn; rewrite Et.
        + split; [lia|]. split; [exact Hu|]. intros _; reflexivity.
        + split; [lia|]. split; [exact Hu|]. exact Hs.
      - rewrite Hev. destruct sig; cbn; (split; [lia|]);
          (split; [reflexivity|discriminate]). }
    destruct Hstep as (Hc & Hu' & Hs').
    destruct (IH (ui_step ev w) Ht Hu' Hs') as (Hc2 & Hu2 & Hs2).
    split; [|split; assumption].
    assert (He : ended (ev :: evs) = ended [ev] + ended evs).
    { unfold ended. cbn [filter].
      destruct ev; cbn [List.length]; lia. }
    lia.
Qed.

Lemma window_runs_one_worker_at_a_time_witness :
  List.length
    (started
       (ui_run [ClickStart; ClickStart; ClickStop; WorkerEnds (finished stopped_during);
                ClickStop; ClickStart] window0))
  + running window0
  = List.length (started window0)
    + ended [ClickStart; ClickStart; ClickStop; WorkerEnds (finished stopped_during);
             ClickStop; ClickStart]
    + running
        (ui_run [ClickStart; ClickStart; ClickStop; WorkerEnds (finished stopped_during);
                 ClickStop; ClickStart] window0).
Proof.
  apply window_runs_one_worker_at_a_time.
  - reflexivity.
  - reflexivity.
  - discriminate.
Defined.

(* ================================================================== *)
(** ** Further properties of auto_typer.py *)
(* ================================================================== *)

(** Property X12.  In auto_typer.py a cleared [is_typing] breaks out of the
    loop over the characters of a line only; the Enter that ends the line
    is pressed before the loop over the lines reads the flag again.  So,
    when the flag stays cleared once it has been read so, the typing
    thread emits after that read no key at all, or the one key "enter". *)
Theorem auto_typer_stop_is_followed_by_at_most_one_enter env a text h1 h2 :
  AutoTyperSpec.stays_stopped env ->
  AutoTyperSpec.flow_history (AutoTyper.type_normal_text env a text)
  = h1 ++ AutoTyper.IsTyping false :: h2 ->
  AutoTyperSpec.keys h2 = [] \/
  AutoTyperSpec.keys h2 = [Press "enter"].
Proof.
  intros Hs E. unfold AutoTyper.type_normal_text in E.
  destruct (AutoTyperMoreFacts.type_lines_shape env (AutoTyper.typing_speed a) Hs
              (AutoTyper.prevent_window_check a)
              (List.length
                 (split LF
                    (AutoTyper.apply_formatting (AutoTyper.language a) text)))
              (split LF
                 (AutoTyper.apply_formatting (AutoTyper.language a) text))
              0 []) as (ext & He & Hsh).
  cbn [app] in He. rewrite He in E. subst ext.
  destruct Hsh as [Hn|(live & tail & El & Hl & Ht)].
  - exfalso. apply Hn. apply in_or_app. right. left. reflexivity.
  - destruct (AutoTyperMoreFacts.first_occurrence _ _ _ _ _ El Hl) as (x & ->).
    apply (AutoTyperMoreFacts.stop_tail_suffix x h2). exact Ht.
Qed.

Lemma auto_typer_stop_is_followed_by_at_most_one_enter_witness :
  AutoTyperSpec.keys
    [AutoTyper.Key (Press "enter"); AutoTyper.Sleep (0 * (8 # 10))%Q;
     AutoTyper.IsTyping false] = [] \/
  AutoTyperSpec.keys
    [AutoTyper.Key (Press "enter"); AutoTyper.Sleep (0 * (8 # 10))%Q;
     AutoTyper.IsTyping false] = [Press "enter"].
Proof.
  apply (auto_typer_stop_is_followed_by_at_most_one_enter
           (AutoTyperSpec.stop_after 1) AutoTyperSpec.app_two_lines
           (s "ab" ++ [LF] ++ s "cd")
           [AutoTyper.IsTyping true; AutoTyper.IsTyping true;
            AutoTyper.Key (Write "a"%char); AutoTyper.Sleep 0]).
  - intros h x H. unfold AutoTyperSpec.stop_after in *.
    cbn [AutoTyper.is_typing_read] in *.
    rewrite AutoTyperMoreFacts.auto_keys_app, length_app.
    apply Nat.ltb_ge in H. apply Nat.ltb_ge. lia.
  - reflexivity.
Defined.

(** Property X13.  After [start_typing] of auto_typer.py (with text in the
    text area, no run in progress and no timer pending) the typing thread is
    started by the timer of the countdown that fires after the start delay
    rounded up to whole seconds, and by none before it: a delay of 2.5
    seconds lasts 3 seconds.  The thread is handed the stripped text. *)
Theorem auto_typer_countdown_lasts_whole_seconds a :
  AutoTyper.timers a = [] ->
  AutoTyper.is_typing a = false ->
  nonempty (strip (AutoTyper.text_area a)) = true ->
  (forall k,
     k < AutoTyperSpec.countdown_seconds a ->
     AutoTyper.threads
       (AutoTyperSpec.after_timers k (AutoTyper.start_typing a))
     = AutoTyper.threads a /\
     AutoTyper.is_typing
       (AutoTyperSpec.after_timers k (AutoTyper.start_typing a)) = false) /\
  AutoTyper.threads
    (AutoTyperSpec.after_timers (AutoTyperSpec.countdown_seconds a)
       (AutoTyper.start_typing a))
  = AutoTyper.threads a ++ [strip (AutoTyper.text_area a)] /\
  AutoTyper.is_typing
    (AutoTyperSpec.after_timers (AutoTyperSpec.countdown_seconds a)
       (AutoTyper.start_typing a)) = true.
Proof.
  intros Ht Hi Hn. unfold AutoTyper.start_typing. rewrite Hn, Hi.
  cbn [negb]. unfold AutoTyperSpec.countdown_seconds.
  set (a1 := AutoTyper.set_status _ a).
  assert (Ht1 : AutoTyper.timers a1 = []) by exact Ht.
  split.
  - intros k Hk.
    destruct (AutoTyperMoreFacts.countdown_running
                (strip (AutoTyper.text_area a)) a1
                (AutoTyper.start_delay a) k Ht1 Hk) as (_ & Th & Ty).
    split; [exact Th|]. rewrite Ty. exact Hi.
  - destruct (AutoTyperMoreFacts.countdown_expires
                (strip (AutoTyper.text_area a)) a1
                (AutoTyper.start_delay a) Ht1) as (Th & Ty & _).
    split; [exact Th|exact Ty].
Qed.

Lemma auto_typer_countdown_lasts_whole_seconds_witness :
  AutoTyper.threads
    (AutoTyperSpec.after_timers 3
       (AutoTyper.start_typing AutoTyperSpec.app_delay_2_5))
  = [s "hi"] /\
  AutoTyper.threads
    (AutoTyperSpec.after_timers 2
       (AutoTyper.start_typing AutoTyperSpec.app_delay_2_5))
  = [].
Proof.
  destruct (auto_typer_countdown_lasts_whole_seconds
              AutoTyperSpec.app_delay_2_5) as (Hb & Ha & _);
    [reflexivity|reflexivity|reflexivity|].
  split; [exact Ha|]. apply (Hb 2). vm_compute. lia.
Defined.

(** Property X14.  The formatting that [type_normal_text] of auto_typer.py
    applies to the text is idempotent, for every language: formatting a
    formatted text leaves it as it is. *)
Theorem auto_typer_formatting_is_idempotent lang txt :
  AutoTyper.apply_formatting lang (AutoTyper.apply_formatting lang txt)
  = AutoTyper.apply_formatting lang txt.
Proof.
  unfold AutoTyper.apply_formatting.
  destruct (str_eqb lang (s "text")); cbn [negb]; [reflexivity|].
  unfold AutoTyper.format_cpp_code, AutoTyper.format_java_code,
    AutoTyper.format_javascript_code, AutoTyper.format_csharp_code,
    AutoTyper.format_generic_code, AutoTyper.format_python_code.
  repeat (match goal with
          | |- context [if ?b then _ else _] => destruct b
          end;
          [f_equal; apply AutoTyperMoreFacts.formatted_lines_idem|]).
  reflexivity.
Qed.

(** Property X15.  The hotkeys that [ok_clicked] hands over, with every
    token wrapped in angle brackets, are shown by a dialog opened on them
    as the user had entered them: stripped, lower-cased and without angle
    brackets.  [format_hotkey_for_display] shows the same text,
    capitalized. *)
Theorem auto_typer_dialog_shows_what_was_confirmed d a b :
  AutoTyper.result d = None ->
  AutoTyper.result (AutoTyper.ok_clicked d) = Some (a, b) ->
  AutoTyper.start_var (AutoTyper.HotkeyDialog_init a b)
  = remove_char GT (remove_char LT (lower (strip (AutoTyper.start_var d)))) /\
  AutoTyper.stop_var (AutoTyper.HotkeyDialog_init a b)
  = remove_char GT (remove_char LT (lower (strip (AutoTyper.stop_var d)))) /\
  AutoTyper.format_hotkey_for_display a
  = capitalize
      (remove_char GT (remove_char LT (lower (strip (AutoTyper.start_var d))))).
Proof.
  intros Hr H. unfold AutoTyper.ok_clicked in H.
  destruct (negb (nonempty (lower (strip (AutoTyper.start_var d))))
            || negb (nonempty (lower (strip (AutoTyper.stop_var d)))));
    cbn [AutoTyper.result] in H; [congruence|].
  destruct (str_eqb (lower (strip (AutoTyper.start_var d)))
                    (lower (strip (AutoTyper.stop_var d))));
    cbn [AutoTyper.result] in H; [congruence|].
  injection H as <- <-.
  unfold AutoTyper.HotkeyDialog_init, AutoTyper.format_hotkey_for_display.
  cbn [AutoTyper.start_var AutoTyper.stop_var].
  rewrite !AutoTyperMoreFacts.unwrap_tokens. repeat split.
Qed.

Lemma auto_typer_dialog_shows_what_was_confirmed_witness :
  AutoTyper.start_var
    (AutoTyper.HotkeyDialog_init (s "<ctrl>+<alt>+<<f5>>") (s "<ctrl>+<q>"))
  = remove_char GT
      (remove_char LT
         (lower (strip (AutoTyper.start_var AutoTyperSpec.dialog_f5)))).
Proof.
  apply (auto_typer_dialog_shows_what_was_confirmed
           AutoTyperSpec.dialog_f5 (s "<ctrl>+<alt>+<<f5>>")
           (s "<ctrl>+<q>")); reflexivity.
Defined.

(** Property X16.  [test_hotkeys] compares the two entries as they are,
    [ok_clicked] compares them lower-cased.  Two valid hotkeys that differ
    in case only therefore pass the test ("Both hotkeys appear to be
    valid!") and are refused by OK with "Start and stop hotkeys must be
    different!", no result being set. *)
Theorem auto_typer_test_passes_hotkeys_that_ok_rejects d :
  lower (strip (AutoTyper.start_var d))
  = lower (strip (AutoTyper.stop_var d)) ->
  strip (AutoTyper.start_var d) <> strip (AutoTyper.stop_var d) ->
  fst (AutoTyper.validate_hotkey (strip (AutoTyper.start_var d))) = true ->
  fst (AutoTyper.validate_hotkey (strip (AutoTyper.stop_var d))) = true ->
  AutoTyper.test_hotkeys d = AutoTyper.BothValid /\
  AutoTyper.result (AutoTyper.ok_clicked d) = AutoTyper.result d /\
  AutoTyper.errors (AutoTyper.ok_clicked d)
  = AutoTyper.errors d
      ++ [Critical "Error" "Start and stop hotkeys must be different!"].
Proof.
  intros Hl Hne Va Vb.
  pose proof (AutoTyperMoreFacts.validate_hotkey_nonempty _ Va) as Na.
  pose proof (AutoTyperMoreFacts.validate_hotkey_nonempty _ Vb) as Nb.
  split.
  - unfold AutoTyper.test_hotkeys. rewrite Na, Nb. cbn [negb orb].
    assert (E : str_eqb (strip (AutoTyper.start_var d))
                        (strip (AutoTyper.stop_var d)) = false).
    { unfold str_eqb. destruct (list_eq_dec ascii_dec _ _); congruence. }
    rewrite E.
    destruct (AutoTyper.validate_hotkey (strip (AutoTyper.start_var d)))
      as [v1 m1].
    destruct (AutoTyper.validate_hotkey (strip (AutoTyper.stop_var d)))
      as [v2 m2].
    cbn [fst] in Va, Vb. subst v1 v2. reflexivity.
  - unfold AutoTyper.ok_clicked.
    assert (La : nonempty (lower (strip (AutoTyper.start_var d))) = true).
    { destruct (strip (AutoTyper.start_var d)); [discriminate|reflexivity]. }
    assert (Lb : nonempty (lower (strip (AutoTyper.stop_var d))) = true).
    { destruct (strip (AutoTyper.stop_var d)); [discriminate|reflexivity]. }
    rewrite La, Lb. cbn [negb orb]. rewrite Hl, str_eqb_refl.
    split; reflexivity.
Qed.

Lemma auto_typer_test_passes_hotkeys_that_ok_rejects_witness :
  AutoTyper.test_hotkeys AutoTyperSpec.dialog_case = AutoTyper.BothValid /\
  AutoTyper.result (AutoTyper.ok_clicked AutoTyperSpec.dialog_case) = None.
Proof.
  destruct (auto_typer_test_passes_hotkeys_that_ok_rejects
              AutoTyperSpec.dialog_case) as (H1 & H2 & _).
  - reflexivity.
  - vm_compute. discriminate.
  - reflexivity.
  - reflexivity.
  - split; [exact H1|exact H2].
Defined.

(** Property X17.  [start_hotkey_listener] of auto_typer.py, with the
    hotkeys enabled, on a system that takes the default hotkeys, and with
    room for two nested calls: it returns with a running listener.  Either
    the system took the hotkeys of the application, which are kept, and no
    warning is shown; or it did not, and then the hotkeys are the
    defaults, the listener is registered for them, one warning has been
    shown, and the defaults have been saved. *)
Theorem auto_typer_listener_falls_back_to_the_defaults depth os h :
  AutoTyper.hotkeys_enabled h = true ->
  os (AutoTyper.hotkey_dict AutoTyper.default_start_hotkey
        AutoTyper.default_stop_hotkey) = AutoTyper.Registered ->
  2 <= depth ->
  exists h',
    AutoTyper.start_hotkey_listener depth os h = Some h' /\
    ((os (AutoTyper.hotkey_dict (AutoTyper.start_hotkey h)
            (AutoTyper.stop_hotkey h)) = AutoTyper.Registered /\
      AutoTyper.hotkey_listener h'
      = Some (AutoTyper.hotkey_dict (AutoTyper.start_hotkey h)
                (AutoTyper.stop_hotkey h), true) /\
      AutoTyper.start_hotkey h' = AutoTyper.start_hotkey h /\
      AutoTyper.stop_hotkey h' = AutoTyper.stop_hotkey h /\
      AutoTyper.hotkey_warnings h' = AutoTyper.hotkey_warnings h /\
      AutoTyper.saved h' = AutoTyper.saved h)
     \/
     (os (AutoTyper.hotkey_dict (AutoTyper.start_hotkey h)
            (AutoTyper.stop_hotkey h)) <> AutoTyper.Registered /\
      AutoTyper.hotkey_listener h'
      = Some (AutoTyper.hotkey_dict AutoTyper.default_start_hotkey
                AutoTyper.default_stop_hotkey, true) /\
      AutoTyper.start_hotkey h' = AutoTyper.default_start_hotkey /\
      AutoTyper.stop_hotkey h' = AutoTyper.default_stop_hotkey /\
      (exists e,
         AutoTyper.hotkey_warnings h' = AutoTyper.hotkey_warnings h ++ [e]) /\
      AutoTyper.saved h'
      = AutoTyper.saved h
          ++ [(AutoTyper.default_start_hotkey,
               AutoTyper.default_stop_hotkey)])).
Proof.
  intros He Hos Hd.
  destruct depth as [|[|depth]]; [lia|lia|].
  destruct (AutoTyperMoreFacts.stop_listener_fields h)
    as (F1 & F2 & F3 & F4 & F5).
  cbn [AutoTyper.start_hotkey_listener]. rewrite He. cbn [negb].
  rewrite F2, F3.
  destruct (os (AutoTyper.hotkey_dict (AutoTyper.start_hotkey h)
                  (AutoTyper.stop_hotkey h))) as [|e|e] eqn:Eo.
  - eexists. split; [reflexivity|]. left.
    cbn. repeat split; assumption.
  - unfold AutoTyper.reset_after_error at 1 2.
    cbn [AutoTyper.hotkeys_enabled AutoTyper.save_settings
         AutoTyper.start_hotkey AutoTyper.stop_hotkey].
    rewrite F1, He. cbn [negb]. 
    match goal with
    | |- context [AutoTyper.stop_listener ?x] =>
        destruct (AutoTyperMoreFacts.stop_listener_fields x)
          as (G1 & G2 & G3 & G4 & G5); rewrite G2, G3
    end.
    unfold AutoTyper.reset_after_error at 1 2.
    cbn [AutoTyper.hotkeys_enabled AutoTyper.save_settings
         AutoTyper.start_hotkey AutoTyper.stop_hotkey].
    rewrite Hos. eexists. split; [reflexivity|]. right.
    split; [discriminate|].
    cbn [AutoTyper.hotkey_listener AutoTyper.set_hotkey_listener
         AutoTyper.start_hotkey AutoTyper.stop_hotkey
         AutoTyper.hotkey_warnings AutoTyper.saved].
    rewrite G2, G3, G4, G5.
    cbn [AutoTyper.reset_after_error AutoTyper.save_settings
         AutoTyper.start_hotkey AutoTyper.stop_hotkey
         AutoTyper.hotkey_warnings AutoTyper.saved].
    rewrite F4, F5. repeat split. exists e. reflexivity.
  - unfold AutoTyper.reset_after_error at 1 2.
    cbn [AutoTyper.hotkeys_enabled AutoTyper.save_settings
         AutoTyper.start_hotkey AutoTyper.stop_hotkey
         AutoTyper.set_hotkey_listener].
    rewrite F1, He. cbn [negb].
    match goal with
    | |- context [AutoTyper.stop_listener ?x] =>
        destruct (AutoTyperMoreFacts.stop_listener_fields x)
          as (G1 & G2 & G3 & G4 & G5); rewrite G2, G3
    end.
    unfold AutoTyper.reset_after_error at 1 2.
    cbn [AutoTyper.hotkeys_enabled AutoTyper.save_settings
         AutoTyper.start_hotkey AutoTyper.stop_hotkey
         AutoTyper.set_hotkey_listener].
    rewrite Hos. eexists. split; [reflexivity|]. right.
    split; [discriminate|].
    cbn [AutoTyper.hotkey_listener AutoTyper.set_hotkey_listener
         AutoTyper.start_hotkey AutoTyper.stop_hotkey
         AutoTyper.hotkey_warnings AutoTyper.saved].
    rewrite G2, G3, G4, G5.
    cbn [AutoTyper.reset_after_error AutoTyper.save_settings
         AutoTyper.start_hotkey AutoTyper.stop_hotkey
         AutoTyper.hotkey_warnings AutoTyper.saved
         AutoTyper.set_hotkey_listener].
    rewrite F4, F5. repeat split. exists e. reflexivity.
Qed.

Lemma auto_typer_listener_falls_back_to_the_defaults_witness :
  exists h',
    AutoTyper.start_hotkey_listener 2 AutoTyperSpec.defaults_only
      AutoTyperSpec.hotkeys_f13 = Some h' /\
    AutoTyper.start_hotkey h' = AutoTyper.default_start_hotkey.
Proof.
  destruct (auto_typer_listener_falls_back_to_the_defaults 2
              AutoTyperSpec.defaults_only AutoTyperSpec.hotkeys_f13)
    as (h' & Hr & [(Ho & _)|(_ & _ & Hs & _)]).
  - reflexivity.
  - reflexivity.
  - lia.
  - discriminate Ho.
  - exists h'. split; [exact Hr|exact Hs].
Defined.

(** Property X18.  On a system that takes no registration at all, not even
    that of the defaults, [start_hotkey_listener] of auto_typer.py with the
    hotkeys enabled never returns: each failure calls the function again,
    and whatever the recursion limit, the call ends with the
    RecursionError. *)
Theorem auto_typer_listener_retries_without_end depth os h :
  AutoTyper.hotkeys_enabled h = true ->
  (forall m, os m <> AutoTyper.Registered) ->
  AutoTyper.start_hotkey_listener depth os h = None.
Proof.
  intros He Hos. revert h He.
  induction depth as [|depth IH]; intros h He; [reflexivity|].
  cbn [AutoTyper.start_hotkey_listener]. rewrite He. cbn [negb].
  destruct (os _) as [|e|e] eqn:Eo.
  - exfalso. exact (Hos _ Eo).
  - apply IH. cbn.
    destruct (AutoTyperMoreFacts.stop_listener_fields h) as (F1 & _).
    rewrite F1. exact He.
  - apply IH. cbn.
    destruct (AutoTyperMoreFacts.stop_listener_fields h) as (F1 & _).
    rewrite F1. exact He.
Qed.

Lemma auto_typer_listener_retries_without_end_witness :
  AutoTyper.start_hotkey_listener 1000 AutoTyperSpec.no_listener
    AutoTyperSpec.hotkeys_f13 = None.
Proof.
  apply auto_typer_listener_retries_without_end.
  - reflexivity.
  - intros m. discriminate.
Defined.

(** Property X19.  [set_hotkeys] of auto_typer.py reads [dialog.result] as
    soon as the constructor of the dialog returns, which is before the
    user can confirm anything: the result is still [None], and the hotkeys,
    the listener and the saved settings are left as they were. *)
Theorem auto_typer_set_hotkeys_changes_nothing depth os h :
  fst (AutoTyper.set_hotkeys depth os h) = Some h /\
  AutoTyper.result (snd (AutoTyper.set_hotkeys depth os h)) = None.
Proof. split; reflexivity. Qed.

(** Property X20.  When nobody stops the typing thread of auto_typer.py and
    no pyautogui call raises, the thread ends with the status "Typing
    completed successfully!" and [is_typing] cleared, and the keys it
    emitted are those of the formatted text, character by character: tab
    for a tab, enter for a line break, the character itself otherwise. *)
Theorem auto_typer_keys_follow_the_text env a text :
  AutoTyperSpec.quiet env ->
  exists h,
    AutoTyper.type_text env text a
    = (AutoTyper.set_is_typing false
         (AutoTyper.set_status AutoTyper.Completed a), h) /\
    AutoTyperSpec.keys h
    = text_keys
        (split LF (AutoTyper.apply_formatting (AutoTyper.language a) text)) /\
    AutoTyperSpec.keys h
    = map key_of_char
        (AutoTyper.apply_formatting (AutoTyper.language a) text).
Proof.
  intro Hq. unfold AutoTyper.type_text, AutoTyper.type_normal_text.
  destruct (AutoTyperMoreFacts.thread_lines_quiet env (AutoTyper.typing_speed a)
              Hq (AutoTyper.prevent_window_check a)
              (split LF
                 (AutoTyper.apply_formatting (AutoTyper.language a) text))
              (List.length
                 (split LF
                    (AutoTyper.apply_formatting (AutoTyper.language a) text)))
              0 []) as (ext & He & Hk); [reflexivity|].
  rewrite He. cbn [app]. destruct Hq as [Hr _]. rewrite Hr.
  eexists. split; [reflexivity|].
  rewrite AutoTyperMoreFacts.auto_keys_app, Hk. cbn [AutoTyperSpec.keys flat_map].
  rewrite app_nil_r. split; [reflexivity|].
  apply text_keys_split.
Qed.

Lemma auto_typer_keys_follow_the_text_witness :
  exists h,
    AutoTyper.type_text AutoTyperSpec.undisturbed (s "a" ++ [TAB; LF] ++ s "b")
      AutoTyperSpec.app0
    = (AutoTyper.set_is_typing false
         (AutoTyper.set_status AutoTyper.Completed AutoTyperSpec.app0), h) /\
    AutoTyperSpec.keys h
    = [Write "a"%char; Press "tab"; Press "enter"; Write "b"%char].
Proof.
  destruct (auto_typer_keys_follow_the_text AutoTyperSpec.undisturbed
              AutoTyperSpec.app0 (s "a" ++ [TAB; LF] ++ s "b"))
    as (h & Hr & _ & Hk).
  - split; reflexivity.
  - exists h. split; [exact Hr|exact Hk].
Defined.
